(** * Teacher portal (llm-edu-demo): the lesson store and the
      tool-augmented generation handler of [server.js]

    The development embeds the request handlers of [src/server.js] and the
    form encoding of the browser client.  JavaScript values are weakly
    typed, so everything that crosses a service boundary (request bodies,
    model responses, the media-search payload, parsed tool arguments) is a
    [JSValue]; property reads, truthiness, [||], [??] and [?.] are written
    out with the exceptions they raise.  The model service, the
    media-search service and the JSON codec are the environment: they are
    oracles that see the whole history of external calls made so far. *)

From Stdlib Require Import ZArith Ascii String Lia.
From stdpp Require Import gmap strings list pretty.

Local Open Scope string_scope.
Local Open Scope nat_scope.
Local Open Scope list_scope.
Set Warnings "-register-all,-abstract-large-number".

(** ** JavaScript values *)

(** A string is a sequence of code units; the embedding represents the code
    units below 256.  Numbers are the integral ones: the only numbers the
    handlers inspect are lengths, the loop counter and the [count]
    argument; [JNum n] is the Number nearest to the integer [n], which is
    [n] itself up to 2^53.  The field list of an object is its own
    properties in enumeration order.  No value is a function.  [JObj] is
    an object whose prototype is [Object.prototype], as [JSON.parse] and
    object literals build; [JBare] is an object without prototype, as the
    multipart parser builds for the body of a form and for bracketed field
    names. *)
Inductive JSValue : Type :=
| JUndefined
| JNull
| JBool (b : bool)
| JNum (n : Z)
| JStr (s : string)
| JArr (items : list JSValue)
| JObj (fields : list (string * JSValue))
| JBare (fields : list (string * JSValue)).

Inductive JSError : Type :=
| Error (message : string)
| TypeError (message : string)
| SyntaxError (message : string).

(** [error.message] *)
Definition error_message (e : JSError) : string :=
  match e with
  | Error m | TypeError m | SyntaxError m => m
  end.

(** The outcome of evaluating an expression: a value or a thrown error. *)
Inductive Result (A : Type) : Type :=
| Ok (a : A)
| Throw (e : JSError).
Arguments Ok {A} a.
Arguments Throw {A} e.

Definition nl : string := String (ascii_of_nat 10) EmptyString.

Definition is_nullish (v : JSValue) : bool :=
  match v with
  | JUndefined | JNull => true
  | _ => false
  end.

(** ToBoolean *)
Definition truthy (v : JSValue) : bool :=
  match v with
  | JUndefined | JNull => false
  | JBool b => b
  | JNum n => negb (n =? 0)%Z
  | JStr s => negb (String.eqb s EmptyString)
  | JArr _ | JObj _ | JBare _ => true
  end.

(** [a || b] and [a ?? b] *)
Definition js_or (a b : JSValue) : JSValue := if truthy a then a else b.
Definition js_nullish_or (a b : JSValue) : JSValue :=
  if is_nullish a then b else a.

(** [v === "s"] for a string literal *)
Definition strict_eq_str (v : JSValue) (s : string) : bool :=
  match v with
  | JStr s' => String.eqb s' s
  | _ => false
  end.

Fixpoint assoc (k : string) (fields : list (string * JSValue)) : JSValue :=
  match fields with
  | [] => JUndefined
  | (k', v) :: rest => if String.eqb k' k then v else assoc k rest
  end.

Fixpoint string_nth (n : nat) (s : string) : JSValue :=
  match s, n with
  | EmptyString, _ => JUndefined
  | String c _, O => JStr (String c EmptyString)
  | String _ s', S n' => string_nth n' s'
  end.

(** [v[n]] on a value that is neither [null] nor [undefined] *)
Definition index (v : JSValue) (n : nat) : JSValue :=
  match v with
  | JArr items => nth n items JUndefined
  | JStr s => string_nth n s
  | JObj fields | JBare fields => assoc (pretty n) fields
  | _ => JUndefined
  end.

(** The array index a property key denotes, if it denotes one in range. *)
Definition key_index (k : string) (len : nat) : option nat :=
  find (fun i => String.eqb (pretty i) k) (seq 0 len).

(** [v.k] on a value that is neither [null] nor [undefined].  Methods of
    the prototypes are not values of the embedding; the calls the source
    makes ([trim], [filter], [map], [join], [slice]) are operations of
    their own below. *)
Definition prop (v : JSValue) (k : string) : JSValue :=
  match v with
  | JObj fields | JBare fields => assoc k fields
  | JArr items =>
      if String.eqb k "length" then JNum (Z.of_nat (length items))
      else match key_index k (length items) with
           | Some i => nth i items JUndefined
           | None => JUndefined
           end
  | JStr s =>
      if String.eqb k "length" then JNum (Z.of_nat (String.length s))
      else match key_index k (String.length s) with
           | Some i => string_nth i s
           | None => JUndefined
           end
  | _ => JUndefined
  end.

Definition describe_nullish (v : JSValue) : string :=
  match v with
  | JNull => "null"
  | _ => "undefined"
  end.

Definition cannot_read (v : JSValue) (k : string) : JSError :=
  TypeError ("Cannot read properties of " +:+ describe_nullish v +:+
             " (reading '" +:+ k +:+ "')").

(** [v.k]: a TypeError on [null] and [undefined] *)
Definition get_prop (v : JSValue) (k : string) : Result JSValue :=
  if is_nullish v then Throw (cannot_read v k) else Ok (prop v k).

(** [v[n].k'] reads go through [get_index] *)
Definition get_index (v : JSValue) (n : nat) : Result JSValue :=
  if is_nullish v then Throw (cannot_read v (pretty n)) else Ok (index v n).

(** [v?.k] and [v?.[n]] *)
Definition opt_prop (v : JSValue) (k : string) : JSValue :=
  if is_nullish v then JUndefined else prop v k.
Definition opt_index (v : JSValue) (n : nat) : JSValue :=
  if is_nullish v then JUndefined else index v n.

(** ** Conversion to a string *)

(** The Number nearest to a positive integer, ties going to the even
    significand of 53 bits; [None] stands for [Infinity]. *)
Definition nearest_double (a : Z) : option Z :=
  let bits := (Z.log2 a + 1)%Z in
  if (bits <=? 53)%Z then Some a
  else
    let s := (bits - 53)%Z in
    let q := Z.shiftr a s in
    let r := (a - Z.shiftl q s)%Z in
    let half := Z.shiftl 1 (s - 1) in
    let q' := if (half <? r)%Z || ((r =? half)%Z && Z.odd q)
              then (q + 1)%Z else q in
    let d := Z.shiftl q' s in
    if (Z.shiftl 1 1024 <=? d)%Z then None else Some d.

(** [within d c]: the integer [c] reads back as the Number [d], for
    [d >= 2^53].  The bounds are scaled by 4, a quarter of the gap between
    neighbouring Numbers being an integer then; they are part of the
    interval when the significand of [d] is even. *)
Definition within (d c : Z) : bool :=
  let s := (Z.log2 d - 52)%Z in
  let m := Z.shiftr d s in
  let up := Z.shiftl 2 s in
  let down := if (m =? Z.shiftl 1 52)%Z then Z.shiftl 1 s else up in
  let lo := (4 * d - down)%Z in
  let hi := (4 * d + up)%Z in
  if Z.even m then (lo <=? 4 * c)%Z && (4 * c <=? hi)%Z
  else (lo <? 4 * c)%Z && (4 * c <? hi)%Z.

(** The decimal with the fewest significant digits that reads back as
    [d], the one closest to [d] when there are several, with the number
    of zeros it ends in: the search goes down from the highest power of
    ten. *)
Fixpoint shortest (d : Z) (j : nat) : Z * nat :=
  let p := (10 ^ Z.of_nat j)%Z in
  let below := (d / p * p)%Z in
  let above := (below + p)%Z in
  let found :=
    match within d below, within d above with
    | true, true =>
        Some (if (d - below <=? above - d)%Z then below else above)
    | true, false => Some below
    | false, true => Some above
    | false, false => None
    end in
  match found, j with
  | Some c, _ => (c, j)
  | None, O => (d, O)
  | None, S j' => shortest d j'
  end.

Definition decimal_digits (a : Z) : nat := String.length (pretty a).

(** Number::toString on an integral Number: the decimal notation up to 21
    digits; beyond, the significant digits with a point after the first,
    and the exponent. *)
Definition Number_toString (n : Z) : string :=
  let sign := if (n <? 0)%Z then "-" else EmptyString in
  match nearest_double (Z.abs n) with
  | None => sign +:+ "Infinity"
  | Some d =>
      if (d <? Z.shiftl 1 53)%Z then sign +:+ pretty d
      else
        let (c, j) := shortest d (decimal_digits d) in
        let n := decimal_digits c in
        if n <=? 21 then sign +:+ pretty c
        else
          let digits := pretty (c / 10 ^ Z.of_nat j)%Z in
          sign +:+
          match digits with
          | String first EmptyString => String first EmptyString
          | String first rest => String first ("." +:+ rest)
          | EmptyString => EmptyString
          end +:+ "e+" +:+ pretty (n - 1)
  end.

(** An object has an own property [k], whatever its value. *)
Definition has_own (k : string) (fields : list (string * JSValue)) : bool :=
  existsb (fun field => String.eqb field.1 k) fields.

Definition cannot_convert : JSError :=
  TypeError "Cannot convert object to primitive value".

(** ToString, as used by template literals, [String(v)] and
    [URLSearchParams].  An array is the join of its elements.  An object
    is converted by its [toString] method, then by [valueOf]: an object
    without prototype has neither, and an own property [toString] hides
    the method of [Object.prototype] behind a value that cannot be called,
    after which [valueOf] gives no primitive; both throw a TypeError.  Any
    other object is ["[object Object]"]. *)
Fixpoint to_string (v : JSValue) : Result string :=
  match v with
  | JUndefined => Ok "undefined"
  | JNull => Ok "null"
  | JBool true => Ok "true"
  | JBool false => Ok "false"
  | JNum n => Ok (Number_toString n)
  | JStr s => Ok s
  | JArr items =>
      match
        (fix elems (l : list JSValue) : Result (list string) :=
           match l with
           | [] => Ok []
           | x :: rest =>
               match (if is_nullish x then Ok EmptyString else to_string x)
               with
               | Ok s =>
                   match elems rest with
                   | Ok ss => Ok (s :: ss)
                   | Throw e => Throw e
                   end
               | Throw e => Throw e
               end
           end) items
      with
      | Ok parts => Ok (String.concat "," parts)
      | Throw e => Throw e
      end
  | JObj fields =>
      if has_own "toString" fields then Throw cannot_convert
      else Ok "[object Object]"
  | JBare _ => Throw cannot_convert
  end.

Fixpoint string_chars (s : string) : list JSValue :=
  match s with
  | EmptyString => []
  | String c s' => JStr (String c EmptyString) :: string_chars s'
  end.

(** [Object.values(v)] *)
Definition Object_values (v : JSValue) : Result (list JSValue) :=
  match v with
  | JUndefined | JNull =>
      Throw (TypeError "Cannot convert undefined or null to object")
  | JObj fields | JBare fields => Ok (map snd fields)
  | JArr items => Ok items
  | JStr s => Ok (string_chars s)
  | JBool _ | JNum _ => Ok []
  end.

(** White space and line terminators among the represented code units. *)
Definition is_js_space (c : ascii) : bool :=
  let n := nat_of_ascii c in
  (n =? 9) || (n =? 10) || (n =? 11) || (n =? 12) || (n =? 13) ||
  (n =? 32) || (n =? 160).

Fixpoint trim_start (s : string) : string :=
  match s with
  | EmptyString => EmptyString
  | String c s' => if is_js_space c then trim_start s' else s
  end.

(** Drops the trailing white space: a character is kept when it is not a
    space or something is kept after it. *)
Fixpoint trim_end (s : string) : string :=
  match s with
  | EmptyString => EmptyString
  | String c s' =>
      match trim_end s' with
      | EmptyString => if is_js_space c then EmptyString
                       else String c EmptyString
      | kept => String c kept
      end
  end.

(** [String.prototype.trim] *)
Definition trim (s : string) : string := trim_end (trim_start s).

(** [s.slice(0, n)] for a non-negative literal [n] *)
Fixpoint slice_to (n : nat) (s : string) {struct s} : string :=
  match s, n with
  | EmptyString, _ => EmptyString
  | _, O => EmptyString
  | String c s', S n' => String c (slice_to n' s')
  end.

(** ** Exceptions and the environment *)

Definition bindR {A B : Type} (r : Result A) (k : A -> Result B) : Result B :=
  match r with
  | Ok a => k a
  | Throw e => Throw e
  end.

Notation "'let?' x := e 'in' k" := (bindR e (fun x => k))
  (at level 10, x name, e at level 100, k at level 200).

(** [l.filter(p)] and [l.map(f)] with callbacks that may throw: the first
    exception ends the traversal. *)
Fixpoint filterR {A : Type} (p : A -> Result bool) (l : list A)
  : Result (list A) :=
  match l with
  | [] => Ok []
  | x :: rest =>
      let? keep := p x in
      let? kept := filterR p rest in
      Ok (if keep then x :: kept else kept)
  end.

Fixpoint mapR {A B : Type} (f : A -> Result B) (l : list A)
  : Result (list B) :=
  match l with
  | [] => Ok []
  | x :: rest =>
      let? y := f x in
      let? ys := mapR f rest in
      Ok (y :: ys)
  end.

Record Message := { role : string; content : string }.

Record ToolOutput := { tool_call_id : JSValue; output : string }.

(** The two shapes of [openaiClient.responses.create(...)] in the source. *)
Inductive ModelRequest : Type :=
| CreateInitial (model : string) (input : list Message)
    (tools : list JSValue)
| CreateContinuation (previous_response_id : JSValue)
    (tools : list JSValue) (tool_outputs : list ToolOutput).

(** An external call: a model-service request, or a fetch of the media
    search with its query parameters. *)
Inductive Event : Type :=
| EModel (request : ModelRequest)
| EFetch (searchParams : list (string * string)).

Definition Trace := list Event.

(** What [fetch] gives back: a rejection (the transport failed), or a
    response with its [ok] flag and the outcome of [response.json()]. *)
Inductive FetchOutcome : Type :=
| FetchRejected (e : JSError)
| FetchResponse (ok : bool) (json : Result JSValue).

(** The environment of the handlers.  The oracles receive the calls made
    before the current one, so an answer may depend on the whole
    exchange. *)
Record World := {
  JSON_parse : string -> Result JSValue;
  JSON_stringify : JSValue -> string;
  utf8_decode : list Byte.byte -> string;
  openaiApiKey : option string;
  responses_create : Trace -> ModelRequest -> Result JSValue;
  fetch : Trace -> list (string * string) -> FetchOutcome;
}.

(** Computations that call the environment: the trace of calls is threaded
    through, and an exception ends the computation. *)
Definition M (A : Type) : Type := Trace -> Trace * Result A.

Definition retM {A : Type} (a : A) : M A := fun tr => (tr, Ok a).

Definition liftR {A : Type} (r : Result A) : M A := fun tr => (tr, r).

Definition bindM {A B : Type} (m : M A) (k : A -> M B) : M B :=
  fun tr =>
    match m tr with
    | (tr', Ok a) => k a tr'
    | (tr', Throw e) => (tr', Throw e)
    end.

Notation "'let!' x := e 'in' k" := (bindM e (fun x => k))
  (at level 10, x name, e at level 100, k at level 200).

(** ** [server.js]: the image search and the generation handler *)

Definition dq : string := String (ascii_of_nat 34) EmptyString.

(** The filter callback [(page) => page.imageinfo?.length] *)
Definition has_imageinfo (page : JSValue) : Result bool :=
  let? imageinfo := get_prop page "imageinfo" in
  Ok (truthy (opt_prop imageinfo "length")).

(** The map callback building one result object. *)
Definition to_image_result (page : JSValue) : Result JSValue :=
  let? title := get_prop page "title" in
  let? imageinfo := get_prop page "imageinfo" in
  let? first := get_index imageinfo 0 in
  let? url := get_prop first "url" in
  let? title' := get_prop page "title" in
  let? shown := to_string title' in
  Ok (JObj [("title", title);
            ("url", url);
            ("pageUrl",
             JStr ("https://commons.wikimedia.org/wiki/" +:+ shown))]).

(** [payload?.query?.pages ? Object.values(payload.query.pages) : []] *)
Definition pages_of (payload : JSValue) : Result (list JSValue) :=
  if truthy (opt_prop (opt_prop payload "query") "pages") then
    let? query := get_prop payload "query" in
    let? pages := get_prop query "pages" in
    Object_values pages
  else Ok [].

(** The part of [performImageSearch] after [response.json()]. *)
Definition image_results (payload : JSValue) : Result (list JSValue) :=
  let? pages := pages_of payload in
  let? withImage := filterR has_imageinfo pages in
  mapR to_image_result withImage.

(** The parameters of a search for the text [gsrsearch] with the limit
    [gsrlimit]. *)
Definition query_params (gsrsearch gsrlimit : string)
  : list (string * string) :=
  [("action", "query");
   ("format", "json");
   ("origin", "*");
   ("generator", "search");
   ("gsrlimit", gsrlimit);
   ("gsrsearch", gsrsearch);
   ("prop", "imageinfo");
   ("iiprop", "url");
   ("iiurlwidth", "800")].

(** [new URLSearchParams({...})]; [count = 4] is the default of the
    parameter, used when the argument is [undefined].  [String(count)] is
    evaluated in the object literal, and the constructor converts the
    other values, [query] among them, to strings: either conversion may
    throw. *)
Definition search_params (query count : JSValue)
  : Result (list (string * string)) :=
  let count := match count with JUndefined => JNum 4 | _ => count end in
  let? gsrlimit := to_string count in
  let? gsrsearch := to_string query in
  Ok (query_params gsrsearch gsrlimit).

(** [collectToolCalls] *)
Definition is_tool_call (item : JSValue) : Result bool :=
  let? type := get_prop item "type" in
  Ok (strict_eq_str type "tool_call" || strict_eq_str type "function_call").

Definition collectToolCalls (response : JSValue) : Result (list JSValue) :=
  match js_or (opt_prop response "output") (JArr []) with
  | JArr output => filterR is_tool_call output
  | _ => Throw (TypeError "output.filter is not a function")
  end.

Record UploadedFile := { originalname : string; buffer : list Byte.byte }.

(** [imageSearchQuery?.trim()] *)
Definition opt_trim (v : JSValue) : Result JSValue :=
  match v with
  | JUndefined | JNull => Ok JUndefined
  | JStr s => Ok (JStr (trim s))
  | _ => Throw (TypeError "imageSearchQuery?.trim is not a function")
  end.

(** [`${topic || "lesson"} classroom illustration`] *)
Definition default_image_query (topic : JSValue) : Result JSValue :=
  let? shown := to_string (js_or topic (JStr "lesson")) in
  Ok (JStr (shown +:+ " classroom illustration")).

(** [imageSearchQuery?.trim() || `${topic || "lesson"} classroom illustration`]:
    the template is evaluated only when the left operand is falsy. *)
Definition resolveImageQuery (imageSearchQuery topic : JSValue)
  : Result JSValue :=
  let? trimmed := opt_trim imageSearchQuery in
  if truthy trimmed then Ok trimmed else default_image_query topic.

Definition systemPrompt : string :=
  "You are an assistant for teachers. Create structured lesson plans with citations. " +:+
  "If you use facts from web search, cite them inline like [1], [2]. " +:+
  "You may call the image_search tool to find image URLs and include them.".

(** The template of the user instruction, its substitutions converted. *)
Definition prompt_text (topic gradeLevel duration objectives
    contextFromFiles resolvedImageQuery youtubeUrl : string) : string :=
  "Build a lesson plan in markdown with sections: Overview, " +:+
  dq +:+ "Learning Objectives" +:+ dq +:+ ", " +:+
  dq +:+ "Materials" +:+ dq +:+ ", " +:+
  dq +:+ "Lesson Steps" +:+ dq +:+ ", " +:+
  dq +:+ "Assessment" +:+ dq +:+ ", and " +:+
  dq +:+ "Homework" +:+ dq +:+ "." +:+ nl +:+ nl +:+
  "Topic: " +:+ topic +:+ nl +:+
  "Grade level: " +:+ gradeLevel +:+ nl +:+
  "Duration: " +:+ duration +:+ nl +:+
  "Objectives: " +:+ objectives +:+ nl +:+ nl +:+
  "Include any relevant citations for facts." +:+ nl +:+ nl +:+
  "Uploaded context for RAG:" +:+ nl +:+
  contextFromFiles +:+ nl +:+ nl +:+
  "If images are requested, call image_search with this query: " +:+
  resolvedImageQuery +:+ nl +:+
  "YouTube link to include (if any): " +:+ youtubeUrl.

(** [userPrompt]: the substitutions of the template literal are converted
    to strings from left to right, and the first that cannot be converted
    throws. *)
Definition userPrompt (topic gradeLevel duration objectives : JSValue)
    (contextFromFiles : string) (resolvedImageQuery youtubeUrl : JSValue)
  : Result string :=
  let? topic' := to_string (js_or topic (JStr EmptyString)) in
  let? gradeLevel' := to_string (js_or gradeLevel (JStr EmptyString)) in
  let? duration' := to_string (js_or duration (JStr EmptyString)) in
  let? objectives' := to_string (js_or objectives (JStr EmptyString)) in
  let? resolvedImageQuery' := to_string resolvedImageQuery in
  let? youtubeUrl' := to_string (js_or youtubeUrl (JStr EmptyString)) in
  Ok (prompt_text topic' gradeLevel' duration' objectives' contextFromFiles
        resolvedImageQuery' youtubeUrl').

Definition web_search_tool : JSValue := JObj [("type", JStr "web_search")].

Definition image_search_tool : JSValue :=
  JObj [("type", JStr "function");
        ("name", JStr "image_search");
        ("description",
         JStr "Search for classroom-safe images and return direct URLs.");
        ("parameters",
         JObj [("type", JStr "object");
               ("properties",
                JObj [("query", JObj [("type", JStr "string")]);
                      ("count", JObj [("type", JStr "number");
                                      ("default", JNum 4)])]);
               ("required", JArr [JStr "query"])])].

(** The [tools] array of the handler. *)
Definition tools_of (includeWebSearch : JSValue) : list JSValue :=
  ((if strict_eq_str includeWebSearch "true" then [web_search_tool] else [])
   ++ [image_search_tool])%list.

(** What the handler sends back: [res.status(s).json(body)]. *)
Record Reply := { status : nat; body : JSValue }.

Record AiRequest := { req_body : JSValue; req_files : option (list UploadedFile) }.

Section Server.

Variable W : World.

(** [performImageSearch]: the parameters are built first, and nothing is
    fetched when that throws; then [fetch(url)]: the call is recorded, the
    oracle answers. *)
Definition performImageSearch (query count : JSValue) : M (list JSValue) :=
  fun tr =>
    match search_params query count with
    | Throw e => (tr, Throw e)
    | Ok searchParams =>
        let tr' := (tr ++ [EFetch searchParams])%list in
        match fetch W tr searchParams with
        | FetchRejected e => (tr', Throw e)
        | FetchResponse ok json =>
            if negb ok then (tr', Throw (Error "Image search failed."))
            else (tr', let? payload := json in image_results payload)
        end
    end.

(** [openaiClient.responses.create(request)] *)
Definition create (request : ModelRequest) : M JSValue :=
  fun tr => ((tr ++ [EModel request])%list, responses_create W tr request).

Definition summarizeUploads (files : list UploadedFile) : string :=
  String.concat (nl +:+ nl)
    (map (fun file =>
            let rawText := slice_to 4000 (utf8_decode W (buffer file)) in
            "File: " +:+ originalname file +:+ nl +:+ rawText)
         files).

(** [req.files?.length ? summarizeUploads(req.files) : "No uploaded files provided."] *)
Definition contextFromFiles (files : option (list UploadedFile)) : string :=
  match files with
  | Some ((_ :: _) as uploaded) => summarizeUploads uploaded
  | _ => "No uploaded files provided."
  end.

(** The [try]/[catch] around the argument payload of one call. *)
Definition parseArguments (resolvedImageQuery call : JSValue) : JSValue :=
  match
    (let? arguments := get_prop call "arguments" in
     match arguments with
     | JStr text => JSON_parse W text
     | _ => Ok (js_or arguments (JObj []))
     end)
  with
  | Ok args => args
  | Throw parseError => JObj [("query", resolvedImageQuery)]
  end.

(** The body of [for (const call of toolCalls)]: [None] is the
    [continue] of a call that is not an image search. *)
Definition dispatchCall (resolvedImageQuery call : JSValue)
  : M (option ToolOutput) :=
  let! name := liftR (get_prop call "name") in
  if negb (strict_eq_str name "image_search") then retM None
  else
    let args := parseArguments resolvedImageQuery call in
    let! query := liftR (get_prop args "query") in
    let! count := liftR (get_prop args "count") in
    let! images := performImageSearch query count in
    let! call_id := liftR (get_prop call "call_id") in
    retM (Some {| tool_call_id := call_id;
                  output := JSON_stringify W
                              (JObj [("results", JArr images)]) |}).

(** The [for] loop, pushing onto [toolOutputs]. *)
Fixpoint dispatchCalls (resolvedImageQuery : JSValue)
    (toolCalls : list JSValue) (toolOutputs : list ToolOutput)
  : M (list ToolOutput) :=
  match toolCalls with
  | [] => retM toolOutputs
  | call :: rest =>
      let! produced := dispatchCall resolvedImageQuery call in
      dispatchCalls resolvedImageQuery rest
        (match produced with
         | Some result => (toolOutputs ++ [result])%list
         | None => toolOutputs
         end)
  end.

(** One iteration of the [while] body up to the new response. *)
Definition round (resolvedImageQuery : JSValue) (tools : list JSValue)
    (response : JSValue) (toolCalls : list JSValue) : M JSValue :=
  let! toolOutputs := dispatchCalls resolvedImageQuery toolCalls [] in
  let! previous := liftR (get_prop response "id") in
  create (CreateContinuation previous tools toolOutputs).

(** [while (toolCalls.length && safetyCounter < 3)].  The recursion is on
    [fuel]; [None] is the answer of a loop that has not ended when the
    fuel is spent.  The result is the state at the exit of the loop. *)
Fixpoint generation_loop (fuel : nat) (resolvedImageQuery : JSValue)
    (tools : list JSValue) (response : JSValue) (toolCalls : list JSValue)
    (safetyCounter : nat) : M (option (JSValue * list JSValue * nat)) :=
  if negb (length toolCalls =? 0) && (safetyCounter <? 3) then
    match fuel with
    | O => retM None
    | S fuel' =>
        let! response' := round resolvedImageQuery tools response toolCalls in
        let! toolCalls' := liftR (collectToolCalls response') in
        generation_loop fuel' resolvedImageQuery tools response' toolCalls'
          (safetyCounter + 1)
    end
  else retM (Some (response, toolCalls, safetyCounter)).

(** [res.json({ content: lessonText, citations: ... })] *)
Definition lesson_reply (response : JSValue) : Result Reply :=
  let? output_text := get_prop response "output_text" in
  let lessonText := js_or output_text (JStr EmptyString) in
  let? output := get_prop response "output" in
  let citations :=
    js_or (opt_prop (opt_index output 0) "content") (JArr []) in
  Ok {| status := 200;
        body := JObj [("content", lessonText); ("citations", citations)] |}.

Definition error_reply (message : string) : Reply :=
  {| status := 500; body := JObj [("error", JStr message)] |}.

(** The [try] block of the handler. *)
Definition generate (fuel : nat) (req : AiRequest) : M (option Reply) :=
  let body := req_body req in
  if is_nullish body then
    liftR (Throw (TypeError
      ("Cannot destructure property 'topic' of 'req.body' as it is " +:+
       describe_nullish body +:+ ".")))
  else
    let topic := prop body "topic" in
    let gradeLevel := prop body "gradeLevel" in
    let duration := prop body "duration" in
    let objectives := prop body "objectives" in
    let includeWebSearch := prop body "includeWebSearch" in
    let imageSearchQuery := prop body "imageSearchQuery" in
    let youtubeUrl := prop body "youtubeUrl" in
    let! resolvedImageQuery :=
      liftR (resolveImageQuery imageSearchQuery topic) in
    let context := contextFromFiles (req_files req) in
    let! user :=
      liftR (userPrompt topic gradeLevel duration objectives context
               resolvedImageQuery youtubeUrl) in
    let tools := tools_of includeWebSearch in
    let! response :=
      create (CreateInitial "gpt-4.1-mini"
                [ {| role := "system"; content := systemPrompt |};
                  {| role := "user"; content := user |} ]
                tools) in
    let! toolCalls := liftR (collectToolCalls response) in
    let! final := generation_loop fuel resolvedImageQuery tools response
                    toolCalls 0 in
    match final with
    | None => retM None
    | Some (response', _, _) =>
        let! reply := liftR (lesson_reply response') in
        retM (Some reply)
    end.

(** [app.post("/api/ai/lesson", ...)]: the configuration check, then the
    [try] block with its [catch]. *)
Definition ai_lesson (fuel : nat) (req : AiRequest) (tr : Trace)
  : Trace * option Reply :=
  match openaiApiKey W with
  | None | Some EmptyString =>
      (tr, Some (error_reply "OPENAI_API_KEY is not configured."))
  | Some _ =>
      match generate fuel req tr with
      | (tr', Ok reply) => (tr', reply)
      | (tr', Throw error) => (tr', Some (error_reply (error_message error)))
      end
  end.

End Server.

(** ** [server.js]: the lesson store

    [lessons] is a [Map] from ids to records.  The store is a finite map
    with extensional equality; the order in which [lessons.values()] lists
    the records is not part of it. *)

Record Lesson := {
  lesson_id : string;
  lesson_title : JSValue;
  lesson_gradeLevel : JSValue;
  lesson_duration : JSValue;
  lesson_objectives : JSValue;
  lesson_content : JSValue;
  lesson_resources : JSValue;
  lesson_updatedAt : string;
}.

Definition lesson_json (l : Lesson) : JSValue :=
  JObj [("id", JStr (lesson_id l));
        ("title", lesson_title l);
        ("gradeLevel", lesson_gradeLevel l);
        ("duration", lesson_duration l);
        ("objectives", lesson_objectives l);
        ("content", lesson_content l);
        ("resources", lesson_resources l);
        ("updatedAt", JStr (lesson_updatedAt l))].

Definition not_found : Reply :=
  {| status := 404; body := JObj [("error", JStr "Lesson not found")] |}.

(** [app.post("/api/lessons")]; [uuid] is [crypto.randomUUID()] and [now]
    is [new Date().toISOString()].  A handler that throws leaves the store
    as it was: every read of the body comes before the write. *)
Definition post_lesson (uuid now : string) (req_body : JSValue)
    (lessons : gmap string Lesson) : gmap string Lesson * Result Reply :=
  match get_prop req_body "title" with
  | Throw e => (lessons, Throw e)
  | Ok _ =>
      let lesson :=
        {| lesson_id := uuid;
           lesson_title := js_or (prop req_body "title") (JStr "Untitled lesson");
           lesson_gradeLevel := js_or (prop req_body "gradeLevel") (JStr EmptyString);
           lesson_duration := js_or (prop req_body "duration") (JStr EmptyString);
           lesson_objectives := js_or (prop req_body "objectives") (JStr EmptyString);
           lesson_content := js_or (prop req_body "content") (JStr EmptyString);
           lesson_resources := js_or (prop req_body "resources") (JArr []);
           lesson_updatedAt := now |} in
      (<[lesson_id lesson := lesson]> lessons,
       Ok {| status := 201; body := lesson_json lesson |})
  end.

(** [app.put("/api/lessons/:id")] *)
Definition put_lesson (now : string) (id : string) (req_body : JSValue)
    (lessons : gmap string Lesson) : gmap string Lesson * Result Reply :=
  match lessons !! id with
  | None => (lessons, Ok not_found)
  | Some lesson =>
      match get_prop req_body "title" with
      | Throw e => (lessons, Throw e)
      | Ok _ =>
          let updated :=
            {| lesson_id := lesson_id lesson;
               lesson_title :=
                 js_nullish_or (prop req_body "title") (lesson_title lesson);
               lesson_gradeLevel :=
                 js_nullish_or (prop req_body "gradeLevel")
                   (lesson_gradeLevel lesson);
               lesson_duration :=
                 js_nullish_or (prop req_body "duration")
                   (lesson_duration lesson);
               lesson_objectives :=
                 js_nullish_or (prop req_body "objectives")
                   (lesson_objectives lesson);
               lesson_content :=
                 js_nullish_or (prop req_body "content")
                   (lesson_content lesson);
               lesson_resources :=
                 js_nullish_or (prop req_body "resources")
                   (lesson_resources lesson);
               lesson_updatedAt := now |} in
          (<[lesson_id updated := updated]> lessons,
           Ok {| status := 200; body := lesson_json updated |})
      end
  end.

(** [app.delete("/api/lessons/:id")] *)
Definition delete_lesson (id : string) (lessons : gmap string Lesson)
  : gmap string Lesson * Result Reply :=
  match lessons !! id with
  | None => (lessons, Ok not_found)
  | Some _ => (delete id lessons, Ok {| status := 204; body := JUndefined |})
  end.

(** The stores the server can be in: [lessons] starts empty and only the
    three handlers write it. *)
Inductive reachable : gmap string Lesson -> Prop :=
| reachable_empty : reachable ∅
| reachable_post uuid now req_body lessons :
    reachable lessons ->
    reachable (post_lesson uuid now req_body lessons).1
| reachable_put now id req_body lessons :
    reachable lessons ->
    reachable (put_lesson now id req_body lessons).1
| reachable_delete id lessons :
    reachable lessons ->
    reachable (delete_lesson id lessons).1.

(** ** The browser client: how the form encodes the web-search checkbox
    ([data.includeWebSearch = formData.get("includeWebSearch") ? "true" : "false"]) *)
Definition encode_includeWebSearch (checked : bool) : JSValue :=
  JStr (if checked then "true" else "false").

(** ** Observations on traces *)

Definition is_model_call (ev : Event) : bool :=
  match ev with
  | EModel _ => true
  | EFetch _ => false
  end.

Definition is_fetch_call (ev : Event) : bool := negb (is_model_call ev).

(** The number of model-service calls, and of media-search calls. *)
Definition model_calls (evs : list Event) : nat :=
  length (List.filter is_model_call evs).
Definition fetch_calls (evs : list Event) : nat :=
  length (List.filter is_fetch_call evs).

Definition request_tools (request : ModelRequest) : list JSValue :=
  match request with
  | CreateInitial _ _ tools => tools
  | CreateContinuation _ tools _ => tools
  end.

(** The capability descriptors an external call carries, if it is a
    model-service call. *)
Definition carries_tools (tools : list JSValue) (ev : Event) : Prop :=
  match ev with
  | EModel request => request_tools request = tools
  | EFetch _ => True
  end.

(** The instruction strings of the first model-service call. *)
Fixpoint submitted_prompts (evs : list Event) : option (list Message) :=
  match evs with
  | [] => None
  | EModel (CreateInitial _ input _) :: _ => Some input
  | _ :: rest => submitted_prompts rest
  end.

(** What a media search gives once its request is sent: the rest of
    [performImageSearch] after the [fetch]. *)
Definition search_outcome (W : World) (tr : Trace)
    (searchParams : list (string * string)) : Result (list JSValue) :=
  match fetch W tr searchParams with
  | FetchRejected e => Throw e
  | FetchResponse ok json =>
      if negb ok then Throw (Error "Image search failed.")
      else let? payload := json in image_results payload
  end.

(** The service answered with a non-success status. *)
Definition non_success (o : FetchOutcome) : bool :=
  match o with
  | FetchResponse false _ => true
  | _ => false
  end.

(** An invocation is recognized when its capability name is
    ["image_search"]. *)
Definition recognized (call : JSValue) : bool :=
  strict_eq_str (prop call "name") "image_search".

Definition is_space_only (s : string) : bool :=
  forallb is_js_space (list_ascii_of_string s).

(** The block of one file in the upload digest. *)
Definition upload_block (W : World) (file : UploadedFile) : string :=
  "File: " +:+ originalname file +:+ nl +:+
  slice_to 4000 (utf8_decode W (buffer file)).

(** A result object with its three fields. *)
Definition image_result (title url : JSValue) (pageUrl : string) : JSValue :=
  JObj [("title", title); ("url", url); ("pageUrl", JStr pageUrl)].

(** A page of the shape the media search documents: an object whose
    [title] is a string and whose [imageinfo], when present, is an array
    of objects, the first with a string [url]. *)
Definition documented_page (page : JSValue) : bool :=
  match page with
  | JObj _ =>
      match prop page "title", prop page "imageinfo" with
      | JStr _, JUndefined => true
      | JStr _, JArr [] => true
      | JStr _, JArr (JObj info :: _) =>
          match assoc "url" info with
          | JStr _ => true
          | _ => false
          end
      | _, _ => false
      end
  | _ => false
  end.

(** ** A concrete environment, for running the handlers *)

Definition leaf_cells_text : string :=
  "{" +:+ dq +:+ "query" +:+ dq +:+ ":" +:+ dq +:+ "leaf cells" +:+ dq +:+
  "," +:+ dq +:+ "count" +:+ dq +:+ ":2}".

Definition leaf_cells_args : JSValue :=
  JObj [("query", JStr "leaf cells"); ("count", JNum 2)].

(** A codec that parses one text and rejects the others, and that
    serializes without escaping (the texts below need none). *)
Definition demo_parse (text : string) : Result JSValue :=
  if String.eqb text leaf_cells_text then Ok leaf_cells_args
  else Throw (SyntaxError "Unexpected token in JSON").

Fixpoint demo_stringify (v : JSValue) : string :=
  match v with
  | JUndefined | JNull => "null"
  | JBool true => "true"
  | JBool false => "false"
  | JNum n =>
      match nearest_double (Z.abs n) with
      | Some _ => Number_toString n
      | None => "null"
      end
  | JStr s => dq +:+ s +:+ dq
  | JArr items =>
      "[" +:+
      String.concat ","
        ((fix elems (l : list JSValue) : list string :=
            match l with
            | [] => []
            | x :: rest => demo_stringify x :: elems rest
            end) items) +:+
      "]"
  | JObj fields | JBare fields =>
      "{" +:+
      String.concat ","
        ((fix members (l : list (string * JSValue)) : list string :=
            match l with
            | [] => []
            | (_, JUndefined) :: rest => members rest
            | (k, x) :: rest =>
                (dq +:+ k +:+ dq +:+ ":" +:+ demo_stringify x) :: members rest
            end) fields) +:+
      "}"
  end.

Definition demo_payload : JSValue :=
  JObj [("query",
         JObj [("pages",
                JObj [("11", JObj [("title", JStr "File:Leaf.jpg");
                                   ("imageinfo",
                                    JArr [JObj [("url", JStr "https://upload.example/leaf.jpg")]])]);
                      ("12", JObj [("title", JStr "Leaf")])])])].

Definition image_call (call_id : string) (arguments : JSValue) : JSValue :=
  JObj [("type", JStr "function_call");
        ("name", JStr "image_search");
        ("call_id", JStr call_id);
        ("arguments", arguments)].

Definition other_call (call_id : string) : JSValue :=
  JObj [("type", JStr "tool_call");
        ("name", JStr "calculator");
        ("call_id", JStr call_id);
        ("arguments", JStr "{}")].

Definition text_item (text : string) : JSValue :=
  JObj [("type", JStr "message"); ("content", JArr [JStr text])].

Definition response_with (id : string) (output : list JSValue)
    (output_text : string) : JSValue :=
  JObj [("id", JStr id); ("output", JArr output);
        ("output_text", JStr output_text)].

(** A model that asks for one image search and then answers. *)
Definition demo_model (first : JSValue) (tr : Trace) (request : ModelRequest)
  : Result JSValue :=
  match request with
  | CreateInitial _ _ _ => Ok first
  | CreateContinuation _ _ _ =>
      Ok (response_with "resp_2" [text_item "Lesson"] "Lesson")
  end.

(** A model that asks for an image search in every response. *)
Definition greedy_model (tr : Trace) (request : ModelRequest)
  : Result JSValue :=
  Ok (response_with "resp" [image_call "c" (JStr "not json")] "draft").

Definition demo_world (model : Trace -> ModelRequest -> Result JSValue)
    (search : FetchOutcome) : World :=
  {| JSON_parse := demo_parse;
     JSON_stringify := demo_stringify;
     utf8_decode := string_of_list_byte;
     openaiApiKey := Some "sk-demo";
     responses_create := model;
     fetch := fun _ _ => search |}.

Definition demo_request : AiRequest :=
  {| req_body := JObj [("topic", JStr "Photosynthesis");
                       ("gradeLevel", JStr "5");
                       ("includeWebSearch", JStr "false")];
     req_files := Some [] |}.

(** A result with no gap: none of the three fields is [undefined]. *)
Definition complete_result (r : JSValue) : bool :=
  negb (is_nullish (prop r "title")) &&
  negb (is_nullish (prop r "url")) &&
  negb (is_nullish (prop r "pageUrl")).

(** A page with an image: a non-empty [imageinfo] array. *)
Definition with_image (page : JSValue) : bool :=
  match prop page "imageinfo" with
  | JArr (_ :: _) => true
  | _ => false
  end.

Definition gap_payload : JSValue :=
  JObj [("query",
         JObj [("pages",
                JObj [("7", JObj [("title", JStr "File:Gone.jpg");
                                  ("imageinfo",
                                   JArr [JObj [("filemissing", JStr EmptyString)]])])])])].

(** The six editable fields of a lesson, with their keys in a request
    body. *)
Inductive Field : Type :=
| FTitle | FGradeLevel | FDuration | FObjectives | FContent | FResources.

Definition field_key (f : Field) : string :=
  match f with
  | FTitle => "title"
  | FGradeLevel => "gradeLevel"
  | FDuration => "duration"
  | FObjectives => "objectives"
  | FContent => "content"
  | FResources => "resources"
  end.

Definition field_of (f : Field) (l : Lesson) : JSValue :=
  match f with
  | FTitle => lesson_title l
  | FGradeLevel => lesson_gradeLevel l
  | FDuration => lesson_duration l
  | FObjectives => lesson_objectives l
  | FContent => lesson_content l
  | FResources => lesson_resources l
  end.

Definition demo_store : gmap string Lesson :=
  (post_lesson "id-2" "2024-01-02T00:00:00.000Z"
     (JObj [("title", JStr "Leaves"); ("duration", JStr "45 min")])
     (post_lesson "id-1" "2024-01-01T00:00:00.000Z"
        (JObj [("title", JStr "Cells")]) ∅).1).1.

(** ** Reading a trace against the oracles *)

(** The media search behind an event returned its images. *)
Definition search_good (W : World) (tr : Trace) (ev : Event) : Prop :=
  match ev with
  | EFetch searchParams =>
      exists images, search_outcome W tr searchParams = Ok images
  | EModel _ => True
  end.

(** Every media search among [evs], made after [tr], returned. *)
Fixpoint searches_ok (W : World) (tr : Trace) (evs : list Event) : Prop :=
  match evs with
  | [] => True
  | ev :: rest => search_good W tr ev /\ searches_ok W (tr ++ [ev])%list rest
  end.

(** The events of a computation that threw [e]: every search returned,
    except possibly the one behind the last event, whose error is then
    [e]. *)
Definition failed_last (W : World) (tr : Trace) (evs : list Event)
    (e : JSError) : Prop :=
  exists pre last,
    evs = (pre ++ last)%list /\ searches_ok W tr pre /\
    (last = [] \/
     exists ev, last = [ev] /\
       forall searchParams e',
         ev = EFetch searchParams ->
         search_outcome W (tr ++ pre)%list searchParams = Throw e' ->
         e' = e).

(** [r] is what the model service answered to the last event of [evs]. *)
Definition last_response (W : World) (tr : Trace) (evs : list Event)
    (r : JSValue) : Prop :=
  exists pre request,
    evs = (pre ++ [EModel request])%list /\
    responses_create W (tr ++ pre)%list request = Ok r.

(** The request fields the prompts are built from. *)
Definition prompt_fields : list string :=
  ["topic"; "gradeLevel"; "duration"; "objectives"; "imageSearchQuery";
   "youtubeUrl"].

Definition same_prompt_fields (body1 body2 : JSValue) : Prop :=
  Forall (fun k => prop body1 k = prop body2 k) prompt_fields.

(** ** The first request of a session, named *)

Definition resolved_query (req : AiRequest) : Result JSValue :=
  resolveImageQuery (prop (req_body req) "imageSearchQuery")
    (prop (req_body req) "topic").

Definition session_tools (req : AiRequest) : list JSValue :=
  tools_of (prop (req_body req) "includeWebSearch").

Definition session_prompt (W : World) (req : AiRequest) (resolved : JSValue)
  : Result string :=
  userPrompt (prop (req_body req) "topic") (prop (req_body req) "gradeLevel")
    (prop (req_body req) "duration") (prop (req_body req) "objectives")
    (contextFromFiles W (req_files req)) resolved
    (prop (req_body req) "youtubeUrl").

(** The first request of a session whose user instruction is [user]. *)
Definition initial_request (req : AiRequest) (user : string) : ModelRequest :=
  CreateInitial "gpt-4.1-mini"
    [ {| role := "system"; content := systemPrompt |};
      {| role := "user"; content := user |} ]
    (session_tools req).

(** The reply of a completed session whose last response is [r]. *)
Definition completed_reply (r : JSValue) : Reply :=
  {| status := 200;
     body := JObj [("content", js_or (prop r "output_text") (JStr EmptyString));
                   ("citations",
                    js_or (opt_prop (opt_index (prop r "output") 0) "content")
                      (JArr []))] |}.

Definition configured (W : World) : bool :=
  match openaiApiKey W with
  | None | Some EmptyString => false
  | Some _ => true
  end.

(** How a session ends: completed with the text of the last response,
    failed with the message of the error, or refused for lack of a key. *)
Inductive session_end (W : World) (tr : Trace) (evs : list Event)
  : Reply -> Prop :=
| end_completed r :
    searches_ok W tr evs ->
    last_response W tr evs r ->
    (forall pending,
        collectToolCalls r = Ok pending -> pending <> [] ->
        model_calls evs = 4) ->
    session_end W tr evs (completed_reply r)
| end_failed e :
    failed_last W tr evs e ->
    (model_calls evs = 4 ->
     exists pre request,
       evs = pre ++ [EModel request] /\
       (responses_create W (tr ++ pre) request = Throw e \/
        exists r, responses_create W (tr ++ pre) request = Ok r /\
                  (collectToolCalls r = Throw e \/
                   collectToolCalls r = Ok []))) ->
    session_end W tr evs (error_reply (error_message e))
| end_unconfigured :
    configured W = false -> evs = [] ->
    session_end W tr evs (error_reply "OPENAI_API_KEY is not configured.").

(** ** Environments and inputs used to run the handlers *)

Definition greedy_world : World :=
  demo_world greedy_model (FetchResponse true (Ok demo_payload)).

Definition offline_world : World :=
  demo_world greedy_model (FetchRejected (Error "fetch failed")).

Definition refusing_world : World :=
  demo_world greedy_model (FetchResponse false (Ok JNull)).

Definition garbled_world : World :=
  demo_world greedy_model
    (FetchResponse true (Throw (SyntaxError "Unexpected token < in JSON"))).

Definition null_page_world : World :=
  demo_world greedy_model
    (FetchResponse true
       (Ok (JObj [("query", JObj [("pages", JObj [("1", JNull)])])]))).

Definition notes_file : UploadedFile :=
  {| originalname := "notes.txt"; buffer := repeat Byte.x61 10000 |}.

(** A response with two image searches, a call to an unknown capability
    and a message. *)
Definition mixed_calls : list JSValue :=
  [image_call "call_1" (JStr leaf_cells_text);
   other_call "call_x";
   image_call "call_2" (JObj [])].

Definition mixed_response : JSValue :=
  response_with "resp_1"
    [image_call "call_1" (JStr leaf_cells_text);
     other_call "call_x";
     text_item "Searching";
     image_call "call_2" (JObj [])]
    EmptyString.

Definition leaf_response : JSValue :=
  response_with "resp_1" [image_call "call_1" (JStr leaf_cells_text)]
    EmptyString.

Definition plain_response : JSValue :=
  response_with "resp_1" [text_item "Lesson"] "Lesson".

(** A model that asks once for leaf cells, and one that answers at once. *)
Definition leaf_world : World :=
  demo_world (demo_model leaf_response) (FetchResponse true (Ok demo_payload)).

Definition plain_world : World :=
  demo_world (demo_model plain_response) (FetchRejected (Error "unused")).

(** ** [server.js]: the lesson store as a [Map]

    A [Map] lists its entries in insertion order: [set] on a key that is
    present replaces the value where it stands, [set] on a new key appends,
    [delete] removes the entry.  The entries below are that list; the
    handlers are the same code as above, read on it, with the listing of
    [app.get("/api/lessons")]. *)

Fixpoint map_get (k : string) (entries : list (string * Lesson))
  : option Lesson :=
  match entries with
  | [] => None
  | (k', v) :: rest => if String.eqb k' k then Some v else map_get k rest
  end.

Fixpoint map_set (k : string) (v : Lesson) (entries : list (string * Lesson))
  : list (string * Lesson) :=
  match entries with
  | [] => [(k, v)]
  | (k', v') :: rest =>
      if String.eqb k' k then (k', v) :: rest
      else (k', v') :: map_set k v rest
  end.

Fixpoint map_delete (k : string) (entries : list (string * Lesson))
  : list (string * Lesson) :=
  match entries with
  | [] => []
  | (k', v') :: rest =>
      if String.eqb k' k then rest else (k', v') :: map_delete k rest
  end.

(** [Array.from(lessons.values())] *)
Definition map_values (entries : list (string * Lesson)) : list Lesson :=
  map snd entries.

(** The record [app.post] builds, and the one [app.put] builds. *)
Definition new_lesson (uuid now : string) (req_body : JSValue) : Lesson :=
  {| lesson_id := uuid;
     lesson_title := js_or (prop req_body "title") (JStr "Untitled lesson");
     lesson_gradeLevel := js_or (prop req_body "gradeLevel") (JStr EmptyString);
     lesson_duration := js_or (prop req_body "duration") (JStr EmptyString);
     lesson_objectives := js_or (prop req_body "objectives") (JStr EmptyString);
     lesson_content := js_or (prop req_body "content") (JStr EmptyString);
     lesson_resources := js_or (prop req_body "resources") (JArr []);
     lesson_updatedAt := now |}.

Definition merged_lesson (now : string) (lesson : Lesson) (req_body : JSValue)
  : Lesson :=
  {| lesson_id := lesson_id lesson;
     lesson_title :=
       js_nullish_or (prop req_body "title") (lesson_title lesson);
     lesson_gradeLevel :=
       js_nullish_or (prop req_body "gradeLevel") (lesson_gradeLevel lesson);
     lesson_duration :=
       js_nullish_or (prop req_body "duration") (lesson_duration lesson);
     lesson_objectives :=
       js_nullish_or (prop req_body "objectives") (lesson_objectives lesson);
     lesson_content :=
       js_nullish_or (prop req_body "content") (lesson_content lesson);
     lesson_resources :=
       js_nullish_or (prop req_body "resources") (lesson_resources lesson);
     lesson_updatedAt := now |}.

(** [app.get("/api/lessons")] *)
Definition list_lessons (entries : list (string * Lesson)) : Reply :=
  {| status := 200; body := JArr (map lesson_json (map_values entries)) |}.

(** [app.post("/api/lessons")] on the entries *)
Definition post_entry (uuid now : string) (req_body : JSValue)
    (entries : list (string * Lesson))
  : list (string * Lesson) * Result Reply :=
  match get_prop req_body "title" with
  | Throw e => (entries, Throw e)
  | Ok _ =>
      let lesson := new_lesson uuid now req_body in
      (map_set (lesson_id lesson) lesson entries,
       Ok {| status := 201; body := lesson_json lesson |})
  end.

(** [app.put("/api/lessons/:id")] on the entries *)
Definition put_entry (now id : string) (req_body : JSValue)
    (entries : list (string * Lesson))
  : list (string * Lesson) * Result Reply :=
  match map_get id entries with
  | None => (entries, Ok not_found)
  | Some lesson =>
      match get_prop req_body "title" with
      | Throw e => (entries, Throw e)
      | Ok _ =>
          let updated := merged_lesson now lesson req_body in
          (map_set (lesson_id updated) updated entries,
           Ok {| status := 200; body := lesson_json updated |})
      end
  end.

(** [app.delete("/api/lessons/:id")] on the entries *)
Definition delete_entry (id : string) (entries : list (string * Lesson))
  : list (string * Lesson) * Result Reply :=
  match map_get id entries with
  | None => (entries, Ok not_found)
  | Some _ =>
      (map_delete id entries, Ok {| status := 204; body := JUndefined |})
  end.

(** The entries the server can hold. *)
Inductive listed : list (string * Lesson) -> Prop :=
| listed_empty : listed []
| listed_post uuid now req_body entries :
    listed entries -> listed (post_entry uuid now req_body entries).1
| listed_put now id req_body entries :
    listed entries -> listed (put_entry now id req_body entries).1
| listed_delete id entries :
    listed entries -> listed (delete_entry id entries).1.

(** The value a field of a new lesson takes when the body has none. *)
Definition field_default (f : Field) : JSValue :=
  match f with
  | FTitle => JStr "Untitled lesson"
  | FResources => JArr []
  | _ => JStr EmptyString
  end.

Definition demo_entries : list (string * Lesson) :=
  (post_entry "id-2" "2024-01-02T00:00:00.000Z"
     (JObj [("title", JStr "Leaves"); ("duration", JStr "45 min")])
     (post_entry "id-1" "2024-01-01T00:00:00.000Z"
        (JObj [("title", JStr "Cells")]) []).1).1.

(** ** More observations on the generation handler *)

(** The test of [collectToolCalls] on an item that can be read. *)
Definition tool_type (item : JSValue) : bool :=
  strict_eq_str (prop item "type") "tool_call" ||
  strict_eq_str (prop item "type") "function_call".

(** A request is well threaded after the response [previous]: the first
    request of a session comes after no response, a continuation names the
    id of the response before it. *)
Definition follows (request : ModelRequest) (previous : option JSValue)
  : Prop :=
  match request, previous with
  | CreateInitial _ _ _, None => True
  | CreateContinuation id _ _, Some r => id = prop r "id"
  | _, _ => False
  end.

(** [thread W tr previous evs final]: among the events [evs], made after
    [tr] when the last model response was [previous], every model call
    follows the response before it and is answered, every media search
    comes after some response, and [final] is the last response. *)
Fixpoint thread (W : World) (tr : Trace) (previous : option JSValue)
    (evs : list Event) (final : option JSValue) : Prop :=
  match evs with
  | [] => final = previous
  | EFetch searchParams :: rest =>
      previous <> None /\
      thread W (tr ++ [EFetch searchParams]) previous rest final
  | EModel request :: rest =>
      follows request previous /\
      exists r,
        responses_create W tr request = Ok r /\
        thread W (tr ++ [EModel request]) (Some r) rest final
  end.

Definition starts_with_space (s : string) : bool :=
  match s with
  | EmptyString => false
  | String c _ => is_js_space c
  end.

Fixpoint ends_with_space (s : string) : bool :=
  match s with
  | EmptyString => false
  | String c EmptyString => is_js_space c
  | String _ s' => ends_with_space s'
  end.

(** The image query a request asks for is unusable: neither absent nor a
    string. *)
Definition bad_image_query (req : AiRequest) : Prop :=
  is_nullish (prop (req_body req) "imageSearchQuery") = false /\
  forall s, prop (req_body req) "imageSearchQuery" <> JStr s.

(** A model whose first call fails. *)
Definition failing_model (tr : Trace) (request : ModelRequest)
  : Result JSValue :=
  Throw (Error "429 Too Many Requests").

Definition failing_world : World :=
  demo_world failing_model (FetchRejected (Error "unused")).

Definition keyless_world : World :=
  {| JSON_parse := demo_parse;
     JSON_stringify := demo_stringify;
     utf8_decode := string_of_list_byte;
     openaiApiKey := None;
     responses_create := greedy_model;
     fetch := fun _ _ => FetchRejected (Error "unused") |}.

(** A codec for which the text ["null"] is the value [null]. *)
Definition null_world : World :=
  {| JSON_parse := fun text =>
       if String.eqb text "null" then Ok JNull else demo_parse text;
     JSON_stringify := demo_stringify;
     utf8_decode := string_of_list_byte;
     openaiApiKey := Some "sk-demo";
     responses_create := greedy_model;
     fetch := fun _ _ => FetchResponse true (Ok demo_payload) |}.

(** A successful answer of the media search with no match. *)
Definition empty_world : World :=
  demo_world greedy_model (FetchResponse true (Ok (JObj [("batchcomplete", JStr EmptyString)]))).

(** ** The browser client: the form and the edit button

    A [FormData] is its list of entries; the value of an entry is a string
    or a file, a file being an object here. *)

(** [formData.get(name)]: the first value of that name, or [null]. *)
Fixpoint formData_get (name : string) (entries : list (string * JSValue))
  : JSValue :=
  match entries with
  | [] => JNull
  | (k, v) :: rest => if String.eqb k name then v else formData_get name rest
  end.

(** [obj[k] = v]: the value is replaced where the key stands, or the key
    is added.  (An engine lists keys that are array indices first; no
    lookup depends on that.) *)
Fixpoint obj_set (k : string) (v : JSValue) (fields : list (string * JSValue))
  : list (string * JSValue) :=
  match fields with
  | [] => [(k, v)]
  | (k', v') :: rest =>
      if String.eqb k' k then (k', v) :: rest
      else (k', v') :: obj_set k v rest
  end.

(** [Object.fromEntries(formData.entries())] *)
Definition Object_fromEntries (entries : list (string * JSValue))
  : list (string * JSValue) :=
  fold_left (fun fields entry => obj_set entry.1 entry.2 fields) entries [].

(** [data.<field>?.trim()] *)
Definition trim_field (field : string) (v : JSValue) : Result JSValue :=
  match v with
  | JUndefined | JNull => Ok JUndefined
  | JStr s => Ok (JStr (trim s))
  | _ => Throw (TypeError ("data." +:+ field +:+ "?.trim is not a function"))
  end.

(** [getFormData]: the [data] it returns. *)
Definition getFormData (entries : list (string * JSValue)) : Result JSValue :=
  let data := Object_fromEntries entries in
  let data :=
    obj_set "includeWebSearch"
      (encode_includeWebSearch
         (truthy (formData_get "includeWebSearch" entries))) data in
  let data := obj_set "resources" (JArr []) data in
  let? imageSearchQuery :=
    trim_field "imageSearchQuery" (assoc "imageSearchQuery" data) in
  let? youtubeUrl := trim_field "youtubeUrl" (assoc "youtubeUrl" data) in
  let pushed1 :=
    if truthy imageSearchQuery then
      [JObj [("type", JStr "image-search"); ("query", imageSearchQuery)]]
    else [] in
  let pushed2 :=
    if truthy youtubeUrl then
      [JObj [("type", JStr "youtube"); ("url", youtubeUrl)]]
    else [] in
  Ok (JObj (obj_set "resources" (JArr (pushed1 ++ pushed2)) data)).

(** [(lesson.resources || []).find((resource) => resource.type === type)] *)
Fixpoint find_type (type : string) (resources : list JSValue)
  : Result JSValue :=
  match resources with
  | [] => Ok JUndefined
  | resource :: rest =>
      let? t := get_prop resource "type" in
      if strict_eq_str t type then Ok resource else find_type type rest
  end.

Definition find_resource (type : string) (lesson : JSValue) : Result JSValue :=
  let? stored := get_prop lesson "resources" in
  match js_or stored (JArr []) with
  | JArr resources => find_type type resources
  | _ => Throw (TypeError "(lesson.resources || []).find is not a function")
  end.

(** What the edit button puts in the image-query and video fields. *)
Definition edit_imageSearchQuery (lesson : JSValue) : Result JSValue :=
  let? found := find_resource "image-search" lesson in
  Ok (js_or (opt_prop found "query") (JStr EmptyString)).

Definition edit_youtubeUrl (lesson : JSValue) : Result JSValue :=
  let? found := find_resource "youtube" lesson in
  Ok (js_or (opt_prop found "url") (JStr EmptyString)).

Definition demo_form : list (string * JSValue) :=
  [("title", JStr "Cells"); ("gradeLevel", JStr "5");
   ("imageSearchQuery", JStr "  leaf cells ");
   ("youtubeUrl", JStr EmptyString);
   ("includeWebSearch", JStr "on")].

(** The text a form field holds once trimmed; a field that is absent
    holds none. *)
Definition trimmed_text (v : JSValue) : string :=
  match v with
  | JStr s => trim s
  | _ => EmptyString
  end.

(** The resources [getFormData] pushes for an image query and a video
    address already trimmed. *)
Definition form_resources (imageSearchQuery youtubeUrl : string)
  : list JSValue :=
  (if String.eqb imageSearchQuery EmptyString then []
   else [JObj [("type", JStr "image-search");
               ("query", JStr imageSearchQuery)]]) ++
  (if String.eqb youtubeUrl EmptyString then []
   else [JObj [("type", JStr "youtube"); ("url", JStr youtubeUrl)]]).

(** The value of the last entry of a name, [undefined] when there is
    none. *)
Definition last_value (name : string) (entries : list (string * JSValue))
  : JSValue :=
  fold_left (fun found entry =>
               if String.eqb entry.1 name then entry.2 else found)
    entries JUndefined.

(** A model that keeps asking for a capability the server does not have. *)
Definition curious_model (tr : Trace) (request : ModelRequest)
  : Result JSValue :=
  Ok (response_with "resp" [other_call "call_x"] "draft").

Definition curious_world : World :=
  demo_world curious_model (FetchRejected (Error "unused")).


(** A request whose web-search flag is the boolean [true], as a JSON body
    may carry it. *)
Definition flagged_request : AiRequest :=
  {| req_body := JObj [("topic", JStr "Photosynthesis");
                       ("includeWebSearch", JBool true)];
     req_files := None |}.

(** A request without image query whose topic cannot be converted to a
    string: the JSON body [{"topic": {"toString": 1}}]. *)
Definition unprintable_request : AiRequest :=
  {| req_body := JObj [("topic", JObj [("toString", JNum 1)])];
     req_files := None |}.


(** The user instruction of [demo_request]. *)
Definition demo_prompt : string :=
  Eval vm_compute in
    match session_prompt plain_world demo_request
            (JStr "Photosynthesis classroom illustration") with
    | Ok user => user
    | Throw _ => EmptyString
    end.


(** A value can be converted to a string. *)
Definition printable (v : JSValue) : bool :=
  match to_string v with
  | Ok _ => true
  | Throw _ => false
  end.

(** The request fields the user instruction prints, besides the image
    query. *)
Definition printed_fields : list string :=
  ["topic"; "gradeLevel"; "duration"; "objectives"; "youtubeUrl"].

(** Some field that the prompts print cannot be converted to a string. *)
Definition unprintable_field (req : AiRequest) : bool :=
  existsb (fun k => negb (printable (prop (req_body req) k))) printed_fields.


(** The answers of the model service to the model calls among [evs], made
    after [tr]. *)
Fixpoint responses_in (W : World) (tr : Trace) (evs : list Event)
  : list (Result JSValue) :=
  match evs with
  | [] => []
  | EModel request :: rest =>
      responses_create W tr request ::
      responses_in W (tr ++ [EModel request]) rest
  | EFetch searchParams :: rest =>
      responses_in W (tr ++ [EFetch searchParams]) rest
  end.

(** An answer holds an invocation of the image search among those the
    handler extracts. *)
Definition asks_image_search (answer : Result JSValue) : bool :=
  match answer with
  | Ok response =>
      match collectToolCalls response with
      | Ok toolCalls => existsb recognized toolCalls
      | Throw _ => false
      end
  | Throw _ => false
  end.

(** A model that asks for an image search only once a media search has
    been made, and for another capability before. *)
Definition shy_model (tr : Trace) (request : ModelRequest)
  : Result JSValue :=
  if fetch_calls tr =? 0
  then Ok (response_with "resp" [other_call "call_x"] "draft")
  else Ok (response_with "resp" [image_call "c" (JStr "not json")] "draft").

Definition shy_world : World :=
  demo_world shy_model (FetchResponse true (Ok demo_payload)).


(** * Properties *)

(** ** Strings *)

Lemma slice_to_length (n : nat) (s : string) :
  String.length (slice_to n s) = Nat.min n (String.length s).
Proof.
  revert n; induction s as [|c s IH]; intros [|n]; simpl; auto.
Qed.

Lemma slice_to_prefix (n : nat) (s : string) :
  exists rest, s = slice_to n s +:+ rest.
Proof.
  revert n; induction s as [|c s IH]; intros n.
  - exists EmptyString. destruct n; reflexivity.
  - destruct n as [|n].
    + exists (String c s). reflexivity.
    + destruct (IH n) as [rest Hrest]. exists rest.
      change (String c s = String c (slice_to n s +:+ rest)).
      rewrite <- Hrest. reflexivity.
Qed.

Lemma trim_start_spaces (s : string) :
  is_space_only s = true -> trim_start s = EmptyString.
Proof.
  unfold is_space_only. induction s as [|c s IH]; simpl; [reflexivity|].
  intros H. apply andb_prop in H as [Hc Hs]. rewrite Hc. auto.
Qed.

Lemma trim_spaces (s : string) : is_space_only s = true -> trim s = EmptyString.
Proof. intros H. unfold trim. rewrite trim_start_spaces; auto. Qed.

(** ** The upload digest *)

(** C6. For a non-empty sequence of uploaded files the digest is the blocks
    ["File: <name>\n<text>"] of the files, in input order, joined by a blank
    line; <text> is a prefix of the decoded bytes, of length the minimum of
    4000 and the length of the decoded text, hence exactly 4000 characters
    for a text of 10,000.  With no files the digest is the placeholder. *)
Theorem upload_digest_blocks (W : World) :
  (forall f, contextFromFiles W (Some [f]) = upload_block W f) /\
  (forall f g fs,
      contextFromFiles W (Some (f :: g :: fs)) =
      upload_block W f +:+ nl +:+ nl +:+ contextFromFiles W (Some (g :: fs))) /\
  (forall f,
      upload_block W f =
      "File: " +:+ originalname f +:+ nl +:+
      slice_to 4000 (utf8_decode W (buffer f)) /\
      (exists rest,
          utf8_decode W (buffer f) =
          slice_to 4000 (utf8_decode W (buffer f)) +:+ rest) /\
      String.length (slice_to 4000 (utf8_decode W (buffer f))) =
      Nat.min 4000 (String.length (utf8_decode W (buffer f)))) /\
  (forall f,
      String.length (utf8_decode W (buffer f)) = 10000 ->
      String.length (slice_to 4000 (utf8_decode W (buffer f))) = 4000) /\
  contextFromFiles W None = "No uploaded files provided." /\
  contextFromFiles W (Some []) = "No uploaded files provided.".
Proof.
  split; [reflexivity|]. split; [reflexivity|]. split.
  - intros f. split; [reflexivity|]. split.
    + apply slice_to_prefix.
    + apply slice_to_length.
  - split; [|split; reflexivity].
    intros f H. rewrite slice_to_length, H. reflexivity.
Qed.

Lemma upload_digest_blocks_witness :
  String.length (utf8_decode greedy_world (buffer notes_file)) = 10000 /\
  String.length
    (slice_to 4000 (utf8_decode greedy_world (buffer notes_file))) = 4000.
Proof.
  assert (H : String.length (utf8_decode greedy_world (buffer notes_file))
              = 10000)
    by (vm_compute; reflexivity).
  split; [exact H|].
  exact (proj1 (proj2 (proj2 (proj2 (upload_digest_blocks greedy_world))))
           notes_file H).
Defined.

(** ** The lesson store *)

(** Every record is stored under its own id. *)
Lemma reachable_keyed (lessons : gmap string Lesson) :
  reachable lessons ->
  forall k l, lessons !! k = Some l -> lesson_id l = k.
Proof.
  induction 1 as [|uuid now body lessons Hr IH|now id body lessons Hr IH
                  |id lessons Hr IH]; intros k l Hk.
  - rewrite lookup_empty in Hk. discriminate.
  - unfold post_lesson in Hk. destruct (get_prop body "title"); simpl in Hk.
    + destruct (decide (uuid = k)) as [->|Hne].
      * rewrite lookup_insert_eq in Hk. inversion Hk. reflexivity.
      * rewrite lookup_insert_ne in Hk by exact Hne. eauto.
    + eauto.
  - unfold put_lesson in Hk. destruct (lessons !! id) as [lesson|] eqn:Hid.
    + destruct (get_prop body "title"); simpl in Hk; [|eauto].
      destruct (decide (lesson_id lesson = k)) as [Heq|Hne].
      * rewrite Heq in Hk. rewrite lookup_insert_eq in Hk.
        inversion Hk. reflexivity.
      * rewrite lookup_insert_ne in Hk by exact Hne. eauto.
    + simpl in Hk. eauto.
  - unfold delete_lesson in Hk. destruct (lessons !! id) eqn:Hid;
      simpl in Hk; [|eauto].
    destruct (decide (id = k)) as [->|Hne].
    + rewrite lookup_delete_eq in Hk. discriminate.
    + rewrite lookup_delete_ne in Hk by exact Hne. eauto.
Qed.

(** C10. On a store the server can reach, a PUT naming a stored id, with a
    readable body, stores under that same id a record with the same id,
    [updatedAt] set to the current time and each editable field taken from
    the body when it is supplied there with a value other than [null] and
    [undefined], kept otherwise; every other record is untouched.  A PUT or
    DELETE naming an absent id answers 404 and leaves the store as it
    was. *)
Theorem put_delete_frame (now id : string) (req_body : JSValue)
    (lessons : gmap string Lesson) :
  reachable lessons ->
  (forall lesson,
      lessons !! id = Some lesson ->
      is_nullish req_body = false ->
      exists updated,
        put_lesson now id req_body lessons =
          (<[id := updated]> lessons,
           Ok {| status := 200; body := lesson_json updated |}) /\
        lesson_id updated = lesson_id lesson /\
        lesson_id updated = id /\
        lesson_updatedAt updated = now /\
        (forall f,
            field_of f updated =
            (if is_nullish (prop req_body (field_key f))
             then field_of f lesson
             else prop req_body (field_key f))) /\
        (forall k, k <> id ->
            (put_lesson now id req_body lessons).1 !! k = lessons !! k)) /\
  (lessons !! id = None ->
     put_lesson now id req_body lessons = (lessons, Ok not_found) /\
     delete_lesson id lessons = (lessons, Ok not_found) /\
     status not_found = 404).
Proof.
  intros Hreach. split.
  - intros lesson Hid Hbody.
    pose proof (reachable_keyed lessons Hreach id lesson Hid) as Hkey.
    subst id.
    unfold put_lesson. rewrite Hid. unfold get_prop. rewrite Hbody.
    eexists. split; [reflexivity|].
    split; [reflexivity|]. split; [reflexivity|]. split; [reflexivity|].
    split.
    + intros []; reflexivity.
    + intros k Hk. cbn [fst lesson_id].
      apply lookup_insert_ne. congruence.
  - intros Hid. unfold put_lesson, delete_lesson. rewrite Hid. auto.
Qed.

Lemma put_delete_frame_witness :
  reachable demo_store /\
  (exists updated,
      put_lesson "2024-02-01T00:00:00.000Z" "id-1"
        (JObj [("content", JStr "Plan"); ("title", JNull)]) demo_store =
        (<["id-1" := updated]> demo_store,
         Ok {| status := 200; body := lesson_json updated |}) /\
      lesson_title updated = JStr "Cells" /\
      lesson_content updated = JStr "Plan") /\
  delete_lesson "id-9" demo_store = (demo_store, Ok not_found).
Proof.
  assert (Hr : reachable demo_store)
    by (unfold demo_store; repeat constructor).
  pose proof (put_delete_frame "2024-02-01T00:00:00.000Z" "id-1"
                (JObj [("content", JStr "Plan"); ("title", JNull)])
                demo_store Hr) as [Hput _].
  pose proof (put_delete_frame "t" "id-9" JNull demo_store Hr) as [_ Habsent].
  split; [exact Hr|]. split.
  - destruct (Hput _ eq_refl eq_refl)
      as (updated & Heq & _ & _ & _ & Hfields & _).
    exists updated. split; [exact Heq|]. split.
    + exact (Hfields FTitle).
    + exact (Hfields FContent).
  - exact (proj1 (proj2 (Habsent eq_refl))).
Defined.

(** ** Callbacks that may throw *)

Lemma get_prop_object (v : JSValue) (k : string) :
  is_nullish v = false -> get_prop v k = Ok (prop v k).
Proof. intros H. unfold get_prop. rewrite H. reflexivity. Qed.

Lemma filterR_total {A : Type} (p : A -> Result bool) (b : A -> bool)
    (l : list A) :
  Forall (fun x => p x = Ok (b x)) l -> filterR p l = Ok (List.filter b l).
Proof.
  induction 1 as [|x l Hx _ IH]; [reflexivity|].
  cbn [filterR List.filter]. rewrite Hx, IH. reflexivity.
Qed.

Lemma mapR_Forall {A B : Type} (f : A -> Result B) (Q : B -> Prop)
    (l : list A) (ys : list B) :
  (forall x y, f x = Ok y -> Q y) -> mapR f l = Ok ys -> Forall Q ys.
Proof.
  intros Hf. revert ys. induction l as [|x l IH]; intros ys H.
  - inversion H. constructor.
  - cbn [mapR] in H. destruct (f x) as [y|] eqn:Hy; [|discriminate].
    cbn [bindR] in H. destruct (mapR f l) as [ys'|]; [|discriminate].
    inversion H. constructor; eauto.
Qed.

(** What [filterR] keeps are the elements its callback accepted. *)
Lemma filterR_kept {A : Type} (p : A -> Result bool) (l kept : list A) :
  filterR p l = Ok kept -> Forall (fun x => p x = Ok true) kept.
Proof.
  revert kept. induction l as [|x l IH]; intros kept H.
  - inversion H. constructor.
  - cbn [filterR] in H. destruct (p x) as [keep|] eqn:Hp; [|discriminate].
    cbn [bindR] in H. destruct (filterR p l) as [kept'|]; [|discriminate].
    inversion H. destruct keep; [constructor|]; eauto.
Qed.

(** ** The results of the image search *)

Lemma to_image_result_shape (page r : JSValue) :
  to_image_result page = Ok r ->
  exists title url pageUrl, r = image_result title url pageUrl.
Proof.
  unfold to_image_result. intros H.
  destruct (get_prop page "title") as [t|]; [|discriminate].
  cbn [bindR] in H.
  destruct (get_prop page "imageinfo") as [ii|]; [|discriminate].
  cbn [bindR] in H.
  destruct (get_index ii 0) as [first|]; [|discriminate]. cbn [bindR] in H.
  destruct (get_prop first "url") as [u|]; [|discriminate].
  cbn [bindR] in H.
  destruct (to_string t) as [shown|]; [|discriminate].
  cbn [bindR] in H. inversion H. unfold image_result. eauto.
Qed.

Lemma documented_has_imageinfo (page : JSValue) :
  documented_page page = true -> has_imageinfo page = Ok (with_image page).
Proof.
  unfold documented_page, has_imageinfo, with_image.
  destruct page as [| | | | | |fields|]; try discriminate.
  unfold get_prop. cbn [is_nullish bindR].
  destruct (prop (JObj fields) "title"); try discriminate.
  destruct (prop (JObj fields) "imageinfo") as [| | | | |items| |];
    try discriminate; [reflexivity|].
  destruct items as [|first rest]; [reflexivity|]. intros _.
  unfold opt_prop. cbn [is_nullish prop String.eqb Ascii.eqb Bool.eqb].
  cbn [truthy length]. destruct (Z.of_nat (S (length rest))) eqn:E;
    [lia|reflexivity|reflexivity].
Qed.

Lemma documented_to_image_result (page : JSValue) :
  documented_page page = true -> with_image page = true ->
  exists t u p,
    to_image_result page = Ok (image_result (JStr t) (JStr u) p).
Proof.
  unfold documented_page, to_image_result, with_image.
  destruct page as [| | | | | |fields|]; try discriminate.
  unfold get_prop. cbn [is_nullish bindR].
  destruct (prop (JObj fields) "title") as [| | | |t| | |]; try discriminate.
  destruct (prop (JObj fields) "imageinfo") as [| | | | |items| |];
    try discriminate.
  destruct items as [|first rest]; [discriminate|].
  destruct first as [| | | | | |info|]; try discriminate.
  unfold get_index. cbn [is_nullish bindR index nth prop].
  destruct (assoc "url" info) as [| | | |u| | |]; try discriminate.
  intros _ _. unfold image_result. cbn [to_string]. eauto.
Qed.

(** C9, counterexample.  The service may answer with an [imageinfo] entry
    that has no [url] (a page whose file is missing): the entry passes the
    filter, and the result it yields has an undefined image URL. *)
Lemma image_results_url_gap :
  exists r,
    image_results gap_payload = Ok [r] /\
    prop r "url" = JUndefined /\
    complete_result r = false.
Proof.
  eexists. split; [vm_compute; reflexivity|].
  split; reflexivity.
Qed.

(** C9, as amended.  Every result is an object with the three keys [title],
    [url] and [pageUrl], and [pageUrl] is always a string.  A page kept by
    the filter whose [imageinfo] is an array has a first element, so index 0
    is within bounds; a page whose [imageinfo] is absent or empty is not
    kept.  When the pages have the documented shape (a string
    title; [imageinfo] absent, empty, or an array starting with an object
    that has a string [url]) the search gives one result per page with an
    image and each result has its three fields defined; the code does not
    check that shape. *)
Theorem image_results_fields (payload : JSValue) :
  (forall results,
      image_results payload = Ok results ->
      Forall (fun r => exists title url pageUrl,
                  r = image_result title url pageUrl) results) /\
  (forall page,
      is_nullish page = false ->
      is_nullish (prop page "imageinfo") = true \/
      prop page "imageinfo" = JArr [] ->
      has_imageinfo page = Ok false) /\
  (forall page items,
      prop page "imageinfo" = JArr items ->
      has_imageinfo page = Ok true ->
      exists first, items !! 0 = Some first /\
                    get_index (JArr items) 0 = Ok first) /\
  (forall pages,
      pages_of payload = Ok pages ->
      forallb documented_page pages = true ->
      exists results,
        image_results payload = Ok results /\
        length results = length (List.filter with_image pages) /\
        Forall (fun r => complete_result r = true /\
                         exists t u p,
                           r = image_result (JStr t) (JStr u) p) results).
Proof.
  split; [|split; [|split]].
  - intros results H. unfold image_results in H.
    destruct (pages_of payload) as [pages|]; [|discriminate].
    cbn [bindR] in H.
    destruct (filterR has_imageinfo pages) as [kept|]; [|discriminate].
    cbn [bindR] in H.
    eapply mapR_Forall; [|exact H]. apply to_image_result_shape.
  - intros page Hpage Hii. unfold has_imageinfo.
    rewrite get_prop_object by exact Hpage. cbn [bindR].
    destruct Hii as [Hii| ->]; [|reflexivity].
    unfold opt_prop. rewrite Hii. reflexivity.
  - intros page items Hii H. unfold has_imageinfo, get_prop in H.
    destruct (is_nullish page); [discriminate|]. cbn [bindR] in H.
    rewrite Hii in H. destruct items as [|first rest].
    + discriminate.
    + exists first. split; reflexivity.
  - intros pages Hpages Hdoc. unfold image_results. rewrite Hpages.
    cbn [bindR].
    assert (HF : Forall (fun p => documented_page p = true) pages).
    { apply Forall_forall. intros p Hp.
      rewrite forallb_forall in Hdoc. apply Hdoc.
      apply list_elem_of_In. exact Hp. }
    rewrite (filterR_total has_imageinfo with_image).
    2:{ eapply Forall_impl; [exact HF|]. apply documented_has_imageinfo. }
    cbn [bindR].
    assert (HK : Forall (fun p => documented_page p = true /\
                                  with_image p = true)
                   (List.filter with_image pages)).
    { apply Forall_forall. intros p Hp. apply list_elem_of_In in Hp.
      apply filter_In in Hp as [Hin Hw]. split; [|exact Hw].
      rewrite Forall_forall in HF. apply HF. apply list_elem_of_In.
      exact Hin. }
    clear Hpages Hdoc HF.
    induction HK as [|p kept [Hd Hw] _ IH].
    + exists []. repeat split; constructor.
    + destruct IH as (results & Hres & Hlen & Hall).
      destruct (documented_to_image_result p Hd Hw) as (t & u & q & Hp).
      exists (image_result (JStr t) (JStr u) q :: results).
      cbn [mapR]. rewrite Hp, Hres. cbn [bindR length].
      split; [reflexivity|]. split; [congruence|].
      constructor; [|exact Hall]. split; [reflexivity|eauto].
Qed.

Lemma image_results_fields_witness :
  exists pages results,
    pages_of demo_payload = Ok pages /\
    forallb documented_page pages = true /\
    image_results demo_payload = Ok results /\
    length results = 1 /\
    Forall (fun r => complete_result r = true) results.
Proof.
  destruct (image_results_fields demo_payload) as (_ & _ & _ & H).
  destruct (H _ eq_refl eq_refl) as (results & Hres & Hlen & Hall).
  eexists. exists results.
  split; [reflexivity|]. split; [reflexivity|].
  split; [exact Hres|]. split; [exact Hlen|].
  eapply Forall_impl; [exact Hall|]. intros r [Hc _]. exact Hc.
Defined.

(** ** Runs of the effectful code *)

Lemma bindM_run {A B : Type} (m : M A) (k : A -> M B) (tr : Trace) :
  bindM m k tr =
  match m tr with
  | (tr', Ok a) => k a tr'
  | (tr', Throw e) => (tr', Throw e)
  end.
Proof. reflexivity. Qed.

Lemma performImageSearch_run (W : World) (query count : JSValue) (tr : Trace) :
  performImageSearch W query count tr =
  match search_params query count with
  | Ok searchParams =>
      (tr ++ [EFetch searchParams], search_outcome W tr searchParams)
  | Throw e => (tr, Throw e)
  end.
Proof.
  unfold performImageSearch, search_outcome.
  destruct (search_params query count) as [searchParams|e]; [|reflexivity].
  destruct (fetch W tr searchParams) as [e|[] json]; reflexivity.
Qed.

Lemma dispatchCall_run (W : World) (resolved call : JSValue) (tr : Trace) :
  dispatchCall W resolved call tr =
  match get_prop call "name" with
  | Throw e => (tr, Throw e)
  | Ok name =>
      if negb (strict_eq_str name "image_search") then (tr, Ok None)
      else
        let args := parseArguments W resolved call in
        match get_prop args "query", get_prop args "count" with
        | Ok query, Ok count =>
            match search_params query count with
            | Ok searchParams =>
                (tr ++ [EFetch searchParams],
                 match search_outcome W tr searchParams with
                 | Ok images =>
                     match get_prop call "call_id" with
                     | Ok call_id =>
                         Ok (Some {| tool_call_id := call_id;
                                     output := JSON_stringify W
                                       (JObj [("results", JArr images)]) |})
                     | Throw e => Throw e
                     end
                 | Throw e => Throw e
                 end)
            | Throw e => (tr, Throw e)
            end
        | Throw e, _ => (tr, Throw e)
        | Ok _, Throw e => (tr, Throw e)
        end
  end.
Proof.
  unfold dispatchCall. rewrite bindM_run. unfold liftR at 1.
  destruct (get_prop call "name") as [name|e]; [|reflexivity].
  destruct (negb (strict_eq_str name "image_search")); [reflexivity|].
  cbv zeta. rewrite bindM_run. unfold liftR at 1.
  destruct (get_prop (parseArguments W resolved call) "query")
    as [query|e]; [|reflexivity].
  rewrite bindM_run. unfold liftR at 1.
  destruct (get_prop (parseArguments W resolved call) "count")
    as [count|e]; [|reflexivity].
  rewrite bindM_run, performImageSearch_run.
  destruct (search_params query count) as [searchParams|e]; [|reflexivity].
  destruct (search_outcome W tr searchParams) as [images|e]; [|reflexivity].
  rewrite bindM_run. unfold liftR at 1.
  destruct (get_prop call "call_id"); reflexivity.
Qed.

Lemma model_calls_app (a b : list Event) :
  model_calls (a ++ b) = model_calls a + model_calls b.
Proof.
  unfold model_calls. rewrite List.filter_app, length_app. reflexivity.
Qed.

Lemma model_calls_fetches (evs : list Event) :
  Forall (fun ev => is_model_call ev = false) evs -> model_calls evs = 0.
Proof.
  unfold model_calls. induction 1 as [|ev evs Hev _ IH]; [reflexivity|].
  cbn [List.filter]. rewrite Hev. exact IH.
Qed.

Lemma fetches_carry_tools (tools : list JSValue) (evs : list Event) :
  Forall (fun ev => is_model_call ev = false) evs ->
  Forall (carries_tools tools) evs.
Proof.
  intros H. eapply Forall_impl; [exact H|].
  intros [request|params] Hev; [discriminate|exact I].
Qed.

Lemma searches_ok_app (W : World) (evs1 evs2 : list Event) (tr : Trace) :
  searches_ok W tr (evs1 ++ evs2) <->
  searches_ok W tr evs1 /\ searches_ok W (tr ++ evs1) evs2.
Proof.
  revert tr. induction evs1 as [|ev evs1 IH]; intros tr.
  - cbn [searches_ok app]. rewrite app_nil_r. tauto.
  - cbn [searches_ok app]. rewrite IH.
    replace ((tr ++ [ev]) ++ evs1)%list with (tr ++ ev :: evs1)%list
      by (rewrite <- app_assoc; reflexivity).
    tauto.
Qed.

Lemma searches_ok_at (W : World) (tr : Trace) (pre post : list Event)
    (ev : Event) :
  searches_ok W tr (pre ++ ev :: post) -> search_good W (tr ++ pre) ev.
Proof.
  intros H. apply searches_ok_app in H as [_ H]. exact (proj1 H).
Qed.

Lemma failed_last_after (W : World) (tr : Trace) (evs1 evs2 : list Event)
    (e : JSError) :
  searches_ok W tr evs1 -> failed_last W (tr ++ evs1) evs2 e ->
  failed_last W tr (evs1 ++ evs2) e.
Proof.
  intros H1 (pre & last & -> & Hpre & Hlast).
  exists (evs1 ++ pre)%list, last. split; [apply app_assoc|]. split.
  - apply searches_ok_app. auto.
  - rewrite app_assoc. exact Hlast.
Qed.

Lemma failed_last_silent (W : World) (tr : Trace) (evs : list Event)
    (e : JSError) :
  searches_ok W tr evs -> failed_last W tr evs e.
Proof.
  intros H. exists evs, []. rewrite app_nil_r. auto.
Qed.

Lemma last_response_after (W : World) (tr : Trace) (evs1 evs2 : list Event)
    (r : JSValue) :
  last_response W (tr ++ evs1) evs2 r -> last_response W tr (evs1 ++ evs2) r.
Proof.
  intros (pre & request & -> & H). exists (evs1 ++ pre), request.
  split; [apply app_assoc|]. rewrite app_assoc. exact H.
Qed.

(** One call of the [for] loop makes at most one external call, a media
    search. *)
Lemma dispatchCall_events (W : World) (resolved call : JSValue) (tr : Trace) :
  exists evs,
    (dispatchCall W resolved call tr).1 = tr ++ evs /\
    Forall (fun ev => is_model_call ev = false) evs /\
    match (dispatchCall W resolved call tr).2 with
    | Ok _ => searches_ok W tr evs
    | Throw e => failed_last W tr evs e
    end.
Proof.
  rewrite dispatchCall_run.
  assert (Hnone : forall e : JSError,
             exists evs, tr = tr ++ evs /\
               Forall (fun ev => is_model_call ev = false) evs /\
               failed_last W tr evs e).
  { intros e. exists []. rewrite app_nil_r.
    repeat split; [constructor|]. apply failed_last_silent. exact I. }
  destruct (get_prop call "name") as [name|e]; [|apply Hnone].
  destruct (negb (strict_eq_str name "image_search")).
  { exists []. rewrite app_nil_r. repeat split. constructor. }
  cbv zeta.
  destruct (get_prop (parseArguments W resolved call) "query")
    as [query|e]; [|apply Hnone].
  destruct (get_prop (parseArguments W resolved call) "count")
    as [count|e]; [|apply Hnone].
  destruct (search_params query count) as [searchParams|e]; [|apply Hnone].
  exists [EFetch searchParams]. cbn [fst snd].
  split; [reflexivity|]. split; [repeat constructor|].
  destruct (search_outcome W tr searchParams) as [images|e] eqn:Hs.
  - assert (Hok : searches_ok W tr [EFetch searchParams]).
    { cbn. split; [eauto|exact I]. }
    destruct (get_prop call "call_id"); [exact Hok|].
    apply failed_last_silent. exact Hok.
  - exists [], [EFetch searchParams].
    split; [reflexivity|]. split; [exact I|]. right.
    eexists. split; [reflexivity|]. intros p e' Hp Hp'.
    inversion Hp; subst p. rewrite app_nil_r in Hp'. congruence.
Qed.

Lemma dispatchCalls_events (W : World) (resolved : JSValue)
    (toolCalls : list JSValue) :
  forall (toolOutputs : list ToolOutput) (tr : Trace),
  exists evs,
    (dispatchCalls W resolved toolCalls toolOutputs tr).1 = tr ++ evs /\
    Forall (fun ev => is_model_call ev = false) evs /\
    match (dispatchCalls W resolved toolCalls toolOutputs tr).2 with
    | Ok _ => searches_ok W tr evs
    | Throw e => failed_last W tr evs e
    end.
Proof.
  induction toolCalls as [|call rest IH]; intros toolOutputs tr.
  - exists []. cbn. rewrite app_nil_r. repeat split. constructor.
  - cbn [dispatchCalls]. rewrite bindM_run.
    destruct (dispatchCall_events W resolved call tr)
      as (evs1 & Htr1 & Hf1 & Hs1).
    destruct (dispatchCall W resolved call tr) as [tr1 [produced|e]];
      cbn [fst snd] in *; subst tr1.
    + match goal with
      | |- context [dispatchCalls W resolved rest ?acc (tr ++ evs1)] =>
          destruct (IH acc (tr ++ evs1)) as (evs2 & Htr2 & Hf2 & Hs2);
          destruct (dispatchCalls W resolved rest acc (tr ++ evs1))
            as [tr2 res2]
      end.
      cbn [fst snd] in *; subst tr2. exists (evs1 ++ evs2).
      split; [symmetry; apply app_assoc|]. split; [apply Forall_app; auto|].
      destruct res2 as [outs|e].
      * apply searches_ok_app. auto.
      * apply failed_last_after; auto.
    + exists evs1. auto.
Qed.

Lemma round_run (W : World) (resolved : JSValue) (tools : list JSValue)
    (response : JSValue) (toolCalls : list JSValue) (tr : Trace) :
  round W resolved tools response toolCalls tr =
  match dispatchCalls W resolved toolCalls [] tr with
  | (tr1, Ok toolOutputs) =>
      match get_prop response "id" with
      | Ok previous =>
          (tr1 ++ [EModel (CreateContinuation previous tools toolOutputs)],
           responses_create W tr1
             (CreateContinuation previous tools toolOutputs))
      | Throw e => (tr1, Throw e)
      end
  | (tr1, Throw e) => (tr1, Throw e)
  end.
Proof.
  unfold round. rewrite bindM_run.
  destruct (dispatchCalls W resolved toolCalls [] tr) as [tr1 [outs|e]];
    [|reflexivity].
  rewrite bindM_run. unfold liftR at 1.
  destruct (get_prop response "id"); reflexivity.
Qed.

Lemma generation_loop_step (W : World) (fuel : nat) (resolved : JSValue)
    (tools : list JSValue) (response : JSValue) (toolCalls : list JSValue)
    (safetyCounter : nat) (tr : Trace) :
  generation_loop W (S fuel) resolved tools response toolCalls
    safetyCounter tr =
  if negb (length toolCalls =? 0) && (safetyCounter <? 3) then
    match round W resolved tools response toolCalls tr with
    | (tr1, Ok response') =>
        match collectToolCalls response' with
        | Ok toolCalls' =>
            generation_loop W fuel resolved tools response' toolCalls'
              (safetyCounter + 1) tr1
        | Throw e => (tr1, Throw e)
        end
    | (tr1, Throw e) => (tr1, Throw e)
    end
  else (tr, Ok (Some (response, toolCalls, safetyCounter))).
Proof.
  cbn [generation_loop].
  destruct (negb (length toolCalls =? 0) && (safetyCounter <? 3));
    [|reflexivity].
  rewrite bindM_run.
  destruct (round W resolved tools response toolCalls tr)
    as [tr1 [response'|e]]; [|reflexivity].
  rewrite bindM_run. unfold liftR at 1.
  destruct (collectToolCalls response'); reflexivity.
Qed.

(** One iteration of the loop: media searches, then at most one model
    call, which is then the last event. *)
Lemma round_events (W : World) (resolved : JSValue) (tools : list JSValue)
    (response : JSValue) (toolCalls : list JSValue) (tr : Trace) :
  exists evs,
    (round W resolved tools response toolCalls tr).1 = tr ++ evs /\
    Forall (carries_tools tools) evs /\
    match (round W resolved tools response toolCalls tr).2 with
    | Ok response' =>
        model_calls evs = 1 /\ last_response W tr evs response' /\
        searches_ok W tr evs
    | Throw e =>
        failed_last W tr evs e /\
        (model_calls evs = 0 \/
         model_calls evs = 1 /\
         exists pre request,
           evs = pre ++ [EModel request] /\
           responses_create W (tr ++ pre) request = Throw e)
    end.
Proof.
  rewrite round_run.
  destruct (dispatchCalls_events W resolved toolCalls [] tr)
    as (evs1 & Htr1 & Hf1 & Hs1).
  destruct (dispatchCalls W resolved toolCalls [] tr) as [tr1 [outs|e]];
    cbn [fst snd] in *; subst tr1.
  - destruct (get_prop response "id") as [previous|e].
    + exists (evs1 ++ [EModel (CreateContinuation previous tools outs)]).
      cbn [fst snd]. split; [symmetry; apply app_assoc|].
      assert (Hcount : model_calls
                (evs1 ++ [EModel (CreateContinuation previous tools outs)])
              = 1).
      { rewrite model_calls_app, model_calls_fetches by exact Hf1.
        reflexivity. }
      assert (Hok : searches_ok W tr
                (evs1 ++ [EModel (CreateContinuation previous tools outs)])).
      { apply searches_ok_app. split; [exact Hs1|]. cbn. auto. }
      split.
      { apply Forall_app. split; [apply fetches_carry_tools; exact Hf1|].
        repeat constructor. }
      destruct (responses_create W (tr ++ evs1)
                  (CreateContinuation previous tools outs)) as [r|e] eqn:Hr.
      * split; [exact Hcount|]. split; [|exact Hok].
        exists evs1, (CreateContinuation previous tools outs). auto.
      * split; [apply failed_last_silent; exact Hok|]. right.
        split; [exact Hcount|]. eauto.
    + exists evs1. cbn [fst snd]. split; [reflexivity|].
      split; [apply fetches_carry_tools; exact Hf1|].
      split; [apply failed_last_silent; exact Hs1|].
      left. apply model_calls_fetches. exact Hf1.
  - exists evs1. split; [reflexivity|].
    split; [apply fetches_carry_tools; exact Hf1|].
    split; [exact Hs1|]. left. apply model_calls_fetches. exact Hf1.
Qed.

(** The loop from counter [c]: at most [3 - c] model calls, all carrying
    the same [tools]; with [3 - c] units of fuel it ends; at its exit no
    invocation is pending unless the counter is 3. *)
Lemma generation_loop_events (W : World) (resolved : JSValue)
    (tools : list JSValue) (fuel : nat) :
  forall (response : JSValue) (toolCalls : list JSValue) (c : nat)
         (tr : Trace),
  exists evs,
    (generation_loop W fuel resolved tools response toolCalls c tr).1
      = tr ++ evs /\
    Forall (carries_tools tools) evs /\
    model_calls evs <= 3 - c /\
    match (generation_loop W fuel resolved tools response toolCalls c tr).2
    with
    | Ok None => c + fuel < 3
    | Ok (Some (r, pending, c')) =>
        c <= c' /\ (c <= 3 -> c' <= 3) /\ model_calls evs = c' - c /\
        (pending <> [] -> 3 <= c') /\
        searches_ok W tr evs /\
        (evs = [] /\ r = response /\ pending = toolCalls /\ c' = c \/
         last_response W tr evs r /\ collectToolCalls r = Ok pending)
    | Throw e =>
        failed_last W tr evs e /\
        (model_calls evs < 3 - c \/
         exists pre request,
           evs = pre ++ [EModel request] /\
           (responses_create W (tr ++ pre) request = Throw e \/
            exists r, responses_create W (tr ++ pre) request = Ok r /\
                      collectToolCalls r = Throw e))
    end.
Proof.
  induction fuel as [|fuel IH]; intros response toolCalls c tr.
  - cbn [generation_loop].
    destruct (negb (length toolCalls =? 0) && (c <? 3)) eqn:Hguard.
    + exists []. cbn [fst snd retM]. rewrite app_nil_r.
      apply andb_prop in Hguard as [_ Hc]. apply Nat.ltb_lt in Hc.
      split; [reflexivity|]. split; [constructor|]. split; cbn; lia.
    + exists []. cbn [fst snd]. rewrite app_nil_r.
      split; [reflexivity|]. split; [constructor|].
      split; [cbn; lia|]. split; [lia|]. split; [lia|].
      split; [cbn; lia|]. split; [|split; [exact I|left; auto]].
      intros Hp. apply andb_false_iff in Hguard as [Hg|Hg].
      * apply negb_false_iff, Nat.eqb_eq in Hg.
        destruct toolCalls; [congruence|discriminate].
      * apply Nat.ltb_ge in Hg. exact Hg.
  - rewrite generation_loop_step.
    destruct (negb (length toolCalls =? 0) && (c <? 3)) eqn:Hguard.
    + apply andb_prop in Hguard as [_ Hc]. apply Nat.ltb_lt in Hc.
      destruct (round_events W resolved tools response toolCalls tr)
        as (evs1 & Htr1 & Ht1 & Hr1).
      destruct (round W resolved tools response toolCalls tr)
        as [tr1 [response'|e]]; cbn [fst snd] in *; subst tr1.
      * destruct Hr1 as (Hm1 & Hl1 & Hs1).
        destruct (collectToolCalls response') as [toolCalls'|e] eqn:Hcol.
        -- destruct (IH response' toolCalls' (c + 1) (tr ++ evs1))
             as (evs2 & Htr2 & Ht2 & Hm2 & Hr2).
           destruct (generation_loop W fuel resolved tools response'
                       toolCalls' (c + 1) (tr ++ evs1)) as [tr2 res2].
           cbn [fst snd] in *; subst tr2. exists (evs1 ++ evs2).
           split; [symmetry; apply app_assoc|].
           split; [apply Forall_app; auto|].
           rewrite model_calls_app, Hm1. split; [lia|].
           destruct res2 as [[[[r pending] c']|]|e].
           ++ destruct Hr2 as (Hle & Hb & Hm & Hp & Hs & Hex).
              split; [lia|]. split; [lia|]. split; [lia|].
              split; [exact Hp|]. split; [apply searches_ok_app; auto|].
              right. destruct Hex as [(-> & -> & -> & _)|[Hl Hc']].
              ** rewrite app_nil_r. auto.
              ** split; [apply last_response_after; exact Hl|exact Hc'].
           ++ lia.
           ++ destruct Hr2 as (Hfl & Hcase).
              split; [apply failed_last_after; auto|].
              destruct Hcase as [Hlt|(pre & request & -> & Hcase)].
              ** left. lia.
              ** right. exists (evs1 ++ pre), request.
                 split; [apply app_assoc|]. rewrite app_assoc. exact Hcase.
        -- exists evs1. cbn [fst snd]. split; [reflexivity|].
           split; [exact Ht1|]. split; [lia|].
           split; [apply failed_last_silent; exact Hs1|]. right.
           destruct Hl1 as (pre & request & -> & Hresp).
           exists pre, request. split; [reflexivity|]. right. eauto.
      * exists evs1. cbn [fst snd]. split; [reflexivity|].
        split; [exact Ht1|].
        destruct Hr1 as (Hfl & [Hm|(Hm & pre & request & -> & Hresp)]).
        -- split; [lia|]. split; [exact Hfl|]. left. lia.
        -- split; [lia|]. split; [exact Hfl|]. right. eauto.
    + exists []. cbn [fst snd]. rewrite app_nil_r.
      split; [reflexivity|]. split; [constructor|].
      split; [cbn; lia|]. split; [lia|]. split; [lia|].
      split; [cbn; lia|]. split; [|split; [exact I|left; auto]].
      intros Hp. apply andb_false_iff in Hguard as [Hg|Hg].
      * apply negb_false_iff, Nat.eqb_eq in Hg.
        destruct toolCalls; [congruence|discriminate].
      * apply Nat.ltb_ge in Hg. exact Hg.
Qed.

(** ** The handler *)

Lemma lesson_reply_object (r : JSValue) :
  is_nullish r = false -> lesson_reply r = Ok (completed_reply r).
Proof.
  intros H. unfold lesson_reply, get_prop. rewrite H. reflexivity.
Qed.

Lemma lesson_reply_throws (r : JSValue) (e : JSError) :
  lesson_reply r = Throw e -> is_nullish r = true.
Proof.
  destruct (is_nullish r) eqn:H; [reflexivity|].
  rewrite lesson_reply_object by exact H. discriminate.
Qed.

Lemma lesson_reply_status (r : JSValue) (reply : Reply) :
  lesson_reply r = Ok reply -> reply = completed_reply r.
Proof.
  destruct (is_nullish r) eqn:H.
  - unfold lesson_reply, get_prop. rewrite H. discriminate.
  - rewrite lesson_reply_object by exact H. congruence.
Qed.

Lemma collectToolCalls_nullish (r : JSValue) :
  is_nullish r = true -> collectToolCalls r = Ok [].
Proof.
  intros H. unfold collectToolCalls, opt_prop. rewrite H. reflexivity.
Qed.

Lemma collectToolCalls_pending (r : JSValue) (pending : list JSValue) :
  collectToolCalls r = Ok pending -> pending <> [] -> is_nullish r = false.
Proof.
  intros H Hp. destruct (is_nullish r) eqn:Hn; [|reflexivity].
  rewrite collectToolCalls_nullish in H by exact Hn. congruence.
Qed.

Lemma generate_unreadable (W : World) (fuel : nat) (req : AiRequest)
    (tr : Trace) :
  is_nullish (req_body req) = true ->
  exists e, generate W fuel req tr = (tr, Throw e).
Proof. intros H. unfold generate. rewrite H. eexists. reflexivity. Qed.

Lemma generate_unresolved (W : World) (fuel : nat) (req : AiRequest)
    (tr : Trace) (e : JSError) :
  is_nullish (req_body req) = false ->
  resolved_query req = Throw e ->
  generate W fuel req tr = (tr, Throw e).
Proof.
  intros Hbody Hres. unfold generate. rewrite Hbody. cbv zeta.
  rewrite bindM_run. unfold liftR at 1.
  change (resolveImageQuery (prop (req_body req) "imageSearchQuery")
            (prop (req_body req) "topic")) with (resolved_query req).
  rewrite Hres. reflexivity.
Qed.

Lemma generate_unprintable (W : World) (fuel : nat) (req : AiRequest)
    (tr : Trace) (resolved : JSValue) (e : JSError) :
  is_nullish (req_body req) = false ->
  resolved_query req = Ok resolved ->
  session_prompt W req resolved = Throw e ->
  generate W fuel req tr = (tr, Throw e).
Proof.
  intros Hbody Hres Huser. unfold generate. rewrite Hbody. cbv zeta.
  rewrite bindM_run. unfold liftR at 1.
  change (resolveImageQuery (prop (req_body req) "imageSearchQuery")
            (prop (req_body req) "topic")) with (resolved_query req).
  rewrite Hres. rewrite bindM_run. unfold liftR at 1.
  change (userPrompt _ _ _ _ _ _ _) with (session_prompt W req resolved).
  rewrite Huser. reflexivity.
Qed.

Lemma generate_run (W : World) (fuel : nat) (req : AiRequest) (tr : Trace)
    (resolved : JSValue) (user : string) :
  is_nullish (req_body req) = false ->
  resolved_query req = Ok resolved ->
  session_prompt W req resolved = Ok user ->
  generate W fuel req tr =
  let tr1 := tr ++ [EModel (initial_request req user)] in
  match responses_create W tr (initial_request req user) with
  | Throw e => (tr1, Throw e)
  | Ok response =>
      match collectToolCalls response with
      | Throw e => (tr1, Throw e)
      | Ok toolCalls =>
          match generation_loop W fuel resolved (session_tools req)
                  response toolCalls 0 tr1 with
          | (tr2, Ok (Some (response', _, _))) =>
              (tr2, match lesson_reply response' with
                    | Ok reply => Ok (Some reply)
                    | Throw e => Throw e
                    end)
          | (tr2, Ok None) => (tr2, Ok None)
          | (tr2, Throw e) => (tr2, Throw e)
          end
      end
  end.
Proof.
  intros Hbody Hres Huser. unfold generate. rewrite Hbody. cbv zeta.
  rewrite bindM_run. unfold liftR at 1.
  change (resolveImageQuery (prop (req_body req) "imageSearchQuery")
            (prop (req_body req) "topic")) with (resolved_query req).
  rewrite Hres. rewrite bindM_run. unfold liftR at 1.
  change (userPrompt _ _ _ _ _ _ _) with (session_prompt W req resolved).
  rewrite Huser.
  rewrite bindM_run. unfold create at 1.
  change (CreateInitial _ _ _) with (initial_request req user).
  destruct (responses_create W tr (initial_request req user))
    as [response|e]; [|reflexivity].
  rewrite bindM_run. unfold liftR at 1.
  destruct (collectToolCalls response) as [toolCalls|e]; [|reflexivity].
  rewrite bindM_run.
  change (tools_of (prop (req_body req) "includeWebSearch"))
    with (session_tools req).
  destruct (generation_loop W fuel resolved (session_tools req) response
              toolCalls 0 (tr ++ [EModel (initial_request req user)]))
    as [tr2 [[[[response' pending] rounds]|]|e]]; try reflexivity.
  rewrite bindM_run. unfold liftR at 1.
  destruct (lesson_reply response'); reflexivity.
Qed.

(** The [try] block as a whole. *)
Lemma generate_events (W : World) (fuel : nat) (req : AiRequest) (tr : Trace) :
  exists evs,
    (generate W fuel req tr).1 = tr ++ evs /\
    (evs = [] \/
     exists resolved user rest,
       is_nullish (req_body req) = false /\
       resolved_query req = Ok resolved /\
       session_prompt W req resolved = Ok user /\
       evs = EModel (initial_request req user) :: rest) /\
    Forall (carries_tools (session_tools req)) evs /\
    model_calls evs <= 4 /\
    match (generate W fuel req tr).2 with
    | Ok None => fuel < 3
    | Ok (Some reply) =>
        searches_ok W tr evs /\
        exists r,
          last_response W tr evs r /\ reply = completed_reply r /\
          (forall pending,
              collectToolCalls r = Ok pending -> pending <> [] ->
              model_calls evs = 4)
    | Throw e =>
        failed_last W tr evs e /\
        (model_calls evs = 4 ->
         exists pre request,
           evs = pre ++ [EModel request] /\
           (responses_create W (tr ++ pre) request = Throw e \/
            exists r, responses_create W (tr ++ pre) request = Ok r /\
                      (collectToolCalls r = Throw e \/
                       collectToolCalls r = Ok [])))
    end.
Proof.
  assert (Hsilent : forall e : JSError,
             exists evs, tr = tr ++ evs /\
               (evs = [] \/
                exists resolved user rest,
                  is_nullish (req_body req) = false /\
                  resolved_query req = Ok resolved /\
                  session_prompt W req resolved = Ok user /\
                  evs = EModel (initial_request req user) :: rest) /\
               Forall (carries_tools (session_tools req)) evs /\
               model_calls evs <= 4 /\
               failed_last W tr evs e /\
               (model_calls evs = 4 ->
                exists pre request,
                  evs = pre ++ [EModel request] /\
                  (responses_create W (tr ++ pre) request = Throw e \/
                   exists r,
                     responses_create W (tr ++ pre) request = Ok r /\
                     (collectToolCalls r = Throw e \/
                      collectToolCalls r = Ok [])))).
  { intros e. exists []. rewrite app_nil_r. split; [reflexivity|].
    split; [left; reflexivity|]. split; [constructor|].
    split; [cbn; lia|]. split; [apply failed_last_silent; exact I|].
    cbn. discriminate. }
  assert (Hb : is_nullish (req_body req) = true \/
               is_nullish (req_body req) = false)
    by (destruct (is_nullish (req_body req)); auto).
  destruct Hb as [Hbody|Hbody].
  { destruct (generate_unreadable W fuel req tr Hbody) as [e ->].
    apply Hsilent. }
  assert (Hq : (exists e, resolved_query req = Throw e) \/
               (exists resolved, resolved_query req = Ok resolved))
    by (destruct (resolved_query req); eauto).
  destruct Hq as [[e Hres]|[resolved Hres]].
  { rewrite (generate_unresolved W fuel req tr e Hbody Hres).
    apply Hsilent. }
  assert (Hu : (exists e, session_prompt W req resolved = Throw e) \/
               (exists user, session_prompt W req resolved = Ok user))
    by (destruct (session_prompt W req resolved); eauto).
  destruct Hu as [[e Huser]|[user Huser]].
  { rewrite (generate_unprintable W fuel req tr resolved e Hbody Hres Huser).
    apply Hsilent. }
  rewrite (generate_run W fuel req tr resolved user Hbody Hres Huser).
  cbv zeta. set (init := initial_request req user).
  assert (Hinit : Forall (carries_tools (session_tools req)) [EModel init])
    by (repeat constructor).
  assert (Hfirst : forall rest,
             EModel init :: rest = [] \/
             exists resolved' user' rest',
               is_nullish (req_body req) = false /\
               resolved_query req = Ok resolved' /\
               session_prompt W req resolved' = Ok user' /\
               EModel init :: rest =
               EModel (initial_request req user') :: rest').
  { intros rest. right. exists resolved, user, rest. auto. }
  assert (Hone : forall e : JSError,
             exists evs, tr ++ [EModel init] = tr ++ evs /\
               (evs = [] \/
                exists resolved' user' rest,
                  is_nullish (req_body req) = false /\
                  resolved_query req = Ok resolved' /\
                  session_prompt W req resolved' = Ok user' /\
                  evs = EModel (initial_request req user') :: rest) /\
               Forall (carries_tools (session_tools req)) evs /\
               model_calls evs <= 4 /\
               failed_last W tr evs e /\
               (model_calls evs = 4 ->
                exists pre request,
                  evs = pre ++ [EModel request] /\
                  (responses_create W (tr ++ pre) request = Throw e \/
                   exists r,
                     responses_create W (tr ++ pre) request = Ok r /\
                     (collectToolCalls r = Throw e \/
                      collectToolCalls r = Ok [])))).
  { intros e. exists [EModel init]. split; [reflexivity|].
    split; [apply Hfirst|]. split; [exact Hinit|]. split; [cbn; lia|].
    split; [apply failed_last_silent; cbn; auto|]. cbn. discriminate. }
  destruct (responses_create W tr init) as [response|e] eqn:Hresp;
    [|apply Hone].
  destruct (collectToolCalls response) as [toolCalls|e] eqn:Hcol;
    [|apply Hone].
  clear Hone Hsilent.
  destruct (generation_loop_events W resolved (session_tools req) fuel
              response toolCalls 0 (tr ++ [EModel init]))
    as (evsL & HtrL & HtL & HmL & HrL).
  destruct (generation_loop W fuel resolved (session_tools req) response
              toolCalls 0 (tr ++ [EModel init])) as [tr2 resL].
  cbn [fst snd] in *; subst tr2.
  exists (EModel init :: evsL).
  assert (Happ : (tr ++ [EModel init]) ++ evsL = tr ++ EModel init :: evsL)
    by (rewrite <- app_assoc; reflexivity).
  assert (Hcount : model_calls (EModel init :: evsL) = 1 + model_calls evsL)
    by reflexivity.
  assert (Hlast : forall r,
             evsL = [] /\ r = response \/
             last_response W (tr ++ [EModel init]) evsL r ->
             last_response W tr (EModel init :: evsL) r).
  { intros r [[-> ->]|Hl].
    - exists [], init. rewrite app_nil_r. auto.
    - apply (last_response_after W tr [EModel init] evsL r Hl). }
  destruct resL as [[[[response' pending] rounds]|]|e].
  - destruct HrL as (_ & Hb & Hm & Hp & Hs & Hex).
    assert (Hs' : searches_ok W tr (EModel init :: evsL))
      by (cbn; auto).
    assert (Hl' : last_response W tr (EModel init :: evsL) response').
    { apply Hlast. destruct Hex as [(? & ? & _)|[? _]]; auto. }
    assert (Hcol' : collectToolCalls response' = Ok pending).
    { destruct Hex as [(_ & -> & -> & _)|[_ ?]]; auto. }
    destruct (lesson_reply response') as [reply|e] eqn:Hreply;
      cbn [fst snd].
    + split; [exact Happ|]. split; [apply Hfirst|].
      split; [constructor; [reflexivity|exact HtL]|].
      split; [rewrite Hcount; lia|]. split; [exact Hs'|].
      exists response'. split; [exact Hl'|].
      split; [apply lesson_reply_status; exact Hreply|].
      intros pending' Hc' Hne. rewrite Hcount.
      assert (pending' = pending) by congruence. subst pending'.
      specialize (Hp Hne). lia.
    + split; [exact Happ|]. split; [apply Hfirst|].
      split; [constructor; [reflexivity|exact HtL]|].
      split; [rewrite Hcount; lia|].
      split; [apply failed_last_silent; exact Hs'|]. intros _.
      destruct Hl' as (pre & request & Hev & Hr).
      exists pre, request. split; [exact Hev|]. right.
      exists response'. split; [exact Hr|]. right.
      apply collectToolCalls_nullish.
      apply (lesson_reply_throws response' e Hreply).
  - cbn [fst snd]. split; [exact Happ|]. split; [apply Hfirst|].
    split; [constructor; [reflexivity|exact HtL]|].
    split; [rewrite Hcount; lia|]. lia.
  - cbn [fst snd]. destruct HrL as (Hfl & Hcase).
    split; [exact Happ|]. split; [apply Hfirst|].
    split; [constructor; [reflexivity|exact HtL]|].
    split; [rewrite Hcount; lia|]. split.
    + apply (failed_last_after W tr [EModel init] evsL e); [cbn; auto|].
      exact Hfl.
    + rewrite Hcount. intros H4.
      destruct Hcase as [Hlt|(pre & request & -> & Hcase)]; [lia|].
      exists (EModel init :: pre), request. split; [reflexivity|].
      replace (tr ++ EModel init :: pre) with ((tr ++ [EModel init]) ++ pre)
        by (rewrite <- app_assoc; reflexivity).
      destruct Hcase as [Hthrow|(r & Hr & Hc)]; [left; exact Hthrow|].
      right. exists r. auto.
Qed.

Lemma ai_lesson_run (W : World) (fuel : nat) (req : AiRequest) (tr : Trace) :
  ai_lesson W fuel req tr =
  if configured W then
    ((generate W fuel req tr).1,
     match (generate W fuel req tr).2 with
     | Ok reply => reply
     | Throw error => Some (error_reply (error_message error))
     end)
  else (tr, Some (error_reply "OPENAI_API_KEY is not configured.")).
Proof.
  unfold ai_lesson, configured.
  destruct (openaiApiKey W) as [[|c key]|]; try reflexivity.
  destruct (generate W fuel req tr) as [tr' [reply|e]]; reflexivity.
Qed.

Lemma ai_lesson_events (W : World) (fuel : nat) (req : AiRequest) (tr : Trace) :
  exists evs,
    (ai_lesson W fuel req tr).1 = tr ++ evs /\
    (evs = [] \/
     exists resolved user rest,
       is_nullish (req_body req) = false /\
       resolved_query req = Ok resolved /\
       session_prompt W req resolved = Ok user /\
       evs = EModel (initial_request req user) :: rest) /\
    Forall (carries_tools (session_tools req)) evs /\
    model_calls evs <= 4 /\
    match (ai_lesson W fuel req tr).2 with
    | Some reply => session_end W tr evs reply
    | None => fuel < 3
    end.
Proof.
  rewrite ai_lesson_run. destruct (configured W) eqn:Hc.
  - destruct (generate_events W fuel req tr)
      as (evs & Htr & Hfirst & Ht & Hm & Hr).
    exists evs. cbn [fst snd]. split; [exact Htr|]. split; [exact Hfirst|].
    split; [exact Ht|]. split; [exact Hm|].
    destruct ((generate W fuel req tr).2) as [[reply|]|e].
    + destruct Hr as (Hs & r & Hl & -> & Hp). constructor; auto.
    + exact Hr.
    + destruct Hr as [Hfl H4]. constructor; auto.
  - exists []. cbn [fst snd]. rewrite app_nil_r. split; [reflexivity|].
    split; [left; reflexivity|]. split; [constructor|].
    split; [cbn; lia|]. apply end_unconfigured; auto.
Qed.

(** Fuel beyond what the loop needs changes nothing. *)
Lemma generation_loop_fuel (W : World) (resolved : JSValue)
    (tools : list JSValue) (fuel : nat) :
  forall (extra : nat) (response : JSValue) (toolCalls : list JSValue)
         (c : nat) (tr : Trace),
    3 <= c + fuel ->
    generation_loop W (fuel + extra) resolved tools response toolCalls c tr =
    generation_loop W fuel resolved tools response toolCalls c tr.
Proof.
  induction fuel as [|fuel IH]; intros extra response toolCalls c tr Hc.
  - assert (Hg : negb (length toolCalls =? 0) && (c <? 3) = false).
    { apply andb_false_iff. right. apply Nat.ltb_ge. lia. }
    cbn [Nat.add generation_loop]. rewrite Hg.
    destruct extra; cbn [generation_loop]; rewrite Hg; reflexivity.
  - cbn [Nat.add]. rewrite !generation_loop_step.
    destruct (negb (length toolCalls =? 0) && (c <? 3)); [|reflexivity].
    destruct (round W resolved tools response toolCalls tr)
      as [tr1 [response'|e]]; [|reflexivity].
    destruct (collectToolCalls response'); [|reflexivity].
    apply IH. lia.
Qed.

Lemma ai_lesson_fuel (W : World) (fuel fuel' : nat) (req : AiRequest)
    (tr : Trace) :
  3 <= fuel -> 3 <= fuel' ->
  ai_lesson W fuel' req tr = ai_lesson W fuel req tr.
Proof.
  intros H H'.
  assert (Hgen : forall f, 3 <= f ->
             generate W f req tr = generate W 3 req tr).
  { intros f Hf.
    destruct (is_nullish (req_body req)) eqn:Hbody.
    { unfold generate. rewrite Hbody. reflexivity. }
    destruct (resolved_query req) as [resolved|e] eqn:Hres.
    2:{ rewrite !(generate_unresolved W _ req tr e Hbody Hres).
        reflexivity. }
    destruct (session_prompt W req resolved) as [user|e] eqn:Huser.
    2:{ rewrite !(generate_unprintable W _ req tr resolved e Hbody Hres
                    Huser).
        reflexivity. }
    rewrite !(generate_run W _ req tr resolved user Hbody Hres Huser).
    cbv zeta.
    destruct (responses_create W tr (initial_request req user));
      [|reflexivity].
    destruct (collectToolCalls a); [|reflexivity].
    replace f with (3 + (f - 3)) by lia.
    rewrite generation_loop_fuel by lia. reflexivity. }
  rewrite !ai_lesson_run, (Hgen fuel H), (Hgen fuel' H'). reflexivity.
Qed.

(** ** Termination of the generation loop *)

(** C1. Whatever the model service and the media search answer, the
    handler returns as soon as it has three units of fuel, one being spent
    per iteration of the loop, and with the same result for any larger
    fuel: a reply of status 200 (Completed) or 500 (Failed), after at most
    4 model-service calls.  The loop itself, entered with its counter at 0,
    makes at most 3 iterations, one model call each, and leaves with
    invocations pending only when the counter is 3.  When the fourth model
    call answers with invocations still pending, the session completes with
    the text of that last response. *)
Theorem generation_terminates (W : World) (fuel : nat) (req : AiRequest)
    (tr : Trace) :
  3 <= fuel ->
  exists evs reply,
    ai_lesson W fuel req tr = (tr ++ evs, Some reply) /\
    (forall fuel', 3 <= fuel' ->
        ai_lesson W fuel' req tr = (tr ++ evs, Some reply)) /\
    model_calls evs <= 4 /\
    (status reply = 200 \/ status reply = 500) /\
    (forall pre request r pending,
        evs = pre ++ [EModel request] ->
        model_calls evs = 4 ->
        responses_create W (tr ++ pre) request = Ok r ->
        collectToolCalls r = Ok pending ->
        pending <> [] ->
        reply = completed_reply r) /\
    (forall resolved tools response toolCalls tr1,
        exists evsL,
          (generation_loop W fuel resolved tools response toolCalls 0 tr1).1
            = tr1 ++ evsL /\
          model_calls evsL <= 3 /\
          match
            (generation_loop W fuel resolved tools response toolCalls 0 tr1).2
          with
          | Ok None => False
          | Ok (Some (_, pending, rounds)) =>
              rounds <= 3 /\ model_calls evsL = rounds /\
              (pending <> [] -> rounds = 3)
          | Throw _ => True
          end).
Proof.
  intros Hfuel.
  destruct (ai_lesson_events W fuel req tr) as (evs & Htr & _ & _ & Hm & Hr).
  destruct (ai_lesson W fuel req tr) as [tr' [reply|]] eqn:Hrun;
    cbn [fst snd] in *; [|lia].
  subst tr'. exists evs, reply. split; [reflexivity|]. split.
  { intros fuel' Hfuel'.
    rewrite (ai_lesson_fuel W fuel fuel' req tr Hfuel Hfuel'). exact Hrun. }
  split; [exact Hm|]. split.
  { destruct Hr; cbn; auto. }
  split.
  - intros pre request r pending Hev H4 Hresp Hcol Hne.
    destruct Hr as [r0 _ (pre0 & rq0 & Hev0 & Hresp0) _|e _ Hcase|_ Hnil].
    + rewrite Hev in Hev0. apply app_inj_tail in Hev0 as [-> Hrq].
      inversion Hrq; subst rq0. congruence.
    + destruct (Hcase H4) as (pre0 & rq0 & Hev0 & Hlast).
      rewrite Hev in Hev0. apply app_inj_tail in Hev0 as [-> Hrq].
      inversion Hrq; subst rq0.
      destruct Hlast as [Hthrow|(r0 & Hr0 & [Hc|Hc])]; congruence.
    + subst evs. destruct pre; discriminate.
  - intros resolved tools response toolCalls tr1.
    destruct (generation_loop_events W resolved tools fuel response
                toolCalls 0 tr1) as (evsL & HtrL & _ & HmL & HrL).
    exists evsL. split; [exact HtrL|]. split; [lia|].
    destruct ((generation_loop W fuel resolved tools response toolCalls
                 0 tr1).2) as [[[[r pending] rounds]|]|e]; [|lia|exact I].
    destruct HrL as (_ & Hb & Hcount & Hp & _).
    split; [lia|]. split; [lia|]. intros Hne. specialize (Hp Hne). lia.
Qed.

Lemma generation_terminates_witness :
  3 <= 3 /\
  exists evs reply,
    ai_lesson greedy_world 3 demo_request [] = (evs, Some reply) /\
    model_calls evs = 4 /\
    fetch_calls evs = 3 /\
    reply = {| status := 200;
               body := JObj [("content", JStr "draft");
                             ("citations", JArr [])] |}.
Proof.
  split; [lia|].
  destruct (generation_terminates greedy_world 3 demo_request [] (le_n 3))
    as (evs & reply & Hrun & _).
  cbn [app] in Hrun. exists evs, reply. split; [exact Hrun|].
  vm_compute in Hrun. injection Hrun as <- <-.
  repeat split; vm_compute; reflexivity.
Defined.

(** ** The capability descriptors *)

(** C5, counterexample.  The flag is not read as a boolean: a request
    whose [includeWebSearch] is the boolean [true] gets the image-search
    capability alone, in the list the handler builds and in the model call
    of a session with that request. *)
Lemma boolean_flag_without_web_search :
  tools_of (JBool true) = [image_search_tool] /\
  ~ In (JObj [("type", JStr "web_search")]) (tools_of (JBool true)) /\
  prop (req_body flagged_request) "includeWebSearch" = JBool true /\
  exists input,
    (ai_lesson plain_world 3 flagged_request []).1 =
    [EModel (CreateInitial "gpt-4.1-mini" input [image_search_tool])].
Proof.
  split; [reflexivity|]. split.
  { cbn. intros [H|[]]. discriminate. }
  split; [reflexivity|]. eexists. vm_compute. reflexivity.
Qed.

(** C5, as amended.  The descriptor list is the web-search capability
    [{type: "web_search"}], present exactly when the [includeWebSearch]
    field of the request is the string ["true"], followed by the
    image-search capability, always present, whose schema requires [query]
    and gives [count] the default 4; every model-service call of a session
    carries that same list. *)
Theorem tools_registry :
  (forall includeWebSearch,
      tools_of includeWebSearch =
      (if strict_eq_str includeWebSearch "true"
       then [JObj [("type", JStr "web_search")]] else []) ++
      [JObj [("type", JStr "function");
             ("name", JStr "image_search");
             ("description",
              JStr "Search for classroom-safe images and return direct URLs.");
             ("parameters",
              JObj [("type", JStr "object");
                    ("properties",
                     JObj [("query", JObj [("type", JStr "string")]);
                           ("count", JObj [("type", JStr "number");
                                           ("default", JNum 4)])]);
                    ("required", JArr [JStr "query"])])]]) /\
  (forall includeWebSearch,
      In (JObj [("type", JStr "web_search")]) (tools_of includeWebSearch) <->
      includeWebSearch = JStr "true") /\
  (forall includeWebSearch,
      last (tools_of includeWebSearch) = Some image_search_tool) /\
  (prop image_search_tool "name" = JStr "image_search" /\
   prop (prop image_search_tool "parameters") "required"
     = JArr [JStr "query"] /\
   prop (prop (prop image_search_tool "parameters") "properties") "query"
     = JObj [("type", JStr "string")] /\
   prop (prop (prop (prop image_search_tool "parameters") "properties")
           "count") "default" = JNum 4) /\
  (forall W fuel req tr,
      exists evs,
        (ai_lesson W fuel req tr).1 = tr ++ evs /\
        Forall (carries_tools
                  (tools_of (prop (req_body req) "includeWebSearch"))) evs).
Proof.
  split; [reflexivity|]. split.
  { intros v. unfold tools_of.
    destruct (strict_eq_str v "true") eqn:Hv; cbn [app In].
    - split; [intros _|auto]. destruct v; try discriminate.
      cbn [strict_eq_str] in Hv. apply String.eqb_eq in Hv. congruence.
    - split; [intros [H|[]]; discriminate|].
      intros ->. discriminate. }
  split.
  { intros v. unfold tools_of. destruct (strict_eq_str v "true");
      reflexivity. }
  split; [repeat split|].
  intros W fuel req tr.
  destruct (ai_lesson_events W fuel req tr) as (evs & Htr & _ & Ht & _).
  exists evs. split; [exact Htr|exact Ht].
Qed.

(** ** The prompts *)

Lemma submitted_prompts_first (req : AiRequest) (user : string)
    (rest : list Event) :
  submitted_prompts (EModel (initial_request req user) :: rest) =
  Some [ {| role := "system"; content := systemPrompt |};
         {| role := "user"; content := user |} ].
Proof. reflexivity. Qed.

Lemma resolveImageQuery_default (imageSearchQuery topic : JSValue) :
  is_nullish imageSearchQuery = true \/
  (exists s, imageSearchQuery = JStr s /\ is_space_only s = true) ->
  resolveImageQuery imageSearchQuery topic = default_image_query topic.
Proof.
  intros [Hn|(s & -> & Hs)]; unfold resolveImageQuery.
  - destruct imageSearchQuery; try discriminate; reflexivity.
  - cbn [opt_trim bindR]. rewrite trim_spaces by exact Hs. reflexivity.
Qed.

(** C7, counterexample.  A request without image query whose topic cannot
    be converted to a string has no resolved image query: the template
    throws, and the handler answers 500 without any external call. *)
Lemma default_query_unprintable_topic :
  is_nullish (prop (req_body unprintable_request) "imageSearchQuery") = true /\
  resolved_query unprintable_request = Throw cannot_convert /\
  ai_lesson plain_world 3 unprintable_request [] =
    ([], Some (error_reply "Cannot convert object to primitive value")).
Proof. repeat split. Qed.

(** C7, as amended.  The instruction strings a session submits are
    determined by the request fields and the upload digest: for two
    requests with the same fields and the same digest, whatever their
    environments, the resolved image query and the user instruction are
    the same (or fail alike), and two sessions that submit instructions,
    whatever their histories and the answers they get, submit identical
    system and user instructions, the user instruction being [userPrompt]
    of the fields, the digest and the resolved image query.  When the
    request has no image query or one made of white space only, the
    resolved image query is the template built from the topic (from
    "lesson" when the topic is falsy), provided the topic can be converted
    to a string, as a string always can; when it cannot, resolving the
    query throws. *)
Theorem prompts_deterministic :
  (forall W1 W2 req1 req2,
      same_prompt_fields (req_body req1) (req_body req2) ->
      contextFromFiles W1 (req_files req1) =
      contextFromFiles W2 (req_files req2) ->
      resolved_query req1 = resolved_query req2 /\
      forall resolved,
        session_prompt W1 req1 resolved = session_prompt W2 req2 resolved) /\
  (forall W1 W2 fuel1 fuel2 req1 req2 tr1 tr2 evs1 evs2 prompts1 prompts2,
      same_prompt_fields (req_body req1) (req_body req2) ->
      contextFromFiles W1 (req_files req1) =
      contextFromFiles W2 (req_files req2) ->
      (ai_lesson W1 fuel1 req1 tr1).1 = tr1 ++ evs1 ->
      (ai_lesson W2 fuel2 req2 tr2).1 = tr2 ++ evs2 ->
      submitted_prompts evs1 = Some prompts1 ->
      submitted_prompts evs2 = Some prompts2 ->
      prompts1 = prompts2 /\
      exists resolved user,
        resolved_query req1 = Ok resolved /\
        session_prompt W1 req1 resolved = Ok user /\
        prompts1 =
        [ {| role := "system"; content := systemPrompt |};
          {| role := "user"; content := user |} ]) /\
  (forall imageSearchQuery topic,
      is_nullish imageSearchQuery = true \/
      (exists s, imageSearchQuery = JStr s /\ is_space_only s = true) ->
      (forall shown,
          to_string (js_or topic (JStr "lesson")) = Ok shown ->
          resolveImageQuery imageSearchQuery topic =
          Ok (JStr (shown +:+ " classroom illustration"))) /\
      (forall e,
          to_string (js_or topic (JStr "lesson")) = Throw e ->
          resolveImageQuery imageSearchQuery topic = Throw e) /\
      (forall t,
          topic = JStr t ->
          resolveImageQuery imageSearchQuery topic =
          Ok (JStr ((if String.eqb t EmptyString then "lesson" else t) +:+
                    " classroom illustration"))) /\
      (is_nullish topic = true ->
       resolveImageQuery imageSearchQuery topic =
       Ok (JStr "lesson classroom illustration"))).
Proof.
  assert (Hfun : forall W1 W2 req1 req2,
             same_prompt_fields (req_body req1) (req_body req2) ->
             contextFromFiles W1 (req_files req1) =
             contextFromFiles W2 (req_files req2) ->
             resolved_query req1 = resolved_query req2 /\
             forall resolved,
               session_prompt W1 req1 resolved =
               session_prompt W2 req2 resolved).
  { intros W1 W2 req1 req2 Hbody Hdigest.
    unfold same_prompt_fields, prompt_fields in Hbody.
    repeat match type of Hbody with
           | Forall _ (_ :: _) =>
               apply Forall_cons in Hbody;
               let Hk := fresh "Hk" in destruct Hbody as [Hk Hbody]
           end.
    split.
    - unfold resolved_query. rewrite Hk, Hk3. reflexivity.
    - intros resolved. unfold session_prompt.
      rewrite Hk, Hk0, Hk1, Hk2, Hk4, Hdigest. reflexivity. }
  split; [exact Hfun|]. split.
  - intros W1 W2 fuel1 fuel2 req1 req2 tr1 tr2 evs1 evs2 p1 p2
      Hbody Hdigest Hrun1 Hrun2 Hp1 Hp2.
    destruct (Hfun W1 W2 req1 req2 Hbody Hdigest) as [Hq Hu].
    destruct (ai_lesson_events W1 fuel1 req1 tr1)
      as (evs1' & Htr1 & Hfirst1 & _).
    destruct (ai_lesson_events W2 fuel2 req2 tr2)
      as (evs2' & Htr2 & Hfirst2 & _).
    rewrite Hrun1 in Htr1. apply app_inv_head in Htr1. subst evs1'.
    rewrite Hrun2 in Htr2. apply app_inv_head in Htr2. subst evs2'.
    destruct Hfirst1 as [->|(r1 & u1 & rest1 & _ & Hres1 & Hu1 & ->)];
      [discriminate|].
    destruct Hfirst2 as [->|(r2 & u2 & rest2 & _ & Hres2 & Hu2 & ->)];
      [discriminate|].
    rewrite submitted_prompts_first in Hp1, Hp2.
    assert (r1 = r2) by congruence. subst r2.
    assert (u1 = u2) by (rewrite Hu in Hu1; congruence). subst u2.
    split; [congruence|].
    exists r1, u1. split; [exact Hres1|]. split; [exact Hu1|congruence].
  - intros isq topic Hisq.
    rewrite (resolveImageQuery_default isq topic Hisq).
    unfold default_image_query. split; [|split; [|split]].
    + intros shown ->. reflexivity.
    + intros e ->. reflexivity.
    + intros t ->. unfold js_or. cbn [truthy].
      destruct (String.eqb t EmptyString); reflexivity.
    + intros Hn. destruct topic; try discriminate; reflexivity.
Qed.

Lemma prompts_deterministic_witness :
  exists evs1 evs2 prompts,
    (ai_lesson greedy_world 3 demo_request []).1 = [] ++ evs1 /\
    (ai_lesson offline_world 1 demo_request [EFetch []]).1
      = [EFetch []] ++ evs2 /\
    length evs1 = 7 /\ length evs2 = 2 /\
    submitted_prompts evs1 = Some prompts /\
    submitted_prompts evs2 = Some prompts /\
    resolveImageQuery (JStr "  ") (JStr "Cells") =
      Ok (JStr "Cells classroom illustration").
Proof.
  destruct prompts_deterministic as (_ & Hdet & Hdefault).
  pose (evs1 := (ai_lesson greedy_world 3 demo_request []).1).
  pose (evs2 :=
          skipn 1 (ai_lesson offline_world 1 demo_request [EFetch []]).1).
  assert (H1 : (ai_lesson greedy_world 3 demo_request []).1 = [] ++ evs1)
    by reflexivity.
  assert (H2 : (ai_lesson offline_world 1 demo_request [EFetch []]).1
               = [EFetch []] ++ evs2) by (vm_compute; reflexivity).
  destruct (submitted_prompts evs1) as [p1|] eqn:Hp1;
    [|vm_compute in Hp1; discriminate].
  destruct (submitted_prompts evs2) as [p2|] eqn:Hp2;
    [|vm_compute in Hp2; discriminate].
  assert (Hsame : same_prompt_fields (req_body demo_request)
                    (req_body demo_request))
    by (repeat constructor).
  destruct (Hdet greedy_world offline_world 3 1 demo_request demo_request
              [] [EFetch []] evs1 evs2 p1 p2 Hsame eq_refl H1 H2 Hp1 Hp2)
    as [Heq _].
  exists evs1, evs2, p1.
  split; [exact H1|]. split; [exact H2|].
  split; [vm_compute; reflexivity|]. split; [vm_compute; reflexivity|].
  split; [exact Hp1|]. split; [rewrite Heq; exact Hp2|].
  assert (Hblank : is_nullish (JStr "  ") = true \/
                   (exists s, JStr "  " = JStr s /\ is_space_only s = true)).
  { right. exists "  ". split; reflexivity. }
  exact (proj1 (proj2 (proj2 (Hdefault (JStr "  ") (JStr "Cells") Hblank)))
           "Cells" eq_refl).
Defined.

(** ** Failure of the image search *)

Lemma no_failing_search (W : World) (tr : Trace) (evs pre post : list Event)
    (searchParams : list (string * string)) (e : JSError) :
  searches_ok W tr evs ->
  evs = pre ++ EFetch searchParams :: post ->
  search_outcome W (tr ++ pre) searchParams = Throw e ->
  False.
Proof.
  intros Hok -> Hthrow. apply searches_ok_at in Hok as [images Hok].
  congruence.
Qed.

Lemma failing_search_is_last (W : World) (tr : Trace)
    (evs pre post : list Event) (searchParams : list (string * string))
    (e e0 : JSError) :
  failed_last W tr evs e0 ->
  evs = pre ++ EFetch searchParams :: post ->
  search_outcome W (tr ++ pre) searchParams = Throw e ->
  post = [] /\ e = e0.
Proof.
  intros (pre0 & last & -> & Hok & Hlast) Hev Hthrow.
  destruct Hlast as [->|(ev & -> & Hev0)].
  - rewrite app_nil_r in Hev.
    destruct (no_failing_search W tr pre0 pre post searchParams e Hok Hev
                Hthrow).
  - destruct post as [|x post].
    + apply app_inj_tail in Hev as [-> ->]. split; [reflexivity|].
      apply (Hev0 searchParams e eq_refl Hthrow).
    + destruct (exists_last (l := x :: post)) as (post' & y & Hpost);
        [discriminate|].
      rewrite Hpost in Hev.
      replace (pre ++ EFetch searchParams :: post' ++ [y])
        with ((pre ++ EFetch searchParams :: post') ++ [y]) in Hev
        by (rewrite <- app_assoc; reflexivity).
      apply app_inj_tail in Hev as [Hpre _].
      destruct (no_failing_search W tr pre0 pre post' searchParams e Hok
                  Hpre Hthrow).
Qed.

(** C4, counterexample.  The search also fails when the service did not
    answer with a non-success status: when the fetch is rejected, when the
    body of a successful response is not JSON, and when a page of a
    successful response is [null]. *)
Lemma image_search_fails_without_status :
  search_params (JStr "leaf") JUndefined = Ok (query_params "leaf" "4") /\
  (non_success (fetch offline_world [] (query_params "leaf" "4")) = false /\
   (performImageSearch offline_world (JStr "leaf") JUndefined []).2
     = Throw (Error "fetch failed")) /\
  (non_success (fetch garbled_world [] (query_params "leaf" "4")) = false /\
   (performImageSearch garbled_world (JStr "leaf") JUndefined []).2
     = Throw (SyntaxError "Unexpected token < in JSON")) /\
  (non_success (fetch null_page_world [] (query_params "leaf" "4")) = false /\
   (performImageSearch null_page_world (JStr "leaf") JUndefined []).2
     = Throw (TypeError "Cannot read properties of null (reading 'imageinfo')")).
Proof. repeat split; vm_compute; reflexivity. Qed.

(** C4, as amended.  When the media search answers with a non-success
    status the image-search operation throws the error "Image search
    failed.", and when the operation returns its images the request was
    sent and answered with a success status (it may throw for other
    reasons as well, before the request is sent when its parameters cannot
    be built).  Any error of the image search ends the session: the
    failing search is the last external call of the session (nothing is
    retried, no further model call is made) and the reply is a 500 whose
    only field is the message of that error. *)
Theorem image_search_failure (W : World) :
  (forall query count tr searchParams json,
      search_params query count = Ok searchParams ->
      fetch W tr searchParams = FetchResponse false json ->
      performImageSearch W query count tr =
      (tr ++ [EFetch searchParams], Throw (Error "Image search failed."))) /\
  (forall query count tr tr' images,
      performImageSearch W query count tr = (tr', Ok images) ->
      exists searchParams json,
        search_params query count = Ok searchParams /\
        tr' = tr ++ [EFetch searchParams] /\
        fetch W tr searchParams = FetchResponse true json /\
        non_success (fetch W tr searchParams) = false) /\
  (forall query count tr e,
      search_params query count = Throw e ->
      performImageSearch W query count tr = (tr, Throw e)) /\
  (forall fuel req tr pre searchParams post e,
      3 <= fuel ->
      (ai_lesson W fuel req tr).1 = tr ++ pre ++ EFetch searchParams :: post ->
      search_outcome W (tr ++ pre) searchParams = Throw e ->
      post = [] /\
      (ai_lesson W fuel req tr).2 =
      Some {| status := 500;
              body := JObj [("error", JStr (error_message e))] |}) /\
  (forall fuel req tr pre searchParams post json,
      3 <= fuel ->
      (ai_lesson W fuel req tr).1 = tr ++ pre ++ EFetch searchParams :: post ->
      fetch W (tr ++ pre) searchParams = FetchResponse false json ->
      post = [] /\
      (ai_lesson W fuel req tr).2 =
      Some {| status := 500;
              body := JObj [("error", JStr "Image search failed.")] |}).
Proof.
  assert (Hsession : forall fuel req tr pre searchParams post e,
             3 <= fuel ->
             (ai_lesson W fuel req tr).1
               = tr ++ pre ++ EFetch searchParams :: post ->
             search_outcome W (tr ++ pre) searchParams = Throw e ->
             post = [] /\
             (ai_lesson W fuel req tr).2 =
             Some (error_reply (error_message e))).
  { intros fuel req tr pre p post e Hfuel Hrun Hthrow.
    destruct (ai_lesson_events W fuel req tr) as (evs & Htr & _ & _ & _ & Hr).
    rewrite Hrun in Htr. apply app_inv_head in Htr.
    destruct ((ai_lesson W fuel req tr).2) as [reply|]; [|lia].
    destruct Hr as [r Hok _ _|e0 Hfl _|_ Hnil].
    - destruct (no_failing_search W tr evs pre post p e Hok (eq_sym Htr)
                  Hthrow).
    - destruct (failing_search_is_last W tr evs pre post p e e0 Hfl
                  (eq_sym Htr) Hthrow) as [-> ->]. auto.
    - subst evs. destruct pre; discriminate. }
  split; [|split; [|split; [|split]]].
  - intros query count tr p json Hp Hf. rewrite performImageSearch_run, Hp.
    unfold search_outcome. rewrite Hf. reflexivity.
  - intros query count tr tr' images Hrun.
    rewrite performImageSearch_run in Hrun.
    destruct (search_params query count) as [p|e]; [|discriminate].
    unfold search_outcome in Hrun.
    destruct (fetch W tr p) as [e|[] json] eqn:Hf; try discriminate.
    exists p, json. split; [reflexivity|].
    split; [congruence|]. split; [exact Hf|]. rewrite Hf. reflexivity.
  - intros query count tr e Hp. rewrite performImageSearch_run, Hp.
    reflexivity.
  - exact Hsession.
  - intros fuel req tr pre p post json Hfuel Hrun Hf.
    apply (Hsession fuel req tr pre p post (Error "Image search failed."));
      [exact Hfuel|exact Hrun|].
    unfold search_outcome. rewrite Hf. reflexivity.
Qed.

Lemma image_search_failure_witness :
  exists pre searchParams,
    3 <= 3 /\
    (ai_lesson refusing_world 3 demo_request []).1
      = [] ++ pre ++ EFetch searchParams :: [] /\
    fetch refusing_world ([] ++ pre) searchParams
      = FetchResponse false (Ok JNull) /\
    model_calls (pre ++ [EFetch searchParams]) = 1 /\
    (ai_lesson refusing_world 3 demo_request []).2 =
    Some {| status := 500;
            body := JObj [("error", JStr "Image search failed.")] |}.
Proof.
  eexists [_]. eexists.
  assert (Hrun : (ai_lesson refusing_world 3 demo_request []).1
                 = [] ++ [_] ++ EFetch _ :: [])
    by (vm_compute; reflexivity).
  split; [lia|]. split; [exact Hrun|]. split; [reflexivity|].
  split; [reflexivity|].
  exact (proj2
           (proj2 (proj2 (proj2 (proj2 (image_search_failure refusing_world))))
              3 demo_request [] _ _ [] (Ok JNull) (le_n 3) Hrun eq_refl)).
Defined.

(** ** Dispatch of the invocations of one round *)

Lemma collectToolCalls_objects (response : JSValue)
    (toolCalls : list JSValue) :
  collectToolCalls response = Ok toolCalls ->
  Forall (fun call => is_nullish call = false) toolCalls.
Proof.
  unfold collectToolCalls. intros H.
  destruct (js_or (opt_prop response "output") (JArr [])); try discriminate.
  apply filterR_kept in H. eapply Forall_impl; [exact H|].
  intros call Hcall. unfold is_tool_call, get_prop in Hcall.
  destruct (is_nullish call); [discriminate|reflexivity].
Qed.

Lemma dispatchCall_unrecognized (W : World) (resolved call : JSValue)
    (tr : Trace) :
  is_nullish call = false -> recognized call = false ->
  dispatchCall W resolved call tr = (tr, Ok None).
Proof.
  intros Hcall Hrec. rewrite dispatchCall_run, get_prop_object by exact Hcall.
  unfold recognized in Hrec. rewrite Hrec. reflexivity.
Qed.

Lemma dispatchCall_recognized (W : World) (resolved call : JSValue)
    (tr : Trace) :
  is_nullish call = false -> recognized call = true ->
  dispatchCall W resolved call tr =
  let args := parseArguments W resolved call in
  match get_prop args "query", get_prop args "count" with
  | Ok query, Ok count =>
      match search_params query count with
      | Ok searchParams =>
          (tr ++ [EFetch searchParams],
           match search_outcome W tr searchParams with
           | Ok images =>
               Ok (Some {| tool_call_id := prop call "call_id";
                           output := JSON_stringify W
                                       (JObj [("results", JArr images)]) |})
           | Throw e => Throw e
           end)
      | Throw e => (tr, Throw e)
      end
  | Throw e, _ => (tr, Throw e)
  | Ok _, Throw e => (tr, Throw e)
  end.
Proof.
  intros Hcall Hrec.
  rewrite dispatchCall_run, !get_prop_object by exact Hcall.
  unfold recognized in Hrec. rewrite Hrec. reflexivity.
Qed.

(** Calls that are not image searches leave the round as it is. *)
Lemma dispatchCalls_skip (W : World) (resolved : JSValue)
    (toolCalls : list JSValue) :
  Forall (fun call => is_nullish call = false) toolCalls ->
  forall toolOutputs tr,
    dispatchCalls W resolved toolCalls toolOutputs tr =
    dispatchCalls W resolved (List.filter recognized toolCalls) toolOutputs tr.
Proof.
  induction 1 as [|call rest Hcall _ IH]; intros toolOutputs tr;
    [reflexivity|].
  cbn [dispatchCalls List.filter]. destruct (recognized call) eqn:Hrec.
  - cbn [dispatchCalls]. rewrite !bindM_run.
    destruct (dispatchCall W resolved call tr) as [tr1 [produced|e]];
      [apply IH|reflexivity].
  - rewrite bindM_run, dispatchCall_unrecognized by assumption. apply IH.
Qed.

(** The results pushed by a round that reaches its end: one per
    recognized call, in order, each with the id of its call; one media
    search was made for each. *)
Lemma dispatchCalls_ids (W : World) (resolved : JSValue)
    (toolCalls : list JSValue) :
  Forall (fun call => is_nullish call = false) toolCalls ->
  forall toolOutputs tr tr' results,
    dispatchCalls W resolved toolCalls toolOutputs tr = (tr', Ok results) ->
    map tool_call_id results =
      map tool_call_id toolOutputs ++
      map (fun call => prop call "call_id")
        (List.filter recognized toolCalls) /\
    length tr' = length tr + length (List.filter recognized toolCalls).
Proof.
  induction 1 as [|call rest Hcall _ IH];
    intros toolOutputs tr tr' results Hrun.
  - inversion Hrun. cbn. rewrite app_nil_r. split; [reflexivity|lia].
  - cbn [dispatchCalls] in Hrun. rewrite bindM_run in Hrun.
    cbn [List.filter]. destruct (recognized call) eqn:Hrec.
    + rewrite dispatchCall_recognized in Hrun by assumption.
      cbv zeta in Hrun.
      destruct (get_prop (parseArguments W resolved call) "query")
        as [query|e]; [|discriminate].
      destruct (get_prop (parseArguments W resolved call) "count")
        as [count|e]; [|discriminate].
      destruct (search_params query count) as [searchParams|e];
        [|discriminate].
      destruct (search_outcome W tr searchParams) as [images|e];
        [|discriminate].
      apply IH in Hrun as [Hids Hlen]. split.
      * rewrite Hids, map_app, <- app_assoc. reflexivity.
      * rewrite Hlen, length_app. cbn [length]. lia.
    + rewrite dispatchCall_unrecognized in Hrun by assumption.
      apply IH in Hrun. exact Hrun.
Qed.

(** C2. For the invocations extracted from a response, the round behaves
    as if only the recognized ones (those named ["image_search"]) were
    there, so an unrecognized one produces nothing and blocks nothing.
    When the round reaches the resubmission, the tool outputs are exactly
    one per recognized invocation, in order, each carrying the id of its
    invocation, one media search was made for each, and these outputs are
    what the next model-service call submits. *)
Theorem one_result_per_recognized (W : World) (resolved : JSValue)
    (tools : list JSValue) (response : JSValue) (toolCalls : list JSValue)
    (tr : Trace) :
  collectToolCalls response = Ok toolCalls ->
  dispatchCalls W resolved toolCalls [] tr =
    dispatchCalls W resolved (List.filter recognized toolCalls) [] tr /\
  (forall tr' toolOutputs,
      dispatchCalls W resolved toolCalls [] tr = (tr', Ok toolOutputs) ->
      map tool_call_id toolOutputs =
        map (fun call => prop call "call_id")
          (List.filter recognized toolCalls) /\
      length toolOutputs = length (List.filter recognized toolCalls) /\
      length tr' = length tr + length (List.filter recognized toolCalls) /\
      (toolCalls <> [] ->
       round W resolved tools response toolCalls tr =
         (tr' ++ [EModel (CreateContinuation (prop response "id") tools
                            toolOutputs)],
          responses_create W tr'
            (CreateContinuation (prop response "id") tools toolOutputs)))).
Proof.
  intros Hcol.
  pose proof (collectToolCalls_objects response toolCalls Hcol) as Hobj.
  split; [apply dispatchCalls_skip; exact Hobj|].
  intros tr' outs Hrun.
  destruct (dispatchCalls_ids W resolved toolCalls Hobj [] tr tr' outs Hrun)
    as [Hids Hlen].
  cbn [map app] in Hids. split; [exact Hids|]. split.
  { rewrite <- (length_map tool_call_id), Hids, length_map. reflexivity. }
  split; [exact Hlen|].
  intros Hne. rewrite round_run, Hrun.
  rewrite get_prop_object
    by (eapply collectToolCalls_pending; eassumption).
  reflexivity.
Qed.

Lemma one_result_per_recognized_witness :
  collectToolCalls mixed_response = Ok mixed_calls /\
  exists tr' toolOutputs,
    dispatchCalls greedy_world (JStr "cells") mixed_calls [] []
      = (tr', Ok toolOutputs) /\
    map tool_call_id toolOutputs = [JStr "call_1"; JStr "call_2"] /\
    length toolOutputs = 2 /\
    length tr' = 2.
Proof.
  assert (Hcol : collectToolCalls mixed_response = Ok mixed_calls)
    by reflexivity.
  split; [exact Hcol|].
  destruct (one_result_per_recognized greedy_world (JStr "cells") []
              mixed_response mixed_calls [] Hcol) as [_ Hround].
  destruct (dispatchCalls greedy_world (JStr "cells") mixed_calls [] [])
    as [tr' [toolOutputs|e]] eqn:Hrun; [|vm_compute in Hrun; discriminate].
  destruct (Hround tr' toolOutputs eq_refl) as (Hids & Hlen & Htr & _).
  exists tr', toolOutputs. split; [reflexivity|].
  split; [exact Hids|]. split; [exact Hlen|exact Htr].
Defined.

(** ** Malformed argument payloads *)



(** ** Two scenarios *)

Lemma generation_loop_exit (W : World) (fuel : nat) (resolved : JSValue)
    (tools : list JSValue) (response : JSValue) (toolCalls : list JSValue)
    (c : nat) (tr : Trace) :
  negb (length toolCalls =? 0) && (c <? 3) = false ->
  generation_loop W fuel resolved tools response toolCalls c tr =
  (tr, Ok (Some (response, toolCalls, c))).
Proof.
  intros Hg. destruct fuel; cbn [generation_loop]; rewrite Hg; reflexivity.
Qed.

(** C8. If the first response holds exactly one image-search invocation
    whose arguments are [{query: "leaf cells", count: 2}] (given as an
    object, or as a text that parses to it), its search returns, and the
    second response holds no invocation, then the session makes exactly
    three external calls: the first model call, one media search with
    query "leaf cells" and limit "2", and the second model call carrying
    the one result; it completes with the second response.  If the first
    response holds no invocation the session completes with it after that
    single model call, with no search and nothing resubmitted. *)
Theorem leaf_cells_scenario (W : World) (req : AiRequest) (tr : Trace)
    (resolved response0 : JSValue) (user : string) :
  configured W = true ->
  is_nullish (req_body req) = false ->
  resolved_query req = Ok resolved ->
  session_prompt W req resolved = Ok user ->
  responses_create W tr (initial_request req user) = Ok response0 ->
  (forall fuel call images response1,
      1 <= fuel ->
      collectToolCalls response0 = Ok [call] ->
      recognized call = true ->
      (prop call "arguments" = leaf_cells_args \/
       exists text, prop call "arguments" = JStr text /\
                    JSON_parse W text = Ok leaf_cells_args) ->
      search_outcome W (tr ++ [EModel (initial_request req user)])
        (query_params "leaf cells" "2") = Ok images ->
      responses_create W
        (tr ++ [EModel (initial_request req user);
                EFetch (query_params "leaf cells" "2")])
        (CreateContinuation (prop response0 "id") (session_tools req)
           [ {| tool_call_id := prop call "call_id";
                output := JSON_stringify W
                            (JObj [("results", JArr images)]) |} ])
        = Ok response1 ->
      collectToolCalls response1 = Ok [] ->
      is_nullish response1 = false ->
      let evs :=
        [EModel (initial_request req user);
         EFetch (query_params "leaf cells" "2");
         EModel (CreateContinuation (prop response0 "id") (session_tools req)
                   [ {| tool_call_id := prop call "call_id";
                        output := JSON_stringify W
                                    (JObj [("results", JArr images)]) |} ])]
      in
      ai_lesson W fuel req tr = (tr ++ evs, Some (completed_reply response1))
      /\ model_calls evs = 2 /\ fetch_calls evs = 1 /\
      search_params (JStr "leaf cells") (JNum 2) =
        Ok (query_params "leaf cells" "2") /\
      In ("gsrsearch", "leaf cells")
        (query_params "leaf cells" "2") /\
      In ("gsrlimit", "2") (query_params "leaf cells" "2")) /\
  (forall fuel,
      collectToolCalls response0 = Ok [] ->
      is_nullish response0 = false ->
      ai_lesson W fuel req tr =
        (tr ++ [EModel (initial_request req user)],
         Some (completed_reply response0)) /\
      model_calls [EModel (initial_request req user)] = 1 /\
      fetch_calls [EModel (initial_request req user)] = 0).
Proof.
  intros Hconf Hbody Hres Huser Hresp0. split.
  - intros fuel call images response1 Hfuel Hcol0 Hrec Hargs Hsearch
      Hresp1 Hcol1 Hobj1.
    destruct fuel as [|fuel]; [lia|].
    assert (Hcall : is_nullish call = false).
    { apply collectToolCalls_objects in Hcol0. inversion Hcol0; assumption. }
    assert (Hobj0 : is_nullish response0 = false).
    { eapply collectToolCalls_pending; [exact Hcol0|discriminate]. }
    assert (Hparsed : parseArguments W resolved call = leaf_cells_args).
    { unfold parseArguments. rewrite get_prop_object by exact Hcall.
      destruct Hargs as [->|(text & -> & Hparse)].
      - reflexivity.
      - cbn [bindR]. rewrite Hparse. reflexivity. }
    assert (Hdispatch :
              dispatchCalls W resolved [call] []
                (tr ++ [EModel (initial_request req user)]) =
              ((tr ++ [EModel (initial_request req user)]) ++
               [EFetch (query_params "leaf cells" "2")],
               Ok [ {| tool_call_id := prop call "call_id";
                       output := JSON_stringify W
                                   (JObj [("results", JArr images)]) |} ])).
    { cbn [dispatchCalls]. rewrite bindM_run.
      rewrite dispatchCall_recognized by assumption. rewrite Hparsed.
      cbv zeta. cbn [get_prop leaf_cells_args is_nullish prop assoc
                       String.eqb Ascii.eqb Bool.eqb].
      change (search_params (JStr "leaf cells") (JNum 2))
        with (Ok (query_params "leaf cells" "2")).
      cbv beta iota. rewrite Hsearch. reflexivity. }
    cbv zeta. split; [|repeat split; cbn; auto 10].
    rewrite ai_lesson_run, Hconf.
    rewrite (generate_run W (S fuel) req tr resolved user Hbody Hres Huser).
    cbv zeta. rewrite Hresp0, Hcol0, generation_loop_step.
    cbn [length Nat.eqb negb Nat.ltb Nat.leb andb].
    rewrite round_run, Hdispatch, get_prop_object by exact Hobj0.
    replace ((tr ++ [EModel (initial_request req user)]) ++
             [EFetch (query_params "leaf cells" "2")])
      with (tr ++ [EModel (initial_request req user);
                   EFetch (query_params "leaf cells" "2")])
      by (rewrite <- app_assoc; reflexivity).
    rewrite Hresp1, Hcol1, generation_loop_exit by reflexivity.
    rewrite lesson_reply_object by exact Hobj1. cbn [fst snd].
    rewrite <- app_assoc. reflexivity.
  - intros fuel Hcol0 Hobj0. split; [|split; reflexivity].
    rewrite ai_lesson_run, Hconf.
    rewrite (generate_run W fuel req tr resolved user Hbody Hres Huser).
    cbv zeta. rewrite Hresp0, Hcol0, generation_loop_exit by reflexivity.
    rewrite lesson_reply_object by exact Hobj0. reflexivity.
Qed.

Lemma leaf_cells_scenario_witness :
  (exists evs,
      ai_lesson leaf_world 3 demo_request [] =
        (evs, Some {| status := 200;
                      body := JObj [("content", JStr "Lesson");
                                    ("citations", JArr [JStr "Lesson"])] |}) /\
      length evs = 3 /\ model_calls evs = 2 /\ fetch_calls evs = 1 /\
      In (EFetch (query_params "leaf cells" "2")) evs) /\
  (exists evs,
      ai_lesson plain_world 0 demo_request [] =
        (evs, Some {| status := 200;
                      body := JObj [("content", JStr "Lesson");
                                    ("citations", JArr [JStr "Lesson"])] |}) /\
      length evs = 1 /\ model_calls evs = 1).
Proof.
  split.
  - destruct (leaf_cells_scenario leaf_world demo_request []
                (JStr "Photosynthesis classroom illustration") leaf_response
                demo_prompt eq_refl eq_refl eq_refl eq_refl eq_refl)
      as [Hone _].
    assert (Hsearch :
              search_outcome leaf_world
                ([] ++ [EModel (initial_request demo_request demo_prompt)])
                (query_params "leaf cells" "2") =
              Ok [image_result (JStr "File:Leaf.jpg")
                    (JStr "https://upload.example/leaf.jpg")
                    "https://commons.wikimedia.org/wiki/File:Leaf.jpg"])
      by reflexivity.
    destruct (Hone 3 (image_call "call_1" (JStr leaf_cells_text)) _
                (response_with "resp_2" [text_item "Lesson"] "Lesson")
                (le_S _ _ (le_S _ _ (le_n 1))) eq_refl eq_refl
                (or_intror (ex_intro _ leaf_cells_text
                              (conj eq_refl eq_refl)))
                Hsearch eq_refl eq_refl eq_refl)
      as (Hrun & Hm & Hf & _).
    eexists. split; [exact Hrun|]. split; [reflexivity|].
    split; [exact Hm|]. split; [exact Hf|]. cbn. auto.
  - destruct (leaf_cells_scenario plain_world demo_request []
                (JStr "Photosynthesis classroom illustration") plain_response
                demo_prompt eq_refl eq_refl eq_refl eq_refl eq_refl)
      as [_ Hnone].
    destruct (Hnone 0 eq_refl eq_refl) as (Hrun & Hm & _).
    eexists. split; [exact Hrun|]. split; [reflexivity|exact Hm].
Defined.

(** * Further properties of the lesson store *)

Lemma post_lesson_new (uuid now : string) (req_body : JSValue)
    (lessons : gmap string Lesson) :
  is_nullish req_body = false ->
  post_lesson uuid now req_body lessons =
  (<[uuid := new_lesson uuid now req_body]> lessons,
   Ok {| status := 201; body := lesson_json (new_lesson uuid now req_body) |}).
Proof.
  intros H. unfold post_lesson. rewrite get_prop_object by exact H.
  reflexivity.
Qed.

Lemma put_lesson_merged (now id : string) (req_body : JSValue)
    (lessons : gmap string Lesson) (lesson : Lesson) :
  lessons !! id = Some lesson ->
  is_nullish req_body = false ->
  put_lesson now id req_body lessons =
  (<[lesson_id lesson := merged_lesson now lesson req_body]> lessons,
   Ok {| status := 200;
         body := lesson_json (merged_lesson now lesson req_body) |}).
Proof.
  intros Hid H. unfold put_lesson. rewrite Hid.
  rewrite get_prop_object by exact H. reflexivity.
Qed.

Lemma handler_throws_unreadable (uuid now id : string) (req_body : JSValue)
    (lessons : gmap string Lesson) :
  is_nullish req_body = true ->
  post_lesson uuid now req_body lessons =
    (lessons, Throw (cannot_read req_body "title")) /\
  (is_Some (lessons !! id) ->
   put_lesson now id req_body lessons =
     (lessons, Throw (cannot_read req_body "title"))).
Proof.
  intros H. unfold post_lesson, put_lesson, get_prop. rewrite H.
  split; [reflexivity|]. intros [lesson ->]. reflexivity.
Qed.

(** X1. POST with a readable body answers 201 with the new record and
    stores it under the generated id: the record has that id, the current
    time, and for each field the value of the body when it is truthy, the
    default otherwise (so an empty title becomes "Untitled lesson").
    Every other record is untouched, and the store grows by one when the
    id is fresh.  With a body that is [null] or [undefined] the handler
    throws and the store is as it was. *)
Theorem post_creates (uuid now : string) (req_body : JSValue)
    (lessons : gmap string Lesson) :
  (is_nullish req_body = false ->
   exists lesson,
     post_lesson uuid now req_body lessons =
       (<[uuid := lesson]> lessons,
        Ok {| status := 201; body := lesson_json lesson |}) /\
     (post_lesson uuid now req_body lessons).1 !! uuid = Some lesson /\
     lesson_id lesson = uuid /\
     lesson_updatedAt lesson = now /\
     (forall f,
         field_of f lesson =
         (if truthy (prop req_body (field_key f))
          then prop req_body (field_key f)
          else field_default f)) /\
     (forall k, k <> uuid ->
         (post_lesson uuid now req_body lessons).1 !! k = lessons !! k) /\
     (lessons !! uuid = None ->
      size (post_lesson uuid now req_body lessons).1 = S (size lessons))) /\
  (is_nullish req_body = true ->
   exists e, post_lesson uuid now req_body lessons = (lessons, Throw e)).
Proof.
  split.
  - intros H. exists (new_lesson uuid now req_body).
    rewrite post_lesson_new by exact H. cbn [fst].
    split; [reflexivity|]. split; [apply lookup_insert_eq|].
    split; [reflexivity|]. split; [reflexivity|]. split.
    { intros []; reflexivity. }
    split.
    + intros k Hk. apply lookup_insert_ne. congruence.
    + intros Hfresh. apply map_size_insert_None. exact Hfresh.
  - intros H. eexists.
    apply (handler_throws_unreadable uuid now uuid req_body lessons H).
Qed.

Lemma post_creates_witness :
  exists lesson,
    (post_lesson "id-3" "2024-03-01T00:00:00.000Z"
       (JObj [("title", JStr EmptyString); ("content", JStr "Plan")])
       demo_store).1 !! "id-3" = Some lesson /\
    lesson_title lesson = JStr "Untitled lesson" /\
    lesson_content lesson = JStr "Plan" /\
    lesson_resources lesson = JArr [] /\
    size (post_lesson "id-3" "2024-03-01T00:00:00.000Z"
            (JObj [("title", JStr EmptyString); ("content", JStr "Plan")])
            demo_store).1 = 3 /\
    exists e, post_lesson "id-3" "t" JNull demo_store = (demo_store, Throw e).
Proof.
  destruct (post_creates "id-3" "2024-03-01T00:00:00.000Z"
              (JObj [("title", JStr EmptyString); ("content", JStr "Plan")])
              demo_store) as [Hok _].
  destruct (Hok eq_refl)
    as (lesson & _ & Hlook & _ & _ & Hfields & _ & Hsize).
  destruct (post_creates "id-3" "t" JNull demo_store) as [_ Hbad].
  exists lesson. split; [exact Hlook|].
  split; [exact (Hfields FTitle)|]. split; [exact (Hfields FContent)|].
  split; [exact (Hfields FResources)|].
  split; [exact (Hsize eq_refl)|]. exact (Hbad eq_refl).
Defined.

(** X2. DELETE naming a stored id answers 204 and removes that record and
    no other: the id is absent afterwards, every other record is as
    before, the store shrinks by one, and a second DELETE of the same id
    answers 404 without touching the store. *)
Theorem delete_removes (id : string) (lessons : gmap string Lesson)
    (lesson : Lesson) :
  lessons !! id = Some lesson ->
  delete_lesson id lessons =
    (delete id lessons, Ok {| status := 204; body := JUndefined |}) /\
  (delete_lesson id lessons).1 !! id = None /\
  (forall k, k <> id -> (delete_lesson id lessons).1 !! k = lessons !! k) /\
  S (size (delete_lesson id lessons).1) = size lessons /\
  delete_lesson id (delete_lesson id lessons).1 =
    ((delete_lesson id lessons).1, Ok not_found).
Proof.
  intros Hid.
  assert (Hrun : delete_lesson id lessons =
                 (delete id lessons,
                  Ok {| status := 204; body := JUndefined |}))
    by (unfold delete_lesson; rewrite Hid; reflexivity).
  rewrite Hrun. cbn [fst].
  split; [reflexivity|]. split; [apply lookup_delete_eq|]. split.
  { intros k Hk. apply lookup_delete_ne. congruence. }
  split.
  { rewrite (map_size_delete_Some id lessons) by eauto.
    assert (0 < size lessons).
    { destruct (size lessons) eqn:Hs; [|lia].
      apply map_size_empty_inv in Hs. subst lessons.
      rewrite lookup_empty in Hid. discriminate. }
    lia. }
  unfold delete_lesson. rewrite lookup_delete_eq. reflexivity.
Qed.

Lemma delete_removes_witness :
  (delete_lesson "id-1" demo_store).2
    = Ok {| status := 204; body := JUndefined |} /\
  (delete_lesson "id-1" demo_store).1 !! "id-1" = None /\
  size (delete_lesson "id-1" demo_store).1 = 1 /\
  is_Some ((delete_lesson "id-1" demo_store).1 !! "id-2").
Proof.
  assert (Hid : is_Some (demo_store !! "id-1")) by (eexists; reflexivity).
  destruct Hid as [lesson Hid].
  destruct (delete_removes "id-1" demo_store lesson Hid)
    as (Hrun & Hgone & Hother & Hsize & _).
  split; [rewrite Hrun; reflexivity|]. split; [exact Hgone|]. split.
  { assert (size demo_store = 2) by reflexivity. lia. }
  rewrite Hother by discriminate. eexists. reflexivity.
Defined.

(** X3. Creating a lesson under a fresh id and then deleting that id gives
    back the store as it was before the POST; the DELETE answers 204. *)
Theorem post_then_delete (uuid now : string) (req_body : JSValue)
    (lessons : gmap string Lesson) :
  lessons !! uuid = None ->
  is_nullish req_body = false ->
  delete_lesson uuid (post_lesson uuid now req_body lessons).1 =
  (lessons, Ok {| status := 204; body := JUndefined |}).
Proof.
  intros Hfresh Hbody. rewrite post_lesson_new by exact Hbody. cbn [fst].
  unfold delete_lesson. rewrite lookup_insert_eq.
  rewrite delete_insert_id by exact Hfresh. reflexivity.
Qed.

Lemma post_then_delete_witness :
  delete_lesson "id-3"
    (post_lesson "id-3" "t" (JObj [("title", JStr "Roots")]) demo_store).1 =
  (demo_store, Ok {| status := 204; body := JUndefined |}).
Proof.
  exact (post_then_delete "id-3" "t" (JObj [("title", JStr "Roots")])
           demo_store eq_refl eq_refl).
Defined.

(** X4. Two PUTs in a row on a stored lesson (of a store the server can
    reach) leave, for each field, the value of the second body when it
    supplies one, else the value of the first body when that one does,
    else the stored value; [updatedAt] is the time of the second.  The
    PUTs add and remove no id. *)
Theorem put_twice (now1 now2 id : string) (body1 body2 : JSValue)
    (lessons : gmap string Lesson) (lesson : Lesson) :
  reachable lessons ->
  lessons !! id = Some lesson ->
  is_nullish body1 = false ->
  is_nullish body2 = false ->
  exists updated,
    (put_lesson now2 id body2 (put_lesson now1 id body1 lessons).1).1 !! id
      = Some updated /\
    lesson_id updated = id /\
    lesson_updatedAt updated = now2 /\
    (forall f,
        field_of f updated =
        (if is_nullish (prop body2 (field_key f))
         then (if is_nullish (prop body1 (field_key f))
               then field_of f lesson
               else prop body1 (field_key f))
         else prop body2 (field_key f))) /\
    (forall k,
        is_Some ((put_lesson now2 id body2
                    (put_lesson now1 id body1 lessons).1).1 !! k) <->
        is_Some (lessons !! k)).
Proof.
  intros Hreach Hid Hb1 Hb2.
  pose proof (reachable_keyed lessons Hreach id lesson Hid) as Hkey.
  rewrite (put_lesson_merged now1 id body1 lessons lesson Hid Hb1).
  cbn [fst]. rewrite Hkey.
  rewrite (put_lesson_merged now2 id body2 _
             (merged_lesson now1 lesson body1))
    by (try apply lookup_insert_eq; assumption).
  cbn [fst merged_lesson lesson_id]. rewrite Hkey.
  exists (merged_lesson now2 (merged_lesson now1 lesson body1) body2).
  split; [apply lookup_insert_eq|]. split; [exact Hkey|].
  split; [reflexivity|]. split.
  - intros []; cbn [field_of merged_lesson lesson_title lesson_gradeLevel
                      lesson_duration lesson_objectives lesson_content
                      lesson_resources field_key];
      unfold js_nullish_or; reflexivity.
  - intros k. rewrite !lookup_insert_is_Some.
    split.
    + intros [->|[_ [->|[_ H]]]]; eauto.
    + intros H. destruct (decide (id = k)); auto.
Qed.

Lemma put_twice_witness :
  exists updated,
    (put_lesson "t2" "id-2" (JObj [("content", JStr "Plan B")])
       (put_lesson "t1" "id-2"
          (JObj [("content", JStr "Plan A"); ("title", JStr "Stems")])
          demo_store).1).1 !! "id-2" = Some updated /\
    lesson_title updated = JStr "Stems" /\
    lesson_content updated = JStr "Plan B" /\
    lesson_duration updated = JStr "45 min" /\
    lesson_updatedAt updated = "t2".
Proof.
  assert (Hr : reachable demo_store)
    by (unfold demo_store; repeat constructor).
  assert (Hid : is_Some (demo_store !! "id-2")) by (eexists; reflexivity).
  destruct Hid as [lesson Hid].
  assert (Hd : lesson_duration lesson = JStr "45 min").
  { vm_compute in Hid. injection Hid as <-. reflexivity. }
  destruct (put_twice "t1" "t2" "id-2"
              (JObj [("content", JStr "Plan A"); ("title", JStr "Stems")])
              (JObj [("content", JStr "Plan B")])
              demo_store lesson Hr Hid eq_refl eq_refl)
    as (updated & Hlook & _ & Hnow & Hfields & _).
  exists updated. split; [exact Hlook|].
  split; [exact (Hfields FTitle)|]. split; [exact (Hfields FContent)|].
  split; [rewrite <- Hd; exact (Hfields FDuration)|exact Hnow].
Defined.

(** ** The store as a list of entries *)

Lemma map_get_lookup (k : string) (entries : list (string * Lesson)) :
  (list_to_map entries : gmap string Lesson) !! k = map_get k entries.
Proof.
  induction entries as [|[k' v] rest IH]; [apply lookup_empty|].
  cbn [list_to_map foldr map_get uncurry Datatypes.uncurry].
  destruct (String.eqb_spec k' k) as [->|Hne].
  - apply lookup_insert_eq.
  - rewrite lookup_insert_ne by exact Hne. exact IH.
Qed.

Lemma map_set_insert (k : string) (v : Lesson)
    (entries : list (string * Lesson)) :
  (list_to_map (map_set k v entries) : gmap string Lesson) =
  <[k := v]> (list_to_map entries).
Proof.
  induction entries as [|[k' v'] rest IH]; [reflexivity|].
  cbn [map_set]. destruct (String.eqb_spec k' k) as [->|Hne].
  - rewrite !list_to_map_cons, insert_insert_eq. reflexivity.
  - rewrite !list_to_map_cons, IH. apply insert_insert_ne. exact Hne.
Qed.

Lemma map_get_keys (k : string) (entries : list (string * Lesson)) :
  map_get k entries = None <-> ~ In k (map fst entries).
Proof.
  induction entries as [|[k' v] rest IH]; cbn [map_get map fst In].
  - tauto.
  - destruct (String.eqb_spec k' k) as [->|Hne].
    + split; [discriminate|]. intros H. destruct H. auto.
    + rewrite IH. tauto.
Qed.

Lemma map_delete_delete (k : string) (entries : list (string * Lesson)) :
  NoDup (map fst entries) ->
  (list_to_map (map_delete k entries) : gmap string Lesson) =
  delete k (list_to_map entries).
Proof.
  induction entries as [|[k' v'] rest IH]; intros Hnd.
  - cbn. symmetry. apply delete_id. apply lookup_empty.
  - cbn [map fst] in Hnd. apply NoDup_cons in Hnd as [Hk' Hnd].
    cbn [map_delete]. destruct (String.eqb_spec k' k) as [->|Hne].
    + rewrite list_to_map_cons, delete_insert_eq. symmetry.
      apply delete_id. rewrite map_get_lookup. apply map_get_keys.
      rewrite <- list_elem_of_In. exact Hk'.
    + rewrite !list_to_map_cons, IH by exact Hnd.
      symmetry. apply delete_insert_ne. congruence.
Qed.

Lemma map_set_keys (k : string) (v : Lesson)
    (entries : list (string * Lesson)) :
  map fst (map_set k v entries) =
  match map_get k entries with
  | Some _ => map fst entries
  | None => map fst entries ++ [k]
  end.
Proof.
  induction entries as [|[k' v'] rest IH]; [reflexivity|].
  cbn [map_set map_get]. destruct (String.eqb_spec k' k) as [->|Hne].
  - reflexivity.
  - cbn [map fst]. rewrite IH. destruct (map_get k rest); reflexivity.
Qed.

Lemma map_set_fresh (k : string) (v : Lesson)
    (entries : list (string * Lesson)) :
  map_get k entries = None -> map_set k v entries = entries ++ [(k, v)].
Proof.
  induction entries as [|[k' v'] rest IH]; [reflexivity|].
  cbn [map_set map_get]. destruct (String.eqb k' k); [discriminate|].
  intros H. rewrite IH by exact H. reflexivity.
Qed.

Lemma map_delete_filter (k : string) (entries : list (string * Lesson)) :
  NoDup (map fst entries) ->
  map_delete k entries =
  List.filter (fun entry => negb (String.eqb entry.1 k)) entries.
Proof.
  induction entries as [|[k' v'] rest IH]; intros Hnd; [reflexivity|].
  cbn [map fst] in Hnd. apply NoDup_cons in Hnd as [Hk' Hnd].
  cbn [map_delete List.filter fst].
  destruct (String.eqb_spec k' k) as [->|Hne]; cbn [negb].
  - symmetry. apply forallb_filter_id. apply forallb_forall.
    intros [k0 v0] Hin. cbn [fst].
    destruct (String.eqb_spec k0 k) as [->|]; [|reflexivity].
    exfalso. apply Hk'. apply list_elem_of_In.
    apply (in_map fst) in Hin. exact Hin.
  - rewrite IH by exact Hnd. reflexivity.
Qed.

Lemma map_delete_keys_sub (k : string) (entries : list (string * Lesson)) :
  forall k0, In k0 (map fst (map_delete k entries)) ->
             In k0 (map fst entries).
Proof.
  induction entries as [|[k' v'] rest IH]; intros k0; [auto|].
  cbn [map_delete]. destruct (String.eqb k' k); cbn [map fst In].
  - auto.
  - intros [->|H]; auto.
Qed.

Lemma map_delete_NoDup (k : string) (entries : list (string * Lesson)) :
  NoDup (map fst entries) -> NoDup (map fst (map_delete k entries)).
Proof.
  induction entries as [|[k' v'] rest IH]; intros Hnd; [exact Hnd|].
  cbn [map fst] in Hnd. apply NoDup_cons in Hnd as [Hk' Hnd].
  cbn [map_delete]. destruct (String.eqb k' k); [exact Hnd|].
  cbn [map fst]. apply NoDup_cons. split; [|auto].
  intros Hin. apply Hk'. apply list_elem_of_In.
  apply (map_delete_keys_sub k rest). apply list_elem_of_In. exact Hin.
Qed.

Lemma map_set_NoDup (k : string) (v : Lesson)
    (entries : list (string * Lesson)) :
  NoDup (map fst entries) -> NoDup (map fst (map_set k v entries)).
Proof.
  intros Hnd. rewrite map_set_keys.
  destruct (map_get k entries) eqn:Hget; [exact Hnd|].
  apply NoDup_app. split; [exact Hnd|]. split.
  - intros x Hx Hx'. apply list_elem_of_In in Hx.
    apply list_elem_of_singleton in Hx'. subst x.
    apply map_get_keys in Hget. auto.
  - apply NoDup_singleton.
Qed.

Lemma map_get_set (k k0 : string) (v : Lesson)
    (entries : list (string * Lesson)) :
  map_get k0 (map_set k v entries) =
  if String.eqb k k0 then Some v else map_get k0 entries.
Proof.
  rewrite <- !map_get_lookup, map_set_insert.
  destruct (String.eqb_spec k k0) as [->|Hne].
  - apply lookup_insert_eq.
  - apply lookup_insert_ne. exact Hne.
Qed.

Lemma map_get_In (k : string) (v : Lesson)
    (entries : list (string * Lesson)) :
  map_get k entries = Some v -> In (k, v) entries.
Proof.
  induction entries as [|[k' v'] rest IH]; [discriminate|].
  cbn [map_get In]. destruct (String.eqb_spec k' k) as [->|Hne].
  - intros H. inversion H. auto.
  - auto.
Qed.

(** The entries the server can hold have pairwise distinct keys and
    every record sits under its own id. *)
Lemma listed_keyed (entries : list (string * Lesson)) :
  listed entries ->
  NoDup (map fst entries) /\
  Forall (fun entry => lesson_id entry.2 = entry.1) entries.
Proof.
  assert (Hset : forall k v es,
             lesson_id v = k ->
             Forall (fun entry : string * Lesson =>
                       lesson_id entry.2 = entry.1) es ->
             Forall (fun entry : string * Lesson =>
                       lesson_id entry.2 = entry.1) (map_set k v es)).
  { intros k v es Hv. induction 1 as [|[k' v'] rest Hx Hrest IH].
    - repeat constructor. exact Hv.
    - cbn [map_set]. destruct (String.eqb_spec k' k) as [->|Hne];
        constructor; cbn [fst snd] in *; auto. }
  assert (Hdel : forall k es,
             Forall (fun entry : string * Lesson =>
                       lesson_id entry.2 = entry.1) es ->
             Forall (fun entry : string * Lesson =>
                       lesson_id entry.2 = entry.1) (map_delete k es)).
  { intros k es. induction 1 as [|[k' v'] rest Hx Hrest IH];
      [constructor|].
    cbn [map_delete]. destruct (String.eqb k' k); [exact Hrest|].
    constructor; auto. }
  induction 1 as [|uuid now body entries _ [IHn IHk]
                  |now id body entries _ [IHn IHk]
                  |id entries _ [IHn IHk]].
  - split; constructor.
  - unfold post_entry. destruct (get_prop body "title"); cbn [fst]; auto.
    split; [apply map_set_NoDup; exact IHn|apply Hset; auto].
  - unfold put_entry. destruct (map_get id entries) as [lesson|];
      cbn [fst]; auto.
    destruct (get_prop body "title"); cbn [fst]; auto.
    split; [apply map_set_NoDup; exact IHn|apply Hset; auto].
  - unfold delete_entry. destruct (map_get id entries); cbn [fst]; auto.
    split; [apply map_delete_NoDup; exact IHn|apply Hdel; exact IHk].
Qed.

(** X5. The listing of GET /api/lessons, on any entries the server can
    hold, answers 200 with one item per stored record and no two items
    have the same id. *)
Theorem listing_ids_distinct (entries : list (string * Lesson)) :
  listed entries ->
  exists items,
    list_lessons entries = {| status := 200; body := JArr items |} /\
    length items = length entries /\
    map (fun item => prop item "id") items =
      map (fun entry => JStr entry.1) entries /\
    NoDup (map (fun item => prop item "id") items).
Proof.
  intros Hl. destruct (listed_keyed entries Hl) as [Hnd Hkey].
  exists (map lesson_json (map_values entries)).
  split; [reflexivity|]. unfold map_values.
  split; [rewrite !length_map; reflexivity|].
  assert (Hids : map (fun item => prop item "id")
                   (map lesson_json (map snd entries)) =
                 map (fun entry : string * Lesson => JStr entry.1) entries).
  { rewrite !map_map. apply map_ext_in. intros [k v] Hin.
    rewrite Forall_forall in Hkey.
    specialize (Hkey (k, v) (proj2 (list_elem_of_In _ _) Hin)).
    cbn [fst snd] in *. cbn. rewrite Hkey. reflexivity. }
  split; [exact Hids|]. rewrite Hids.
  replace (map (fun entry : string * Lesson => JStr entry.1) entries)
    with (map JStr (map fst entries)) by (rewrite map_map; reflexivity).
  apply NoDup_fmap_2; [|exact Hnd]. intros a b H. inversion H. reflexivity.
Qed.

Lemma listing_ids_distinct_witness :
  listed demo_entries /\
  exists items,
    list_lessons demo_entries = {| status := 200; body := JArr items |} /\
    map (fun item => prop item "id") items = [JStr "id-1"; JStr "id-2"].
Proof.
  assert (Hl : listed demo_entries)
    by (unfold demo_entries; repeat constructor).
  split; [exact Hl|].
  destruct (listing_ids_distinct demo_entries Hl)
    as (items & Hrun & _ & Hids & _).
  exists items. split; [exact Hrun|exact Hids].
Defined.

Lemma map_set_elsewhere (k : string) (v : Lesson)
    (entries : list (string * Lesson)) :
  forall i k0 l,
    entries !! i = Some (k0, l) -> k0 <> k ->
    map_set k v entries !! i = Some (k0, l).
Proof.
  induction entries as [|[k' v'] rest IH]; intros i k0 l Hi Hne;
    [discriminate|].
  cbn [map_set]. destruct (String.eqb_spec k' k) as [->|Hk'].
  - destruct i as [|i]; [|exact Hi]. inversion Hi. congruence.
  - destruct i as [|i]; [exact Hi|]. apply IH; assumption.
Qed.

Lemma map_delete_absent (k : string) (entries : list (string * Lesson)) :
  map_get k entries = None -> map_delete k entries = entries.
Proof.
  induction entries as [|[k' v'] rest IH]; [reflexivity|].
  cbn [map_get map_delete]. destruct (String.eqb k' k); [discriminate|].
  intros H. rewrite IH by exact H. reflexivity.
Qed.

Lemma post_entry_commutes (uuid now : string) (req_body : JSValue)
    (entries : list (string * Lesson)) :
  post_lesson uuid now req_body (list_to_map entries) =
  (list_to_map (post_entry uuid now req_body entries).1,
   (post_entry uuid now req_body entries).2).
Proof.
  unfold post_lesson, post_entry.
  destruct (get_prop req_body "title"); [|reflexivity].
  cbn [fst snd]. rewrite map_set_insert. reflexivity.
Qed.

Lemma put_entry_commutes (now id : string) (req_body : JSValue)
    (entries : list (string * Lesson)) :
  put_lesson now id req_body (list_to_map entries) =
  (list_to_map (put_entry now id req_body entries).1,
   (put_entry now id req_body entries).2).
Proof.
  unfold put_lesson, put_entry. rewrite map_get_lookup.
  destruct (map_get id entries) as [lesson|]; [|reflexivity].
  destruct (get_prop req_body "title"); [|reflexivity].
  cbn [fst snd]. rewrite map_set_insert. reflexivity.
Qed.

Lemma delete_entry_commutes (id : string) (entries : list (string * Lesson)) :
  NoDup (map fst entries) ->
  delete_lesson id (list_to_map entries) =
  (list_to_map (delete_entry id entries).1, (delete_entry id entries).2).
Proof.
  intros Hnd. unfold delete_lesson, delete_entry. rewrite map_get_lookup.
  destruct (map_get id entries) as [lesson|]; [|reflexivity].
  cbn [fst snd]. rewrite map_delete_delete by exact Hnd. reflexivity.
Qed.

(** X6. The finite map of the entries is a faithful view of the [Map]:
    for any entries the server can hold, looking an id up gives the same
    record in both, each of POST, PUT and DELETE gives the same reply on
    both and takes the view of the entries to the view of the new entries,
    and the view is a store the server can reach. *)
Theorem store_view (entries : list (string * Lesson)) :
  listed entries ->
  reachable (list_to_map entries) /\
  (forall k,
      (list_to_map entries : gmap string Lesson) !! k = map_get k entries) /\
  (forall uuid now req_body,
      post_lesson uuid now req_body (list_to_map entries) =
      (list_to_map (post_entry uuid now req_body entries).1,
       (post_entry uuid now req_body entries).2)) /\
  (forall now id req_body,
      put_lesson now id req_body (list_to_map entries) =
      (list_to_map (put_entry now id req_body entries).1,
       (put_entry now id req_body entries).2)) /\
  (forall id,
      delete_lesson id (list_to_map entries) =
      (list_to_map (delete_entry id entries).1,
       (delete_entry id entries).2)).
Proof.
  intros Hl. split.
  - induction Hl as [|uuid now body entries Hl IH|now id body entries Hl IH
                     |id entries Hl IH].
    + constructor.
    + replace (list_to_map (post_entry uuid now body entries).1)
        with (post_lesson uuid now body (list_to_map entries)).1
        by (rewrite post_entry_commutes; reflexivity).
      constructor. exact IH.
    + replace (list_to_map (put_entry now id body entries).1)
        with (put_lesson now id body (list_to_map entries)).1
        by (rewrite put_entry_commutes; reflexivity).
      constructor. exact IH.
    + replace (list_to_map (delete_entry id entries).1)
        with (delete_lesson id (list_to_map entries)).1
        by (rewrite delete_entry_commutes;
            [reflexivity|apply listed_keyed; exact Hl]).
      constructor. exact IH.
  - split; [intros k; apply map_get_lookup|].
    split; [intros; apply post_entry_commutes|].
    split; [intros; apply put_entry_commutes|].
    intros id. apply delete_entry_commutes. apply listed_keyed. exact Hl.
Qed.

Lemma store_view_witness :
  listed demo_entries /\
  (list_to_map demo_entries : gmap string Lesson) = demo_store /\
  delete_lesson "id-1" demo_store =
  (list_to_map (delete_entry "id-1" demo_entries).1,
   Ok {| status := 204; body := JUndefined |}).
Proof.
  assert (Hl : listed demo_entries)
    by (unfold demo_entries; repeat constructor).
  destruct (store_view demo_entries Hl) as (_ & _ & _ & _ & Hdel).
  assert (Hview : (list_to_map demo_entries : gmap string Lesson)
                  = demo_store).
  { vm_compute. reflexivity. }
  split; [exact Hl|]. split; [exact Hview|].
  rewrite <- Hview. rewrite (Hdel "id-1"). reflexivity.
Defined.

(** X7. The listing keeps the order of creation: on entries the server can
    hold, a POST under a fresh id appends the new record after the
    existing ones, a PUT leaves the ids in their order and every other
    record in its place, and a DELETE removes the entries of that id and
    keeps the others in their order. *)
Theorem listing_order (entries : list (string * Lesson)) :
  listed entries ->
  (forall uuid now req_body,
      map_get uuid entries = None ->
      is_nullish req_body = false ->
      map_values (post_entry uuid now req_body entries).1 =
      map_values entries ++ [new_lesson uuid now req_body]) /\
  (forall now id req_body,
      map fst (put_entry now id req_body entries).1 = map fst entries /\
      forall i k l,
        entries !! i = Some (k, l) -> k <> id ->
        (put_entry now id req_body entries).1 !! i = Some (k, l)) /\
  (forall id,
      (delete_entry id entries).1 =
      List.filter (fun entry => negb (String.eqb entry.1 id)) entries).
Proof.
  intros Hl. destruct (listed_keyed entries Hl) as [Hnd Hkey].
  split; [|split].
  - intros uuid now body Hfresh Hbody. unfold post_entry.
    rewrite get_prop_object by exact Hbody. cbn [fst new_lesson lesson_id].
    rewrite map_set_fresh by exact Hfresh. unfold map_values.
    rewrite map_app. reflexivity.
  - intros now id body. unfold put_entry.
    destruct (map_get id entries) as [lesson|] eqn:Hget; [|auto].
    destruct (get_prop body "title"); [|auto].
    cbn [fst merged_lesson lesson_id].
    assert (Hid : lesson_id lesson = id).
    { apply map_get_In in Hget. rewrite Forall_forall in Hkey.
      apply (Hkey (id, lesson)). apply list_elem_of_In. exact Hget. }
    rewrite Hid. split.
    + rewrite map_set_keys, Hget. reflexivity.
    + intros i k l Hi Hk. apply map_set_elsewhere; assumption.
  - intros id. unfold delete_entry.
    destruct (map_get id entries) eqn:Hget; cbn [fst].
    + apply map_delete_filter. exact Hnd.
    + rewrite <- (map_delete_absent id entries Hget) at 1.
      apply map_delete_filter. exact Hnd.
Qed.

Lemma listing_order_witness :
  listed demo_entries /\
  map lesson_id
    (map_values (post_entry "id-3" "t" (JObj [("title", JStr "Roots")])
                   demo_entries).1) = ["id-1"; "id-2"; "id-3"] /\
  map fst (put_entry "t" "id-1" (JObj [("title", JStr "Cells 2")])
             demo_entries).1 = ["id-1"; "id-2"] /\
  map fst (delete_entry "id-1" demo_entries).1 = ["id-2"].
Proof.
  assert (Hl : listed demo_entries)
    by (unfold demo_entries; repeat constructor).
  destruct (listing_order demo_entries Hl) as (Hpost & Hput & Hdel).
  split; [exact Hl|]. split.
  { rewrite (Hpost "id-3" "t" (JObj [("title", JStr "Roots")])
               eq_refl eq_refl). reflexivity. }
  split.
  { rewrite (proj1 (Hput "t" "id-1" (JObj [("title", JStr "Cells 2")]))).
    reflexivity. }
  rewrite (Hdel "id-1"). reflexivity.
Defined.

(** * Further properties of the generation handler *)

Lemma trim_start_head (s : string) : starts_with_space (trim_start s) = false.
Proof.
  induction s as [|c s IH]; [reflexivity|]. cbn [trim_start].
  destruct (is_js_space c) eqn:Hc; [exact IH|exact Hc].
Qed.

Lemma trim_end_last (s : string) : ends_with_space (trim_end s) = false.
Proof.
  induction s as [|c s IH]; [reflexivity|]. cbn [trim_end].
  destruct (trim_end s) as [|d kept].
  - destruct (is_js_space c) eqn:Hc; [reflexivity|exact Hc].
  - exact IH.
Qed.

Lemma trim_end_head (s : string) :
  starts_with_space s = false -> starts_with_space (trim_end s) = false.
Proof.
  destruct s as [|c s]; [reflexivity|]. cbn [starts_with_space trim_end].
  intros Hc. destruct (trim_end s); [rewrite Hc|]; exact Hc.
Qed.

Lemma append_nonempty (s t : string) : t <> EmptyString -> s +:+ t <> EmptyString.
Proof. destruct s; [auto|discriminate]. Qed.

(** A resolved image query is a string. *)
Lemma resolveImageQuery_text (imageSearchQuery topic v : JSValue) :
  resolveImageQuery imageSearchQuery topic = Ok v -> exists s, v = JStr s.
Proof.
  unfold resolveImageQuery, default_image_query.
  destruct (opt_trim imageSearchQuery) as [trimmed|] eqn:Htrim;
    [|discriminate].
  cbn [bindR]. destruct (truthy trimmed) eqn:Ht.
  - intros H. inversion H. subst v.
    destruct imageSearchQuery; try discriminate; cbn [opt_trim] in Htrim;
      inversion Htrim; subst trimmed; try discriminate. eauto.
  - destruct (to_string (js_or topic (JStr "lesson"))); [|discriminate].
    cbn [bindR]. intros H. inversion H. eauto.
Qed.

Lemma printable_or (v : JSValue) (s : string) :
  printable (js_or v (JStr s)) = printable v.
Proof.
  unfold js_or. destruct (truthy v) eqn:Hv; [reflexivity|].
  destruct v as [| |[]| | | | |]; try discriminate; reflexivity.
Qed.

Lemma printable_text (v : JSValue) :
  printable v = true <-> exists s, to_string v = Ok s.
Proof.
  unfold printable. destruct (to_string v); split; eauto; try discriminate.
  intros [s H]. discriminate.
Qed.

Lemma resolved_query_printable (req : AiRequest) (resolved : JSValue) :
  resolved_query req = Ok resolved -> printable resolved = true.
Proof.
  intros H. apply resolveImageQuery_text in H as [s ->]. reflexivity.
Qed.

(** The image query of a request resolves unless it is unusable or the
    topic the template needs cannot be converted. *)
Lemma resolved_query_throws (req : AiRequest) (e : JSError) :
  resolved_query req = Throw e ->
  bad_image_query req \/ printable (prop (req_body req) "topic") = false.
Proof.
  unfold resolved_query, resolveImageQuery, bad_image_query.
  assert (Htemplate :
            default_image_query (prop (req_body req) "topic") = Throw e ->
            printable (prop (req_body req) "topic") = false).
  { unfold default_image_query.
    rewrite <- (printable_or (prop (req_body req) "topic") "lesson").
    unfold printable.
    destruct (to_string (js_or (prop (req_body req) "topic") (JStr "lesson")));
      [discriminate|reflexivity]. }
  destruct (prop (req_body req) "imageSearchQuery") as [| | | |s| | |];
    cbn [opt_trim bindR is_nullish truthy]; auto;
    try (intros _; left; split; [reflexivity|discriminate]).
  destruct (negb (String.eqb (trim s) EmptyString)); [discriminate|auto].
Qed.

Lemma bad_image_query_throws (req : AiRequest) :
  bad_image_query req -> exists e, resolved_query req = Throw e.
Proof.
  unfold resolved_query, resolveImageQuery, bad_image_query.
  destruct (prop (req_body req) "imageSearchQuery") as [| | | |s| | |];
    cbn [opt_trim bindR is_nullish]; intros [Hn Hs];
    try discriminate; try (eexists; reflexivity).
  destruct (Hs s eq_refl).
Qed.

(** The user instruction is built exactly when every value it prints can
    be converted. *)
Lemma userPrompt_result (topic gradeLevel duration objectives : JSValue)
    (context : string) (resolved youtubeUrl : JSValue) :
  (exists user,
      userPrompt topic gradeLevel duration objectives context resolved
        youtubeUrl = Ok user) <->
  printable topic && printable gradeLevel && printable duration &&
  printable objectives && printable resolved && printable youtubeUrl = true.
Proof.
  rewrite <- (printable_or topic EmptyString),
    <- (printable_or gradeLevel EmptyString),
    <- (printable_or duration EmptyString),
    <- (printable_or objectives EmptyString),
    <- (printable_or youtubeUrl EmptyString).
  unfold userPrompt, printable.
  destruct (to_string (js_or topic (JStr EmptyString)));
    cbn [bindR andb]; [|split; [intros [u H]|]; discriminate].
  destruct (to_string (js_or gradeLevel (JStr EmptyString)));
    cbn [bindR andb]; [|split; [intros [u H]|]; discriminate].
  destruct (to_string (js_or duration (JStr EmptyString)));
    cbn [bindR andb]; [|split; [intros [u H]|]; discriminate].
  destruct (to_string (js_or objectives (JStr EmptyString)));
    cbn [bindR andb]; [|split; [intros [u H]|]; discriminate].
  destruct (to_string resolved);
    cbn [bindR andb]; [|split; [intros [u H]|]; discriminate].
  destruct (to_string (js_or youtubeUrl (JStr EmptyString)));
    cbn [bindR andb]; [|split; [intros [u H]|]; discriminate].
  split; eauto.
Qed.

Lemma session_prompt_result (W : World) (req : AiRequest)
    (resolved : JSValue) :
  printable resolved = true ->
  (exists user, session_prompt W req resolved = Ok user) <->
  unprintable_field req = false.
Proof.
  intros Hr. unfold session_prompt. rewrite userPrompt_result, Hr.
  unfold unprintable_field, printed_fields. cbn [existsb].
  destruct (printable (prop (req_body req) "topic"));
    destruct (printable (prop (req_body req) "gradeLevel"));
    destruct (printable (prop (req_body req) "duration"));
    destruct (printable (prop (req_body req) "objectives"));
    destruct (printable (prop (req_body req) "youtubeUrl"));
    cbn; split; congruence.
Qed.

(** X8. The model service is contacted exactly for the requests the
    handler can read.  When the API key is missing or empty, when the
    request has no body, when its image query is neither absent nor a
    string, or when one of the fields the prompts print (topic, grade
    level, duration, objectives, video link) cannot be converted to a
    string, the handler answers 500 without any external call; in every
    other case the first external call of the session is the initial
    model request, carrying the user instruction of the request. *)
Theorem request_validation (W : World) (fuel : nat) (req : AiRequest)
    (tr : Trace) :
  (configured W = false \/ is_nullish (req_body req) = true \/
   bad_image_query req \/ unprintable_field req = true ->
   (ai_lesson W fuel req tr).1 = tr /\
   exists message,
     (ai_lesson W fuel req tr).2 = Some (error_reply message)) /\
  (~ (configured W = false \/ is_nullish (req_body req) = true \/
      bad_image_query req \/ unprintable_field req = true) ->
   exists resolved user rest,
     resolved_query req = Ok resolved /\
     session_prompt W req resolved = Ok user /\
     (ai_lesson W fuel req tr).1 =
       tr ++ EModel (initial_request req user) :: rest).
Proof.
  assert (Hfail : forall e,
             generate W fuel req tr = (tr, Throw e) ->
             (if configured W
              then ((generate W fuel req tr).1,
                    match (generate W fuel req tr).2 with
                    | Ok reply => reply
                    | Throw error => Some (error_reply (error_message error))
                    end)
              else (tr, Some (error_reply "OPENAI_API_KEY is not configured."))).1
             = tr /\
             exists message,
               (if configured W
                then ((generate W fuel req tr).1,
                      match (generate W fuel req tr).2 with
                      | Ok reply => reply
                      | Throw error =>
                          Some (error_reply (error_message error))
                      end)
                else (tr, Some (error_reply
                                  "OPENAI_API_KEY is not configured."))).2
               = Some (error_reply message)).
  { intros e ->. destruct (configured W); cbn [fst snd]; eauto. }
  rewrite ai_lesson_run. split.
  - intros [Hc|[Hb|Hq]].
    + rewrite Hc. cbn [fst snd]. eauto.
    + destruct (generate_unreadable W fuel req tr Hb) as [e He].
      exact (Hfail e He).
    + destruct (is_nullish (req_body req)) eqn:Hb.
      { destruct (generate_unreadable W fuel req tr Hb) as [e He].
        exact (Hfail e He). }
      destruct (resolved_query req) as [resolved|e] eqn:Hres.
      2:{ exact (Hfail e (generate_unresolved W fuel req tr e Hb Hres)). }
      destruct Hq as [Hq|Hq].
      { apply bad_image_query_throws in Hq as [e Hq]. congruence. }
      destruct (session_prompt W req resolved) as [user|e] eqn:Huser.
      2:{ exact (Hfail e (generate_unprintable W fuel req tr resolved e Hb
                            Hres Huser)). }
      assert (Hnone : unprintable_field req = false).
      { apply (session_prompt_result W req resolved
                 (resolved_query_printable req resolved Hres)).
        eauto. }
      congruence.
  - intros Hvalid.
    destruct (configured W) eqn:Hc; [|exfalso; auto].
    destruct (is_nullish (req_body req)) eqn:Hb; [exfalso; auto|].
    assert (Hfields : unprintable_field req = false).
    { destruct (unprintable_field req); [exfalso; auto 6|reflexivity]. }
    destruct (resolved_query req) as [resolved|e] eqn:Hq.
    2:{ exfalso. apply resolved_query_throws in Hq as [Hq|Hq]; [auto 6|].
        unfold unprintable_field, printed_fields in Hfields.
        cbn [existsb] in Hfields. rewrite Hq in Hfields. discriminate. }
    destruct (proj2 (session_prompt_result W req resolved
                       (resolved_query_printable req resolved Hq))
                Hfields) as [user Huser].
    exists resolved, user. cbn [fst].
    rewrite (generate_run W fuel req tr resolved user Hb Hq Huser). cbv zeta.
    destruct (responses_create W tr (initial_request req user))
      as [response|e]; [|exists []; auto].
    destruct (collectToolCalls response) as [toolCalls|e];
      [|exists []; auto].
    destruct (generation_loop_events W resolved (session_tools req) fuel
                response toolCalls 0
                (tr ++ [EModel (initial_request req user)]))
      as (evsL & HtrL & _).
    destruct (generation_loop W fuel resolved (session_tools req) response
                toolCalls 0
                (tr ++ [EModel (initial_request req user)]))
      as [tr2 [[[[r p] c]|]|e]]; cbn [fst snd] in *; subst tr2;
      exists evsL; (split; [reflexivity|]); (split; [exact Huser|]);
      rewrite <- app_assoc; reflexivity.
Qed.

Lemma request_validation_witness :
  ai_lesson keyless_world 3 demo_request [] =
    ([], Some (error_reply "OPENAI_API_KEY is not configured.")) /\
  (ai_lesson greedy_world 3
     {| req_body := JObj [("imageSearchQuery", JArr [JStr "a"; JStr "b"])];
        req_files := None |} []).1 = [] /\
  (ai_lesson greedy_world 3
     {| req_body := JBare [("topic", JStr "Cells");
                           ("duration", JBare [("min", JStr "45")])];
        req_files := None |} []).1 = [] /\
  exists rest,
    (ai_lesson failing_world 3 demo_request []).1 =
    EModel (initial_request demo_request demo_prompt) :: rest.
Proof.
  split; [reflexivity|]. split; [|split].
  - refine (proj1 (proj1 (request_validation greedy_world 3 _ []) _)).
    right. right. left. split; [reflexivity|discriminate].
  - refine (proj1 (proj1 (request_validation greedy_world 3 _ []) _)).
    right. right. right. reflexivity.
  - destruct (proj2 (request_validation failing_world 3 demo_request []))
      as (resolved & user & rest & Hres & Huser & Hrun).
    { intros [H|[H|[[H _]|H]]]; vm_compute in H; discriminate. }
    exists rest. vm_compute in Hres. injection Hres as <-.
    vm_compute in Huser. injection Huser as <-. exact Hrun.
Defined.

(** X9. Whenever the image query of a request resolves, it is a non-empty
    string: the query of the request with the white space around it
    removed when that leaves something, and otherwise the template built
    from the topic. *)
Theorem resolved_image_query_string (imageSearchQuery topic v : JSValue) :
  resolveImageQuery imageSearchQuery topic = Ok v ->
  exists s,
    v = JStr s /\ s <> EmptyString /\
    ((exists t, imageSearchQuery = JStr t /\ s = trim t /\
                starts_with_space s = false /\ ends_with_space s = false) \/
     exists shown,
       to_string (js_or topic (JStr "lesson")) = Ok shown /\
       s = shown +:+ " classroom illustration").
Proof.
  unfold resolveImageQuery.
  assert (Htemplate :
            default_image_query topic = Ok v ->
            exists s,
              v = JStr s /\ s <> EmptyString /\
              ((exists t, imageSearchQuery = JStr t /\ s = trim t /\
                          starts_with_space s = false /\
                          ends_with_space s = false) \/
               exists shown,
                 to_string (js_or topic (JStr "lesson")) = Ok shown /\
                 s = shown +:+ " classroom illustration")).
  { unfold default_image_query.
    destruct (to_string (js_or topic (JStr "lesson"))) as [shown|];
      [|discriminate].
    cbn [bindR]. intros H. inversion H. eexists. split; [reflexivity|].
    split; [apply append_nonempty; discriminate|]. right. eauto. }
  destruct imageSearchQuery as [| | | |t| | |]; cbn [opt_trim bindR truthy];
    try discriminate; try exact Htemplate.
  destruct (String.eqb_spec (trim t) EmptyString) as [He|Hne]; cbn [negb].
  - exact Htemplate.
  - intros H. inversion H. subst v.
    exists (trim t). split; [reflexivity|]. split; [exact Hne|]. left.
    exists t. split; [reflexivity|]. split; [reflexivity|]. split.
    + apply trim_end_head, trim_start_head.
    + apply trim_end_last.
Qed.

Lemma resolved_image_query_string_witness :
  resolveImageQuery (JStr "  leaf cells ") (JStr "Cells")
    = Ok (JStr "leaf cells") /\
  exists s,
    JStr "leaf cells" = JStr s /\ s <> EmptyString /\
    starts_with_space s = false /\ ends_with_space s = false.
Proof.
  assert (H : resolveImageQuery (JStr "  leaf cells ") (JStr "Cells")
              = Ok (JStr "leaf cells")) by reflexivity.
  split; [exact H|].
  destruct (resolved_image_query_string _ _ _ H) as (s & Hs & Hne & _).
  exists s. split; [exact Hs|]. split; [exact Hne|].
  inversion Hs; subst s. split; reflexivity.
Defined.

(** ** Threading of the model calls *)

Lemma thread_app (W : World) (evs1 evs2 : list Event) :
  forall tr previous final,
    thread W tr previous (evs1 ++ evs2) final <->
    exists middle,
      thread W tr previous evs1 middle /\
      thread W (tr ++ evs1) middle evs2 final.
Proof.
  induction evs1 as [|ev evs1 IH]; intros tr previous final.
  - cbn [app thread]. rewrite app_nil_r. split.
    + intros H. exists previous. auto.
    + intros (middle & -> & H). exact H.
  - assert (Hassoc : (tr ++ [ev]) ++ evs1 = tr ++ ev :: evs1)
      by (rewrite <- app_assoc; reflexivity).
    destruct ev as [request|searchParams]; cbn [app thread].
    + split.
      * intros (Hf & r & Hr & H). apply IH in H as (middle & H1 & H2).
        rewrite Hassoc in H2. exists middle. eauto 6.
      * intros (middle & (Hf & r & Hr & H1) & H2).
        split; [exact Hf|]. exists r. split; [exact Hr|].
        apply IH. exists middle. rewrite Hassoc. auto.
    + split.
      * intros (Hp & H). apply IH in H as (middle & H1 & H2).
        rewrite Hassoc in H2. exists middle. auto.
      * intros (middle & (Hp & H1) & H2). split; [exact Hp|].
        apply IH. exists middle. rewrite Hassoc. auto.
Qed.

Lemma thread_fetches (W : World) (evs : list Event) :
  Forall (fun ev => is_model_call ev = false) evs ->
  forall tr r, thread W tr (Some r) evs (Some r).
Proof.
  induction 1 as [|ev evs Hev _ IH]; intros tr r; [reflexivity|].
  destruct ev as [request|searchParams]; [discriminate|].
  cbn [thread]. split; [discriminate|apply IH].
Qed.

Lemma get_prop_value (v x : JSValue) (k : string) :
  get_prop v k = Ok x -> x = prop v k.
Proof.
  unfold get_prop. destruct (is_nullish v); [discriminate|].
  intros H. inversion H. reflexivity.
Qed.

Lemma generation_loop_thread (W : World) (resolved : JSValue)
    (tools : list JSValue) (fuel : nat) :
  forall (response : JSValue) (toolCalls : list JSValue) (c : nat)
         (tr : Trace),
  exists evs,
    (generation_loop W fuel resolved tools response toolCalls c tr).1
      = tr ++ evs /\
    match (generation_loop W fuel resolved tools response toolCalls c tr).2
    with
    | Ok (Some (r, _, _)) => thread W tr (Some response) evs (Some r)
    | Ok None => exists final, thread W tr (Some response) evs final
    | Throw e =>
        (exists final, thread W tr (Some response) evs final) \/
        (exists pre request final,
            evs = pre ++ [EModel request] /\
            thread W tr (Some response) pre final /\
            follows request final /\
            responses_create W (tr ++ pre) request = Throw e)
    end.
Proof.
  induction fuel as [|fuel IH]; intros response toolCalls c tr.
  - cbn [generation_loop].
    destruct (negb (length toolCalls =? 0) && (c <? 3));
      exists []; cbn [fst snd retM]; rewrite app_nil_r;
      (split; [reflexivity|]); [exists (Some response)|]; reflexivity.
  - rewrite generation_loop_step.
    destruct (negb (length toolCalls =? 0) && (c <? 3)).
    2:{ exists []. cbn [fst snd]. rewrite app_nil_r.
        split; reflexivity. }
    rewrite round_run.
    destruct (dispatchCalls_events W resolved toolCalls [] tr)
      as (evs1 & Htr1 & Hf1 & _).
    destruct (dispatchCalls W resolved toolCalls [] tr) as [tr1 [outs|e]];
      cbn [fst snd] in *; subst tr1.
    2:{ exists evs1. cbn [fst snd]. split; [reflexivity|]. left.
        exists (Some response). apply thread_fetches. exact Hf1. }
    destruct (get_prop response "id") as [previous|e] eqn:Hid.
    2:{ exists evs1. cbn [fst snd]. split; [reflexivity|]. left.
        exists (Some response). apply thread_fetches. exact Hf1. }
    apply get_prop_value in Hid. subst previous.
    set (request := CreateContinuation (prop response "id") tools outs).
    destruct (responses_create W (tr ++ evs1) request) as [r|e] eqn:Hr.
    2:{ exists (evs1 ++ [EModel request]). cbn [fst snd].
        split; [symmetry; apply app_assoc|]. right.
        exists evs1, request, (Some response).
        split; [reflexivity|]. split; [apply thread_fetches; exact Hf1|].
        split; [reflexivity|exact Hr]. }
    assert (Hround : thread W tr (Some response) (evs1 ++ [EModel request])
                       (Some r)).
    { apply thread_app. exists (Some response).
      split; [apply thread_fetches; exact Hf1|].
      cbn [thread]. split; [reflexivity|]. exists r. auto. }
    destruct (collectToolCalls r) as [toolCalls'|e].
    2:{ exists (evs1 ++ [EModel request]). cbn [fst snd].
        split; [symmetry; apply app_assoc|]. left. eauto. }
    destruct (IH r toolCalls' (c + 1) ((tr ++ evs1) ++ [EModel request]))
      as (evs2 & Htr2 & Hres).
    destruct (generation_loop W fuel resolved tools r toolCalls' (c + 1)
                ((tr ++ evs1) ++ [EModel request])) as [tr2 res2].
    cbn [fst snd] in *; subst tr2.
    exists ((evs1 ++ [EModel request]) ++ evs2).
    split; [rewrite !app_assoc; reflexivity|].
    assert (Hjoin : forall final,
               thread W ((tr ++ evs1) ++ [EModel request]) (Some r) evs2
                 final ->
               thread W tr (Some response)
                 ((evs1 ++ [EModel request]) ++ evs2) final).
    { intros final H. apply thread_app. exists (Some r).
      split; [exact Hround|]. rewrite app_assoc. exact H. }
    destruct res2 as [[[[r' p'] c']|]|e].
    + apply Hjoin. exact Hres.
    + destruct Hres as [final H]. exists final. apply Hjoin. exact H.
    + destruct Hres as [[final H]|(pre & rq & final & -> & H & Hf & Hthrow)].
      * left. exists final. apply Hjoin. exact H.
      * right. exists ((evs1 ++ [EModel request]) ++ pre), rq, final.
        split; [apply app_assoc|]. split.
        { apply thread_app. exists (Some r). split; [exact Hround|].
          rewrite app_assoc. exact H. }
        split; [exact Hf|]. rewrite <- !app_assoc.
        rewrite <- !app_assoc in Hthrow. exact Hthrow.
Qed.

(** X10. The model calls of a session form one thread.  The first is the
    initial request; every later one is a continuation whose
    [previous_response_id] is the [id] of the response to the model call
    before it; a media search is only made after some response.  Every
    model call is answered, except that the last external call may be a
    model call that throws, and then the reply is the 500 carrying the
    message of that error. *)
Theorem session_threaded (W : World) (fuel : nat) (req : AiRequest)
    (tr : Trace) :
  exists evs,
    (ai_lesson W fuel req tr).1 = tr ++ evs /\
    ((exists final, thread W tr None evs final) \/
     (exists pre request final e,
         evs = pre ++ [EModel request] /\
         thread W tr None pre final /\
         follows request final /\
         responses_create W (tr ++ pre) request = Throw e /\
         (ai_lesson W fuel req tr).2
           = Some (error_reply (error_message e)))).
Proof.
  assert (Hnone : forall t : Trace * option Reply,
             t.1 = tr ->
             exists evs, t.1 = tr ++ evs /\
               ((exists final, thread W tr None evs final) \/
                (exists pre request final e,
                    evs = pre ++ [EModel request] /\
                    thread W tr None pre final /\
                    follows request final /\
                    responses_create W (tr ++ pre) request = Throw e /\
                    t.2 = Some (error_reply (error_message e))))).
  { intros t Ht. exists []. rewrite app_nil_r. split; [exact Ht|].
    left. exists None. reflexivity. }
  rewrite ai_lesson_run. destruct (configured W); [|apply Hnone; reflexivity].
  destruct (is_nullish (req_body req)) eqn:Hb.
  { destruct (generate_unreadable W fuel req tr Hb) as [e ->].
    apply Hnone. reflexivity. }
  destruct (resolved_query req) as [resolved|e] eqn:Hq.
  2:{ rewrite (generate_unresolved W fuel req tr e Hb Hq).
      apply Hnone. reflexivity. }
  destruct (session_prompt W req resolved) as [user|e] eqn:Hu.
  2:{ rewrite (generate_unprintable W fuel req tr resolved e Hb Hq Hu).
      apply Hnone. reflexivity. }
  rewrite (generate_run W fuel req tr resolved user Hb Hq Hu). cbv zeta.
  clear Hnone. set (init := initial_request req user).
  destruct (responses_create W tr init) as [response|e] eqn:Hresp.
  2:{ exists [EModel init]. cbn [fst snd]. split; [reflexivity|]. right.
      exists [], init, None, e. rewrite app_nil_r.
      repeat split; auto. }
  assert (Hfirst : thread W tr None [EModel init] (Some response)).
  { cbn [thread]. split; [exact I|]. exists response. auto. }
  destruct (collectToolCalls response) as [toolCalls|e].
  2:{ exists [EModel init]. cbn [fst snd]. split; [reflexivity|].
      left. eauto. }
  destruct (generation_loop_thread W resolved (session_tools req) fuel
              response toolCalls 0 (tr ++ [EModel init]))
    as (evsL & HtrL & Hres).
  destruct (generation_loop W fuel resolved (session_tools req) response
              toolCalls 0 (tr ++ [EModel init])) as [tr2 resL].
  cbn [fst snd] in *; subst tr2. exists ([EModel init] ++ evsL).
  assert (Hjoin : forall evs final,
             thread W (tr ++ [EModel init]) (Some response) evs final ->
             thread W tr None ([EModel init] ++ evs) final).
  { intros evs final H. apply thread_app. exists (Some response). auto. }
  destruct resL as [[[[r' p'] c']|]|e]; cbn [fst snd].
  - split; [symmetry; apply app_assoc|]. left. exists (Some r'). apply Hjoin.
    exact Hres.
  - split; [symmetry; apply app_assoc|]. left. destruct Hres as [final H].
    exists final. apply Hjoin. exact H.
  - split; [symmetry; apply app_assoc|].
    destruct Hres as [[final H]|(pre & rq & final & -> & H & Hf & Hthrow)].
    + left. exists final. apply Hjoin. exact H.
    + right. exists ([EModel init] ++ pre), rq, final, e.
      split; [apply app_assoc|]. split; [apply Hjoin; exact H|].
      split; [exact Hf|]. rewrite app_assoc. auto.
Qed.

(** ** What the caller receives *)

Lemma js_or_default (a b : JSValue) :
  truthy (js_or a b) = true \/ js_or a b = b.
Proof. unfold js_or. destruct (truthy a) eqn:H; auto. Qed.

(** X11. With fuel for the loop, the reply of the generation handler has
    one of two shapes.  A 200 has exactly the fields [content] and
    [citations]; [content] is a truthy value or the empty string and
    [citations] a truthy value or the empty array, so neither is ever
    [undefined].  A 500 has the single field [error], a string. *)
Theorem reply_shape (W : World) (fuel : nat) (req : AiRequest) (tr : Trace) :
  3 <= fuel ->
  exists reply,
    (ai_lesson W fuel req tr).2 = Some reply /\
    ((status reply = 200 /\
      exists content citations,
        body reply = JObj [("content", content); ("citations", citations)] /\
        (truthy content = true \/ content = JStr EmptyString) /\
        (truthy citations = true \/ citations = JArr [])) \/
     (status reply = 500 /\
      exists message, body reply = JObj [("error", JStr message)])).
Proof.
  intros Hfuel.
  destruct (ai_lesson_events W fuel req tr) as (evs & _ & _ & _ & _ & Hr).
  destruct ((ai_lesson W fuel req tr).2) as [reply|]; [|lia].
  exists reply. split; [reflexivity|].
  destruct Hr as [r _ _ _|e _ _|_ _].
  - left. split; [reflexivity|]. eexists. eexists.
    split; [reflexivity|]. split; apply js_or_default.
  - right. split; [reflexivity|]. eexists. reflexivity.
  - right. split; [reflexivity|]. eexists. reflexivity.
Qed.

Lemma reply_shape_witness :
  3 <= 3 /\
  (ai_lesson plain_world 3 demo_request []).2 =
    Some {| status := 200;
            body := JObj [("content", JStr "Lesson");
                          ("citations", JArr [JStr "Lesson"])] |} /\
  (ai_lesson failing_world 3 demo_request []).2 =
    Some {| status := 500;
            body := JObj [("error", JStr "429 Too Many Requests")] |}.
Proof.
  split; [lia|].
  destruct (reply_shape plain_world 3 demo_request [] (le_n 3))
    as (reply1 & H1 & _).
  destruct (reply_shape failing_world 3 demo_request [] (le_n 3))
    as (reply2 & H2 & _).
  split.
  - rewrite H1. vm_compute in H1. injection H1 as <-. reflexivity.
  - rewrite H2. vm_compute in H2. injection H2 as <-. reflexivity.
Defined.

(** ** Argument payloads that are not texts the codec rejects *)

(** X12. For an image-search invocation: when the argument payload is a
    text that parses to [null], reading [args.query] throws a TypeError
    outside the [try], so the invocation fails and no media search is
    made; when the payload is absent or another falsy value that is not a
    string, the arguments are the empty object, so the search is made for
    the text "undefined" with the default limit "4"; when the payload is
    already an object it is used as it is, unparsed: the search is made
    with its [query] and [count] converted to strings, and when one of
    them cannot be converted the invocation fails before any request. *)
Theorem argument_edges (W : World) (resolved call : JSValue) (tr : Trace) :
  is_nullish call = false ->
  recognized call = true ->
  (forall text,
      prop call "arguments" = JStr text ->
      JSON_parse W text = Ok JNull ->
      dispatchCall W resolved call tr =
      (tr, Throw (TypeError
                    "Cannot read properties of null (reading 'query')"))) /\
  (truthy (prop call "arguments") = false ->
   (forall text, prop call "arguments" <> JStr text) ->
   parseArguments W resolved call = JObj [] /\
   search_params JUndefined JUndefined = Ok (query_params "undefined" "4") /\
   (dispatchCall W resolved call tr).1 =
     tr ++ [EFetch (query_params "undefined" "4")] /\
   In ("gsrsearch", "undefined") (query_params "undefined" "4") /\
   In ("gsrlimit", "4") (query_params "undefined" "4")) /\
  (forall fields,
      prop call "arguments" = JObj fields ->
      parseArguments W resolved call = JObj fields /\
      (forall searchParams,
          search_params (assoc "query" fields) (assoc "count" fields)
            = Ok searchParams ->
          (dispatchCall W resolved call tr).1 = tr ++ [EFetch searchParams]) /\
      (forall e,
          search_params (assoc "query" fields) (assoc "count" fields)
            = Throw e ->
          dispatchCall W resolved call tr = (tr, Throw e)) /\
      (forall q n,
          assoc "query" fields = JStr q ->
          assoc "count" fields = JNum n ->
          search_params (assoc "query" fields) (assoc "count" fields)
            = Ok (query_params q (Number_toString n)))).
Proof.
  intros Hcall Hrec. split; [|split].
  - intros text Hargs Hparse.
    assert (Hparsed : parseArguments W resolved call = JNull).
    { unfold parseArguments. rewrite get_prop_object by exact Hcall.
      rewrite Hargs. cbn [bindR]. rewrite Hparse. reflexivity. }
    rewrite dispatchCall_recognized by assumption. rewrite Hparsed.
    reflexivity.
  - intros Hfalsy Hnot.
    assert (Hparsed : parseArguments W resolved call = JObj []).
    { unfold parseArguments. rewrite get_prop_object by exact Hcall.
      cbn [bindR].
      destruct (prop call "arguments") as [| |b|n|s| | |] eqn:Hargs;
        try discriminate; try reflexivity.
      - unfold js_or. rewrite Hfalsy. reflexivity.
      - unfold js_or. rewrite Hfalsy. reflexivity.
      - destruct (Hnot s eq_refl). }
    split; [exact Hparsed|]. split; [reflexivity|]. split.
    + rewrite dispatchCall_recognized by assumption. rewrite Hparsed.
      reflexivity.
    + split; cbn; auto 10.
  - intros fields Hargs.
    assert (Hparsed : parseArguments W resolved call = JObj fields).
    { unfold parseArguments. rewrite get_prop_object by exact Hcall.
      rewrite Hargs. reflexivity. }
    assert (Hrun : dispatchCall W resolved call tr =
                   match search_params (assoc "query" fields)
                           (assoc "count" fields) with
                   | Ok searchParams =>
                       (tr ++ [EFetch searchParams],
                        match search_outcome W tr searchParams with
                        | Ok images =>
                            Ok (Some {| tool_call_id := prop call "call_id";
                                        output := JSON_stringify W
                                          (JObj [("results", JArr images)]) |})
                        | Throw e => Throw e
                        end)
                   | Throw e => (tr, Throw e)
                   end).
    { rewrite dispatchCall_recognized by assumption. rewrite Hparsed.
      reflexivity. }
    split; [exact Hparsed|]. split; [|split].
    + intros searchParams Hp. rewrite Hrun, Hp. reflexivity.
    + intros e Hp. rewrite Hrun, Hp. reflexivity.
    + intros q n -> ->. reflexivity.
Qed.

Lemma argument_edges_witness :
  dispatchCall null_world (JStr "cells") (image_call "c" (JStr "null")) [] =
    ([], Throw (TypeError
                  "Cannot read properties of null (reading 'query')")) /\
  (dispatchCall null_world (JStr "cells") (image_call "c" JNull) []).1 =
    [EFetch (query_params "undefined" "4")] /\
  (dispatchCall null_world (JStr "cells") (image_call "c" leaf_cells_args)
     []).1 = [EFetch (query_params "leaf cells" "2")] /\
  dispatchCall null_world (JStr "cells")
    (image_call "c" (JObj [("query", JObj [("toString", JNum 1)])])) [] =
    ([], Throw cannot_convert) /\
  search_params (JStr "leaf")
    (JNum 1000000000000000000000) = Ok (query_params "leaf" "1e+21").
Proof.
  split; [|split; [|split; [|split]]].
  - exact (proj1 (argument_edges null_world (JStr "cells")
                    (image_call "c" (JStr "null")) [] eq_refl eq_refl)
             "null" eq_refl eq_refl).
  - refine (proj1 (proj2 (proj2 (proj1 (proj2
              (argument_edges null_world (JStr "cells")
                 (image_call "c" JNull) [] eq_refl eq_refl)) eq_refl _)))).
    intros text H. discriminate H.
  - exact (proj1 (proj2 (proj2 (proj2
             (argument_edges null_world (JStr "cells")
                (image_call "c" leaf_cells_args) [] eq_refl eq_refl))
             _ eq_refl)) _ eq_refl).
  - exact (proj1 (proj2 (proj2 (proj2 (proj2
             (argument_edges null_world (JStr "cells")
                (image_call "c" (JObj [("query", JObj [("toString", JNum 1)])]))
                [] eq_refl eq_refl))
             _ eq_refl))) _ eq_refl).
  - vm_compute. reflexivity.
Defined.

(** ** Extraction of the invocations *)

Lemma filterR_readable (items : list JSValue) :
  Forall (fun item => is_nullish item = false) items ->
  filterR is_tool_call items = Ok (List.filter tool_type items).
Proof.
  intros H. apply filterR_total. eapply Forall_impl; [exact H|].
  intros item Hitem. unfold is_tool_call, tool_type.
  rewrite get_prop_object by exact Hitem. reflexivity.
Qed.

Lemma filterR_unreadable (items : list JSValue) :
  Exists (fun item => is_nullish item = true) items ->
  exists e, filterR is_tool_call items = Throw e.
Proof.
  induction 1 as [item rest Hitem|item rest _ IH].
  - cbn [filterR]. unfold is_tool_call at 1, get_prop. rewrite Hitem.
    cbn [bindR]. eauto.
  - cbn [filterR]. destruct (is_tool_call item); cbn [bindR]; [|eauto].
    destruct IH as [e ->]. cbn [bindR]. eauto.
Qed.

(** X13. [collectToolCalls] gives no invocation for a response that is
    [null] or [undefined] or whose [output] is absent or falsy.  For an
    [output] array of readable items it gives exactly the items whose type
    is ["tool_call"] or ["function_call"], in their order; every item it
    gives is of that kind; and it throws when some item of the array is
    [null] or [undefined]. *)
Theorem collectToolCalls_selects :
  (forall response,
      truthy (opt_prop response "output") = false ->
      collectToolCalls response = Ok []) /\
  (forall response items,
      is_nullish response = false ->
      prop response "output" = JArr items ->
      Forall (fun item => is_nullish item = false) items ->
      collectToolCalls response = Ok (List.filter tool_type items)) /\
  (forall response toolCalls,
      collectToolCalls response = Ok toolCalls ->
      Forall (fun call => is_nullish call = false /\ tool_type call = true)
        toolCalls) /\
  (forall response items,
      is_nullish response = false ->
      prop response "output" = JArr items ->
      Exists (fun item => is_nullish item = true) items ->
      exists e, collectToolCalls response = Throw e).
Proof.
  split; [|split; [|split]].
  - intros response H. unfold collectToolCalls, js_or. rewrite H.
    reflexivity.
  - intros response items Hr Hout Hitems.
    unfold collectToolCalls, opt_prop. rewrite Hr, Hout.
    apply filterR_readable. exact Hitems.
  - intros response toolCalls H. unfold collectToolCalls in H.
    destruct (js_or (opt_prop response "output") (JArr []));
      try discriminate.
    apply filterR_kept in H. eapply Forall_impl; [exact H|].
    intros call Hcall. unfold is_tool_call, get_prop in Hcall.
    unfold tool_type. destruct (is_nullish call); [discriminate|].
    cbn [bindR] in Hcall. injection Hcall as Hcall.
    split; [reflexivity|exact Hcall].
  - intros response items Hr Hout Hitems.
    unfold collectToolCalls, opt_prop. rewrite Hr, Hout.
    apply filterR_unreadable. exact Hitems.
Qed.

Lemma collectToolCalls_selects_witness :
  collectToolCalls JNull = Ok [] /\
  collectToolCalls mixed_response = Ok mixed_calls /\
  Forall (fun call => tool_type call = true) mixed_calls /\
  exists e,
    collectToolCalls (JObj [("output", JArr [text_item "a"; JNull])])
      = Throw e.
Proof.
  destruct collectToolCalls_selects as (Hnone & Hsel & Hkind & Hbad).
  split; [exact (Hnone JNull eq_refl)|]. split.
  - rewrite (Hsel mixed_response _ eq_refl eq_refl);
      [reflexivity|repeat constructor].
  - split.
    + eapply Forall_impl;
        [exact (Hkind mixed_response mixed_calls eq_refl)|].
      intros call [_ H]. exact H.
    + apply (Hbad (JObj [("output", JArr [text_item "a"; JNull])])
               [text_item "a"; JNull] eq_refl eq_refl).
      right. left. reflexivity.
Defined.

(** ** Rounds without an image search *)

Lemma no_recognized (toolCalls : list JSValue) :
  forallb (fun call => negb (recognized call)) toolCalls = true ->
  List.filter recognized toolCalls = [].
Proof.
  induction toolCalls as [|call rest IH]; [reflexivity|].
  cbn [forallb List.filter]. intros H. apply andb_prop in H as [Hc Hrest].
  apply negb_true_iff in Hc. rewrite Hc. auto.
Qed.

Lemma round_without_search (W : World) (resolved : JSValue)
    (tools : list JSValue) (response : JSValue) (toolCalls : list JSValue)
    (tr : Trace) :
  collectToolCalls response = Ok toolCalls ->
  toolCalls <> [] ->
  forallb (fun call => negb (recognized call)) toolCalls = true ->
  round W resolved tools response toolCalls tr =
  (tr ++ [EModel (CreateContinuation (prop response "id") tools [])],
   responses_create W tr
     (CreateContinuation (prop response "id") tools [])).
Proof.
  intros Hcol Hne Hnone.
  pose proof (collectToolCalls_objects response toolCalls Hcol) as Hobj.
  rewrite round_run, dispatchCalls_skip, (no_recognized _ Hnone)
    by exact Hobj.
  cbn [dispatchCalls retM].
  rewrite get_prop_object
    by (eapply collectToolCalls_pending; eassumption).
  reflexivity.
Qed.

(** X14. When a response holds invocations and none of them is an image
    search, the round makes no media search and resubmits an empty list of
    tool outputs: its only external call is the next model call, and the
    counter of rounds still advances, so a model that keeps asking for
    other capabilities is called [3 - c] more times from counter [c]. *)
Theorem unrecognized_round (W : World) (resolved : JSValue)
    (tools : list JSValue) (response : JSValue) (toolCalls : list JSValue)
    (tr : Trace) :
  collectToolCalls response = Ok toolCalls ->
  toolCalls <> [] ->
  forallb (fun call => negb (recognized call)) toolCalls = true ->
  round W resolved tools response toolCalls tr =
    (tr ++ [EModel (CreateContinuation (prop response "id") tools [])],
     responses_create W tr
       (CreateContinuation (prop response "id") tools [])) /\
  fetch_calls (skipn (length tr)
                 (round W resolved tools response toolCalls tr).1) = 0 /\
  model_calls (skipn (length tr)
                 (round W resolved tools response toolCalls tr).1) = 1.
Proof.
  intros Hcol Hne Hnone.
  rewrite (round_without_search W resolved tools response toolCalls tr
             Hcol Hne Hnone).
  split; [reflexivity|]. cbn [fst].
  rewrite drop_app_length. split; reflexivity.
Qed.

Lemma unrecognized_round_witness :
  round greedy_world (JStr "cells") [image_search_tool]
    (response_with "resp_9" [other_call "call_x"] EmptyString)
    [other_call "call_x"] [] =
  ([EModel (CreateContinuation (JStr "resp_9") [image_search_tool] [])],
   Ok (response_with "resp" [image_call "c" (JStr "not json")] "draft")).
Proof.
  exact (proj1
           (unrecognized_round greedy_world (JStr "cells")
              [image_search_tool]
              (response_with "resp_9" [other_call "call_x"] EmptyString)
              [other_call "call_x"] [] eq_refl
              (fun H => eq_ind [other_call "call_x"]
                          (fun l => match l with [] => False | _ => True end)
                          I [] H)
              eq_refl)).
Defined.

(** ** Searches without a match *)

Lemma filterR_length {A : Type} (p : A -> Result bool) (l kept : list A) :
  filterR p l = Ok kept -> length kept <= length l.
Proof.
  revert kept. induction l as [|x l IH]; intros kept H.
  - inversion H. reflexivity.
  - cbn [filterR] in H. destruct (p x) as [keep|]; [|discriminate].
    cbn [bindR] in H. destruct (filterR p l) as [kept'|]; [|discriminate].
    inversion H. specialize (IH kept' eq_refl).
    destruct keep; cbn [length]; lia.
Qed.

Lemma mapR_length {A B : Type} (f : A -> Result B) (l : list A)
    (ys : list B) :
  mapR f l = Ok ys -> length ys = length l.
Proof.
  revert ys. induction l as [|x l IH]; intros ys H.
  - inversion H. reflexivity.
  - cbn [mapR] in H. destruct (f x) as [y|]; [|discriminate].
    cbn [bindR] in H. destruct (mapR f l) as [ys'|]; [|discriminate].
    inversion H. cbn [length]. rewrite (IH ys' eq_refl). reflexivity.
Qed.

(** X15. A successful answer of the media search without [query.pages]
    (no match) is not an error: the search returns the empty list and the
    invocation still gets its result, with no images.  In general the
    search never returns more results than the answer has pages. *)
Theorem search_without_match (W : World) :
  (forall query count tr searchParams payload,
      search_params query count = Ok searchParams ->
      fetch W tr searchParams = FetchResponse true (Ok payload) ->
      truthy (opt_prop (opt_prop payload "query") "pages") = false ->
      performImageSearch W query count tr =
      (tr ++ [EFetch searchParams], Ok [])) /\
  (forall resolved call tr searchParams payload,
      is_nullish call = false ->
      recognized call = true ->
      is_nullish (parseArguments W resolved call) = false ->
      search_params (prop (parseArguments W resolved call) "query")
        (prop (parseArguments W resolved call) "count") = Ok searchParams ->
      fetch W tr searchParams = FetchResponse true (Ok payload) ->
      truthy (opt_prop (opt_prop payload "query") "pages") = false ->
      dispatchCall W resolved call tr =
      (tr ++ [EFetch searchParams],
       Ok (Some {| tool_call_id := prop call "call_id";
                   output := JSON_stringify W
                               (JObj [("results", JArr [])]) |}))) /\
  (forall payload pages results,
      pages_of payload = Ok pages ->
      image_results payload = Ok results ->
      length results <= length pages).
Proof.
  assert (Hsearch : forall tr searchParams payload,
             fetch W tr searchParams = FetchResponse true (Ok payload) ->
             truthy (opt_prop (opt_prop payload "query") "pages") = false ->
             search_outcome W tr searchParams = Ok []).
  { intros tr searchParams payload Hf Hp. unfold search_outcome.
    rewrite Hf. cbn [negb bindR]. unfold image_results, pages_of.
    rewrite Hp. reflexivity. }
  split; [|split].
  - intros query count tr searchParams payload Hsp Hf Hp.
    rewrite performImageSearch_run, Hsp, (Hsearch _ _ _ Hf Hp). reflexivity.
  - intros resolved call tr searchParams payload Hcall Hrec Hargs Hsp Hf Hp.
    rewrite dispatchCall_recognized by assumption. cbv zeta.
    rewrite !get_prop_object by exact Hargs.
    rewrite Hsp, (Hsearch _ _ _ Hf Hp). reflexivity.
  - intros payload pages results Hpages H. unfold image_results in H.
    rewrite Hpages in H. cbn [bindR] in H.
    destruct (filterR has_imageinfo pages) as [kept|] eqn:Hk;
      [|discriminate].
    cbn [bindR] in H. apply mapR_length in H. apply filterR_length in Hk.
    lia.
Qed.

Lemma search_without_match_witness :
  performImageSearch empty_world (JStr "zzz") JUndefined [] =
    ([EFetch (query_params "zzz" "4")], Ok []) /\
  dispatchCall empty_world (JStr "cells") (image_call "c" leaf_cells_args)
    [] =
    ([EFetch (query_params "leaf cells" "2")],
     Ok (Some {| tool_call_id := JStr "c";
                 output := JSON_stringify empty_world
                             (JObj [("results", JArr [])]) |})).
Proof.
  destruct (search_without_match empty_world) as (Hs & Hd & _).
  split.
  - exact (Hs (JStr "zzz") JUndefined [] _ _ eq_refl eq_refl eq_refl).
  - exact (Hd (JStr "cells") (image_call "c" leaf_cells_args) [] _ _
             eq_refl eq_refl eq_refl eq_refl eq_refl eq_refl).
Defined.

(** * Properties of the browser client *)

Lemma assoc_obj_set_eq (k : string) (v : JSValue)
    (fields : list (string * JSValue)) :
  assoc k (obj_set k v fields) = v.
Proof.
  induction fields as [|[k' v'] rest IH]; cbn [obj_set assoc].
  - rewrite String.eqb_refl. reflexivity.
  - destruct (String.eqb k' k) eqn:Hk; cbn [assoc]; rewrite Hk; auto.
Qed.

Lemma assoc_obj_set_ne (k k0 : string) (v : JSValue)
    (fields : list (string * JSValue)) :
  k0 <> k -> assoc k0 (obj_set k v fields) = assoc k0 fields.
Proof.
  intros Hne. induction fields as [|[k' v'] rest IH]; cbn [obj_set assoc].
  - destruct (String.eqb_spec k k0); [congruence|reflexivity].
  - destruct (String.eqb_spec k' k) as [->|Hk]; cbn [assoc].
    + destruct (String.eqb_spec k k0); [congruence|reflexivity].
    + rewrite IH. reflexivity.
Qed.

Lemma trim_field_text (field : string) (v x : JSValue) :
  trim_field field v = Ok x ->
  (if truthy x then [x] else []) =
  (if String.eqb (trimmed_text v) EmptyString then []
   else [JStr (trimmed_text v)]).
Proof.
  destruct v; cbn [trim_field trimmed_text]; intros H;
    try discriminate; inversion H; subst x; try reflexivity.
  cbn [truthy]. destruct (String.eqb (trim s) EmptyString); reflexivity.
Qed.

(** The [data] of a form, unfolded. *)
Lemma getFormData_data (entries : list (string * JSValue)) (data : JSValue) :
  getFormData entries = Ok data ->
  data =
  JObj (obj_set "resources"
          (JArr (form_resources
                   (trimmed_text
                      (assoc "imageSearchQuery" (Object_fromEntries entries)))
                   (trimmed_text
                      (assoc "youtubeUrl" (Object_fromEntries entries)))))
          (obj_set "resources" (JArr [])
             (obj_set "includeWebSearch"
                (encode_includeWebSearch
                   (truthy (formData_get "includeWebSearch" entries)))
                (Object_fromEntries entries)))).
Proof.
  unfold getFormData. cbv zeta.
  rewrite !assoc_obj_set_ne by discriminate.
  destruct (trim_field "imageSearchQuery"
              (assoc "imageSearchQuery" (Object_fromEntries entries)))
    as [q|] eqn:Hq; [|discriminate].
  destruct (trim_field "youtubeUrl"
              (assoc "youtubeUrl" (Object_fromEntries entries)))
    as [u|] eqn:Hu; [|discriminate].
  cbn [bindR]. intros H. inversion H. unfold form_resources.
  apply trim_field_text in Hq. apply trim_field_text in Hu.
  destruct (String.eqb (trimmed_text
              (assoc "imageSearchQuery" (Object_fromEntries entries)))
              EmptyString);
    destruct (String.eqb (trimmed_text
                (assoc "youtubeUrl" (Object_fromEntries entries)))
                EmptyString);
    destruct (truthy q); destruct (truthy u);
    try discriminate; inversion Hq; inversion Hu; reflexivity.
Qed.

Lemma fromEntries_last (k : string) (entries : list (string * JSValue)) :
  assoc k (Object_fromEntries entries) = last_value k entries.
Proof.
  unfold Object_fromEntries, last_value.
  change JUndefined with (assoc k []).
  generalize (@nil (string * JSValue)).
  induction entries as [|[k' v] rest IH]; intros fields; [reflexivity|].
  cbn [fold_left fst snd]. rewrite IH. f_equal.
  destruct (String.eqb_spec k' k) as [->|Hne].
  - apply assoc_obj_set_eq.
  - apply assoc_obj_set_ne. congruence.
Qed.



Lemma find_form_resources (q u : string) :
  (let? found := find_type "image-search" (form_resources q u) in
   Ok (js_or (opt_prop found "query") (JStr EmptyString))) = Ok (JStr q) /\
  (let? found := find_type "youtube" (form_resources q u) in
   Ok (js_or (opt_prop found "url") (JStr EmptyString))) = Ok (JStr u).
Proof.
  unfold form_resources.
  destruct (String.eqb_spec q EmptyString) as [->|Hq];
    destruct (String.eqb_spec u EmptyString) as [->|Hu];
    cbn [app find_type get_prop is_nullish prop assoc String.eqb Ascii.eqb
           Bool.eqb bindR strict_eq_str opt_prop];
    unfold js_or; cbn [truthy];
    repeat match goal with
           | H : ?s <> EmptyString |- context [String.eqb ?s EmptyString] =>
               destruct (String.eqb_spec s EmptyString); [congruence|]
           end;
    split; reflexivity.
Qed.

(** X17. The edit button gives back what the form sent.  For a lesson
    created by POST, or updated by PUT, with the data of a form, the edit
    button fills the image-query field with the trimmed image query of
    that form and the video field with its trimmed video address (the
    empty text for a field the form left blank or did not have).  The
    body the server reads is the data of the form itself: its passage
    through JSON between the two programs is not part of the model. *)
Theorem edit_restores_form (entries : list (string * JSValue))
    (data : JSValue) (uuid now : string) (lessons : gmap string Lesson) :
  getFormData entries = Ok data ->
  (exists lesson,
      (post_lesson uuid now data lessons).1 !! uuid = Some lesson /\
      edit_imageSearchQuery (lesson_json lesson) =
        Ok (JStr (trimmed_text (last_value "imageSearchQuery" entries))) /\
      edit_youtubeUrl (lesson_json lesson) =
        Ok (JStr (trimmed_text (last_value "youtubeUrl" entries)))) /\
  (forall id stored,
      lessons !! id = Some stored ->
      lesson_id stored = id ->
      exists lesson,
        (put_lesson now id data lessons).1 !! id = Some lesson /\
        edit_imageSearchQuery (lesson_json lesson) =
          Ok (JStr (trimmed_text (last_value "imageSearchQuery" entries))) /\
        edit_youtubeUrl (lesson_json lesson) =
          Ok (JStr (trimmed_text (last_value "youtubeUrl" entries)))).
Proof.
  intros Hdata. apply getFormData_data in Hdata.
  rewrite !fromEntries_last in Hdata.
  set (q := trimmed_text (last_value "imageSearchQuery" entries)) in *.
  set (u := trimmed_text (last_value "youtubeUrl" entries)) in *.
  assert (Hres : prop data "resources" = JArr (form_resources q u)).
  { subst data. apply assoc_obj_set_eq. }
  assert (Hobj : is_nullish data = false) by (subst data; reflexivity).
  assert (Hedit : forall lesson,
             lesson_resources lesson = JArr (form_resources q u) ->
             edit_imageSearchQuery (lesson_json lesson) = Ok (JStr q) /\
             edit_youtubeUrl (lesson_json lesson) = Ok (JStr u)).
  { intros lesson Hl. unfold edit_imageSearchQuery, edit_youtubeUrl,
      find_resource, lesson_json.
    cbn [get_prop is_nullish prop assoc String.eqb Ascii.eqb Bool.eqb bindR].
    rewrite Hl. unfold js_or at 1 3. cbn [truthy].
    apply find_form_resources. }
  clear Hdata. split.
  - exists (new_lesson uuid now data).
    rewrite post_lesson_new by exact Hobj. cbn [fst].
    split; [apply lookup_insert_eq|]. apply Hedit.
    cbn [new_lesson lesson_resources]. rewrite Hres. reflexivity.
  - intros id stored Hid Hkey.
    exists (merged_lesson now stored data).
    rewrite (put_lesson_merged now id data lessons stored Hid Hobj).
    cbn [fst]. rewrite Hkey. split; [apply lookup_insert_eq|].
    apply Hedit. cbn [merged_lesson lesson_resources]. rewrite Hres.
    reflexivity.
Qed.

Lemma edit_restores_form_witness :
  exists data lesson,
    getFormData demo_form = Ok data /\
    (post_lesson "id-3" "t" data demo_store).1 !! "id-3" = Some lesson /\
    edit_imageSearchQuery (lesson_json lesson) = Ok (JStr "leaf cells") /\
    edit_youtubeUrl (lesson_json lesson) = Ok (JStr EmptyString).
Proof.
  destruct (getFormData demo_form) as [data|e] eqn:Hdata;
    [|vm_compute in Hdata; discriminate].
  destruct (edit_restores_form demo_form data "id-3" "t" demo_store Hdata)
    as [(lesson & Hlook & Hq & Hu) _].
  exists data, lesson. split; [reflexivity|]. split; [exact Hlook|].
  split; [exact Hq|exact Hu].
Defined.

(** * Further properties of the uploads and of the searches *)

Lemma length_append (s t : string) :
  String.length (s +:+ t) = String.length s + String.length t.
Proof.
  induction s as [|c s IH]; [reflexivity|].
  change (S (String.length (s +:+ t)) =
          S (String.length s + String.length t)).
  rewrite IH. reflexivity.
Qed.

Lemma upload_block_length (W : World) (file : UploadedFile) :
  String.length (upload_block W file) <=
  String.length (originalname file) + 4007.
Proof.
  unfold upload_block. rewrite !length_append, slice_to_length.
  change (String.length "File: ") with 6. change (String.length nl) with 1.
  lia.
Qed.

Lemma concat_length (sep : string) (parts : list string) :
  String.length (String.concat sep parts) <=
  list_sum (map (fun part => String.length part + String.length sep) parts).
Proof.
  induction parts as [|part rest IH]; [cbn; lia|].
  destruct rest as [|next rest].
  - cbn [String.concat map list_sum foldr]. lia.
  - change (String.concat sep (part :: next :: rest))
      with (part +:+ sep +:+ String.concat sep (next :: rest)).
    rewrite !length_append.
    change (list_sum
              (map (fun part => String.length part + String.length sep)
                 (part :: next :: rest)))
      with (String.length part + String.length sep +
            list_sum
              (map (fun part => String.length part + String.length sep)
                 (next :: rest))).
    lia.
Qed.

Lemma list_sum_le {A : Type} (f g : A -> nat) (l : list A) :
  (forall x, f x <= g x) -> list_sum (map f l) <= list_sum (map g l).
Proof.
  intros Hle. induction l as [|x l IH]; [reflexivity|].
  change (f x + list_sum (map f l) <= g x + list_sum (map g l)).
  specialize (Hle x). lia.
Qed.

(** X18. The upload digest has a size that does not depend on the size of
    the files: it is at most 27 characters (the placeholder) plus, for
    each file, the length of its name and 4009 (the label, the line break,
    4000 characters of text and the blank line). *)
Theorem digest_bounded (W : World) (files : option (list UploadedFile)) :
  String.length (contextFromFiles W files) <=
  27 + list_sum
         (map (fun file => String.length (originalname file) + 4009)
            (match files with Some uploaded => uploaded | None => [] end)).
Proof.
  assert (Hsum : forall uploaded,
             String.length (summarizeUploads W uploaded) <=
             list_sum
               (map (fun file => String.length (originalname file) + 4009)
                  uploaded)).
  { intros uploaded.
    change (summarizeUploads W uploaded)
      with (String.concat (nl +:+ nl) (map (upload_block W) uploaded)).
    etransitivity; [apply concat_length|].
    rewrite map_map. apply list_sum_le. intros file.
    pose proof (upload_block_length W file) as Hf.
    change (String.length (nl +:+ nl)) with 2. lia. }
  destruct files as [[|f rest]|]; cbn [contextFromFiles].
  - cbn. lia.
  - specialize (Hsum (f :: rest)). lia.
  - cbn. lia.
Qed.

(** ** Sessions without an image search *)

Lemma none_recognized (toolCalls : list JSValue) :
  existsb recognized toolCalls = false ->
  List.filter recognized toolCalls = [].
Proof.
  induction toolCalls as [|call rest IH]; [reflexivity|].
  cbn [existsb List.filter]. intros H. apply orb_false_iff in H as [Hc Hrest].
  rewrite Hc. auto.
Qed.

Lemma generation_loop_no_search (W : World) (resolved : JSValue)
    (tools : list JSValue) (fuel : nat) :
  forall (response : JSValue) (toolCalls : list JSValue) (c : nat)
         (tr : Trace) (evs : list Event),
    collectToolCalls response = Ok toolCalls ->
    existsb recognized toolCalls = false ->
    (generation_loop W fuel resolved tools response toolCalls c tr).1
      = tr ++ evs ->
    existsb asks_image_search (responses_in W tr evs) = false ->
    fetch_calls evs = 0.
Proof.
  assert (Hnil : forall (tr : Trace) (evs : list Event),
             tr = tr ++ evs -> fetch_calls evs = 0).
  { intros tr evs H. rewrite <- (app_nil_r tr) in H at 1.
    apply app_inv_head in H. subst evs. reflexivity. }
  assert (Hone : forall (tr : Trace) (ev : ModelRequest) (evs : list Event),
             tr ++ [EModel ev] = tr ++ evs -> fetch_calls evs = 0).
  { intros tr ev evs H. apply app_inv_head in H. subst evs. reflexivity. }
  induction fuel as [|fuel IH];
    intros response toolCalls c tr evs Hcol Hnone Hrun Hasks.
  - cbn [generation_loop] in Hrun.
    destruct (negb (length toolCalls =? 0) && (c <? 3));
      cbn [fst retM] in Hrun; exact (Hnil tr evs Hrun).
  - rewrite generation_loop_step in Hrun.
    destruct (negb (length toolCalls =? 0) && (c <? 3));
      [|exact (Hnil tr evs Hrun)].
    rewrite round_run, dispatchCalls_skip, (none_recognized _ Hnone) in Hrun
      by (eapply collectToolCalls_objects; exact Hcol).
    cbn [dispatchCalls retM] in Hrun.
    destruct (get_prop response "id") as [previous|e];
      [|exact (Hnil tr evs Hrun)].
    set (request := CreateContinuation previous tools []) in *.
    destruct (responses_create W tr request) as [r|e] eqn:Hr;
      [|exact (Hone tr request evs Hrun)].
    destruct (collectToolCalls r) as [pending|e] eqn:Hpending;
      [|exact (Hone tr request evs Hrun)].
    destruct (generation_loop_events W resolved tools fuel r pending (c + 1)
                (tr ++ [EModel request])) as (evs' & Htr' & _).
    rewrite Htr', <- app_assoc in Hrun. apply app_inv_head in Hrun.
    subst evs. cbn [app responses_in existsb] in Hasks.
    apply orb_false_iff in Hasks as [Hfirst Hrest].
    unfold asks_image_search in Hfirst. rewrite Hr, Hpending in Hfirst.
    change (fetch_calls (EModel request :: evs')) with (fetch_calls evs').
    exact (IH r pending (c + 1) (tr ++ [EModel request]) evs' Hpending
             Hfirst Htr' Hrest).
Qed.

(** X19. The server never searches of its own accord: when none of the
    answers the model service gives during a session holds an invocation
    named [image_search], the session makes no call to the media search,
    whatever else the answers ask for and however the session ends.  What
    the model would have answered to other requests, or after other
    histories, does not matter. *)
Theorem no_search_without_invocation (W : World) (fuel : nat)
    (req : AiRequest) (tr : Trace) :
  existsb asks_image_search
    (responses_in W tr (skipn (length tr) (ai_lesson W fuel req tr).1))
    = false ->
  fetch_calls (skipn (length tr) (ai_lesson W fuel req tr).1) = 0.
Proof.
  rewrite ai_lesson_run.
  destruct (configured W); cbn [fst]; [|rewrite drop_all; reflexivity].
  destruct (is_nullish (req_body req)) eqn:Hb.
  { destruct (generate_unreadable W fuel req tr Hb) as [e ->].
    cbn [fst]. rewrite drop_all. reflexivity. }
  destruct (resolved_query req) as [resolved|e] eqn:Hq.
  2:{ rewrite (generate_unresolved W fuel req tr e Hb Hq).
      cbn [fst]. rewrite drop_all. reflexivity. }
  destruct (session_prompt W req resolved) as [user|e] eqn:Hu.
  2:{ rewrite (generate_unprintable W fuel req tr resolved e Hb Hq Hu).
      cbn [fst]. rewrite drop_all. reflexivity. }
  rewrite (generate_run W fuel req tr resolved user Hb Hq Hu). cbv zeta.
  set (init := initial_request req user).
  destruct (responses_create W tr init) as [response|e] eqn:Hresp.
  2:{ cbn [fst]. rewrite drop_app_length. reflexivity. }
  destruct (collectToolCalls response) as [toolCalls|e] eqn:Hcol.
  2:{ cbn [fst]. rewrite drop_app_length. reflexivity. }
  destruct (generation_loop_events W resolved (session_tools req) fuel
              response toolCalls 0 (tr ++ [EModel init]))
    as (evs & Htr & _).
  assert (Hall : existsb asks_image_search
                   (responses_in W tr (EModel init :: evs)) = false ->
                 fetch_calls (EModel init :: evs) = 0).
  { cbn [responses_in existsb]. intros H.
    apply orb_false_iff in H as [Hfirst Hrest].
    unfold asks_image_search in Hfirst. rewrite Hresp, Hcol in Hfirst.
    change (fetch_calls (EModel init :: evs)) with (fetch_calls evs).
    exact (generation_loop_no_search W resolved (session_tools req) fuel
             response toolCalls 0 (tr ++ [EModel init]) evs Hcol Hfirst
             Htr Hrest). }
  destruct (generation_loop W fuel resolved (session_tools req) response
              toolCalls 0 (tr ++ [EModel init])) as [tr2 res].
  cbn [fst] in Htr. subst tr2.
  replace ((tr ++ [EModel init]) ++ evs) with (tr ++ EModel init :: evs)
    by (rewrite <- app_assoc; reflexivity).
  destruct res as [[[[r' p'] c']|]|e]; cbn [fst];
    rewrite drop_app_length; exact Hall.
Qed.

Lemma no_search_without_invocation_witness :
  fetch_calls (skipn 0 (ai_lesson shy_world 3 demo_request []).1) = 0 /\
  model_calls (ai_lesson shy_world 3 demo_request []).1 = 4 /\
  asks_image_search
    (responses_create shy_world [EFetch []]
       (initial_request demo_request demo_prompt)) = true.
Proof.
  split; [|split; vm_compute; reflexivity].
  apply (no_search_without_invocation shy_world 3 demo_request []).
  vm_compute. reflexivity.
Defined.
